(** * Bus tracking: live fan-out core, position log and rider-facing queries

    A shallow embedding of the tracking core of the repository
    ([app/realtime.py], [app/routers/buses.py], [app/routers/routes.py],
    with the records of [app/models.py] and [app/schemas.py]) together
    with the properties of its specification.

    Conventions of the embedding:
    - a Python [set] of connections is a [gset] of connection handles and
      [list(s)] is [elements s] (an order the program does not choose);
      where the program picks a route id by its place in [list(s)], that
      order is a parameter;
    - a call that may raise returns a [Result]; a handler threads the
      state of the database session and of the connection manager;
    - Python [float] values are read as real numbers and the functions of
      [math] as their real counterparts: what is proved of a distance is
      proved of its exact value, and neither rounding nor the
      [ValueError] that [math.sqrt] raises once rounding has taken its
      argument below zero is part of this reading;
    - a database table is the list of its rows in insertion order. *)

From Stdlib Require Import ZArith String List Reals Lra Psatz Sorted.
From stdpp Require Import gmap sets list strings.

Local Open Scope string_scope.
#[local] Set Warnings "-register-all".

(** ** Exceptions and results *)

Inductive Exn : Type :=
| HTTPException (status_code : Z) (detail : string)
| AttributeError (message : string)
| IndexError (message : string)
| SQLAlchemyError
| SendError.

Inductive Result (A : Type) : Type :=
| Ok (a : A)
| Raise (e : Exn).
Arguments Ok {A} a.
Arguments Raise {A} e.

Definition HTTP_403_FORBIDDEN : Z := 403.
Definition HTTP_404_NOT_FOUND : Z := 404.

(** ** app/realtime.py: the connection manager *)

Module Realtime.

(** The far end of a websocket: whether writes to it still succeed and the
    text frames it has received, oldest first. *)
Record Peer : Type := {
  peer_open : bool;
  peer_inbox : list string
}.

Definition push (data : string) (p : Peer) : Peer :=
  {| peer_open := peer_open p; peer_inbox := peer_inbox p ++ [data] |}.

(** What one call did, in order: a [json.dumps] and the writes. *)
Inductive Effect (Message : Type) : Type :=
| Dumps (message : Message)
| Sent (ws : nat) (data : string)
| SendFailed (ws : nat).
Arguments Dumps {Message} message.
Arguments Sent {Message} ws data.
Arguments SendFailed {Message} ws.

(** The frames a trace delivered, with the connection each went to, and
    the number of serializations in it. *)
Fixpoint frames {Message} (tr : list (Effect Message)) : list (nat * string) :=
  match tr with
  | [] => []
  | Sent ws data :: rest => (ws, data) :: frames rest
  | _ :: rest => frames rest
  end.

Fixpoint dumps_count {Message} (tr : list (Effect Message)) : nat :=
  match tr with
  | [] => 0
  | Dumps _ :: rest => S (dumps_count rest)
  | _ :: rest => dumps_count rest
  end.

(** [ConnectionManager] with the sockets it talks to. *)
Record Manager (Message : Type) : Type := {
  active_connections : gset nat;
  peers : gmap nat Peer;
  journal : list (Effect Message)
}.
Arguments active_connections {Message} m.
Arguments peers {Message} m.
Arguments journal {Message} m.

Section Broadcast.

Context {Message : Type}.
(** [json.dumps(message, default=str)] *)
Variable json_dumps : Message -> string.

(** [websocket.send_text(data)] *)
Definition send_text (ws : nat) (data : string) (net : gmap nat Peer)
  : Result (gmap nat Peer) :=
  match net !! ws with
  | Some p => if peer_open p then Ok (<[ws := push data p]> net) else Raise SendError
  | None => Raise SendError
  end.

(** [ConnectionManager.disconnect] on the membership set *)
Definition disconnect (ws : nat) (conns : gset nat) : gset nat :=
  if decide (ws ∈ conns) then conns ∖ {[ws]} else conns.

(** [ConnectionManager.connect] (after [accept]) *)
Definition connect (ws : nat) (conns : gset nat) : gset nat := {[ws]} ∪ conns.

(** The first loop of [broadcast]: try every connection of the snapshot,
    collecting those whose write raised. *)
Fixpoint send_loop (data : string) (snapshot : list nat) (net : gmap nat Peer)
  : gmap nat Peer * list nat * list (Effect Message) :=
  match snapshot with
  | [] => (net, [], [])
  | connection :: rest =>
      match send_text connection data net with
      | Ok net' =>
          let '(net'', to_remove, tr) := send_loop data rest net' in
          (net'', to_remove, Sent connection data :: tr)
      | Raise _ =>
          let '(net'', to_remove, tr) := send_loop data rest net in
          (net'', connection :: to_remove, SendFailed connection :: tr)
      end
  end.

(** The second loop: [for ws in to_remove: self.disconnect(ws)] *)
Fixpoint prune (to_remove : list nat) (conns : gset nat) : gset nat :=
  match to_remove with
  | [] => conns
  | ws :: rest => prune rest (disconnect ws conns)
  end.

(** [ConnectionManager.broadcast] *)
Definition broadcast (message : Message) (m : Manager Message)
  : Result unit * Manager Message :=
  if decide (active_connections m = ∅) then (Ok tt, m)
  else
    let data := json_dumps message in
    let '(net, to_remove, tr) :=
      send_loop data (elements (active_connections m)) (peers m) in
    (Ok tt,
     {| active_connections := prune to_remove (active_connections m);
        peers := net;
        journal := journal m ++ Dumps message :: tr |}).

(** A write to [ws] succeeds in [net]. *)
Definition deliverable (net : gmap nat Peer) (ws : nat) : bool :=
  match net !! ws with
  | Some p => peer_open p
  | None => false
  end.

Definition inbox (net : gmap nat Peer) (ws : nat) : list string :=
  match net !! ws with
  | Some p => peer_inbox p
  | None => []
  end.

End Broadcast.

End Realtime.

(** ** Python values carried by a broadcast message *)

Inductive PyVal : Type :=
| PyNone
| PyInt (z : Z)
| PyFloat (x : R)
| PyStr (s : string)
| PyDatetime (t : Z)
| PyDict (items : list (string * PyVal)).

Definition py_optional_int (o : option Z) : PyVal :=
  match o with
  | Some z => PyInt z
  | None => PyNone
  end.

(** ** app/models.py: the rows of the relational store *)

Inductive CrowdLevel : Type := LOW | MEDIUM | HIGH.

(** [str(level)] of a member of [class CrowdLevel(str, enum.Enum)] *)
Definition str_CrowdLevel (c : CrowdLevel) : string :=
  match c with
  | LOW => "CrowdLevel.LOW"
  | MEDIUM => "CrowdLevel.MEDIUM"
  | HIGH => "CrowdLevel.HIGH"
  end.

Module Driver.
Record t : Type := { id : Z; user_id : Z }.
End Driver.

Module User.
Record t : Type := {
  id : Z;
  username : string;
  role : string;
  driver_profile : option Driver.t
}.
End User.

Module Bus.
Record t : Type := { id : Z; bus_number : string }.
End Bus.

Module Route.
Record t : Type := { id : Z; name : string }.
End Route.

Module BusStop.
Record t : Type := { id : Z; name : string; latitude : R; longitude : R }.
End BusStop.

Module RouteStop.
Record t : Type := { id : Z; route_id : Z; stop_id : Z; sequence : Z }.
End RouteStop.

Module BusAssignment.
Record t : Type := {
  id : Z;
  bus_id : Z;
  driver_id : Z;
  route_id : Z;
  start_time : Z;
  is_active : bool
}.
End BusAssignment.

Module BusTracking.
Record t : Type := {
  id : Z;
  bus_id : Z;
  latitude : R;
  longitude : R;
  speed_kmh : option R;
  heading : option R;
  accuracy_meters : option R;
  crowd_level : CrowdLevel;
  current_stop_id : option Z;
  next_stop_id : option Z;
  eta_minutes : option Z;
  is_on_route : bool;
  timestamp : Z
}.

(** The row as the database returns it after the insert: the primary key
    and the [server_default=func.now()] timestamp come from the store. *)
Definition stored (pk now : Z) (r : t) : t :=
  {| id := pk; bus_id := bus_id r; latitude := latitude r;
     longitude := longitude r; speed_kmh := speed_kmh r;
     heading := heading r; accuracy_meters := accuracy_meters r;
     crowd_level := crowd_level r; current_stop_id := current_stop_id r;
     next_stop_id := next_stop_id r; eta_minutes := eta_minutes r;
     is_on_route := is_on_route r; timestamp := now |}.
End BusTracking.

(** ** app/schemas.py *)

Module BusLocationUpdate.
Record t : Type := {
  bus_id : Z;
  latitude : R;
  longitude : R;
  speed_kmh : option R;
  heading : option R;
  accuracy_meters : option R;
  crowd_level : option CrowdLevel;
  current_stop_id : option Z;
  next_stop_id : option Z;
  eta_minutes : option Z
}.

(** [location_data.is_on_route]: the class declares no such field and a
    pydantic model keeps no undeclared input, so the read raises. *)
Definition is_on_route (l : t) : Result bool :=
  Raise (AttributeError "'BusLocationUpdate' object has no attribute 'is_on_route'").

(** Two request bodies that agree on every field but [bus_id]. *)
Definition same_but_bus_id (l1 l2 : t) : Prop :=
  latitude l1 = latitude l2 /\ longitude l1 = longitude l2 /\
  speed_kmh l1 = speed_kmh l2 /\ heading l1 = heading l2 /\
  accuracy_meters l1 = accuracy_meters l2 /\
  crowd_level l1 = crowd_level l2 /\
  current_stop_id l1 = current_stop_id l2 /\
  next_stop_id l1 = next_stop_id l2 /\
  eta_minutes l1 = eta_minutes l2.
End BusLocationUpdate.

Module BusStatusSummary.
Record t : Type := {
  bus_id : Z;
  bus_number : string;
  route_name : string;
  current_location : option (R * R);
  next_stop : option string;
  eta_minutes : option Z;
  crowd_level : CrowdLevel;
  is_on_route : bool;
  last_updated : Z
}.
End BusStatusSummary.

Module RoutePlanRequest.
Record t : Type := { origin : string; destination : string }.
End RoutePlanRequest.

Module RouteOption.
Record t : Type := {
  duration_minutes : Z;
  transfers : Z;
  buses : list string;
  walking_time_minutes : Z;
  details : string;
  total_distance_km : R
}.
End RouteOption.

Module RoutePlanResponse.
Record t : Type := {
  options : list RouteOption.t;
  origin : string;
  destination : string
}.
End RoutePlanResponse.

(** ** The database session *)

Module Session.

Record t : Type := {
  buses : list Bus.t;
  routes : list Route.t;
  bus_stops : list BusStop.t;
  route_stops : list RouteStop.t;
  bus_assignments : list BusAssignment.t;
  bus_tracking : list BusTracking.t;
  pending : list BusTracking.t;      (* added, not yet committed *)
  now : Z;                           (* the clock of the store *)
  commit_ok : bool;                  (* does the store accept the next commit *)
  refresh_ok : bool                  (* does the next reload succeed *)
}.

Definition with_pending (p : list BusTracking.t) (s : t) : t :=
  {| buses := buses s; routes := routes s; bus_stops := bus_stops s;
     route_stops := route_stops s; bus_assignments := bus_assignments s;
     bus_tracking := bus_tracking s; pending := p; now := now s;
     commit_ok := commit_ok s; refresh_ok := refresh_ok s |}.

Definition with_tracking (rows : list BusTracking.t) (s : t) : t :=
  {| buses := buses s; routes := routes s; bus_stops := bus_stops s;
     route_stops := route_stops s; bus_assignments := bus_assignments s;
     bus_tracking := rows; pending := []; now := now s;
     commit_ok := commit_ok s; refresh_ok := refresh_ok s |}.

(** The next value of the autoincrement primary key. *)
Definition next_id (rows : list BusTracking.t) : Z :=
  (1 + fold_right Z.max 0 (map BusTracking.id rows))%Z.

(** Primary keys handed to the pending rows, in the order they were added. *)
Fixpoint flush (pk now : Z) (p : list BusTracking.t) : list BusTracking.t :=
  match p with
  | [] => []
  | r :: rest => BusTracking.stored pk now r :: flush (pk + 1)%Z now rest
  end.

(** [db.add(row)] *)
Definition add (r : BusTracking.t) (s : t) : t := with_pending (pending s ++ [r]) s.

(** [db.commit()]: the rows durably appended, or the failure of the store. *)
Definition commit (s : t) : Result (list BusTracking.t) * t :=
  if commit_ok s then
    let rows := flush (next_id (bus_tracking s)) (now s) (pending s) in
    (Ok rows, with_tracking (bus_tracking s ++ rows) s)
  else (Raise SQLAlchemyError, with_pending [] s).

(** [db.refresh(row)]: reload the row with primary key [pk]. *)
Definition refresh (pk : Z) (s : t) : Result BusTracking.t :=
  if refresh_ok s then
    match find (fun r => BusTracking.id r =? pk)%Z (bus_tracking s) with
    | Some r => Ok r
    | None => Raise SQLAlchemyError
    end
  else Raise SQLAlchemyError.

(** [db.query(Bus).filter(Bus.id == bus_id).first()] *)
Definition bus_by_id (bus_id : Z) (s : t) : option Bus.t :=
  find (fun b => Bus.id b =? bus_id)%Z (buses s).

(** [db.query(Route).filter(Route.id == route_id).first()] *)
Definition route_by_id (route_id : Z) (s : t) : option Route.t :=
  find (fun r => Route.id r =? route_id)%Z (routes s).

Definition stop_by_id (stop_id : Z) (s : t) : option BusStop.t :=
  find (fun b => BusStop.id b =? stop_id)%Z (bus_stops s).

(** [db.query(BusAssignment).filter(BusAssignment.is_active == True).all()] *)
Definition active_assignments (s : t) : list BusAssignment.t :=
  filter (fun a => BusAssignment.is_active a = true) (bus_assignments s).

(** [db.query(BusTracking).filter(BusTracking.bus_id == bus_id)] *)
Definition tracking_of (bus_id : Z) (s : t) : list BusTracking.t :=
  filter (fun r => BusTracking.bus_id r = bus_id) (bus_tracking s).

End Session.

(** ** [ORDER BY timestamp DESC] and [first()]

    The query names one sort key. An engine is a function that answers
    the query; [order_by_desc_first] is what the text of the query asks
    of any engine, and [index_walk] below is the answer of the store the
    application is configured with. *)

Definition Engine : Type := list BusTracking.t -> option BusTracking.t.

Record order_by_desc_first (E : Engine) : Prop := {
  first_empty : E [] = None;
  first_some : forall rows, rows <> [] -> exists r, E rows = Some r;
  first_elem : forall rows r, E rows = Some r -> r ∈ rows;
  first_newest : forall rows r r',
      E rows = Some r -> r' ∈ rows ->
      (BusTracking.timestamp r' <= BusTracking.timestamp r)%Z
}.

(** A scan of the rows in insertion order that replaces the row it holds
    by any strictly newer one and, at equal timestamps, when
    [tie held row] says so. *)
Fixpoint newest (tie : BusTracking.t -> BusTracking.t -> bool)
  (best : BusTracking.t) (rows : list BusTracking.t) : BusTracking.t :=
  match rows with
  | [] => best
  | r :: rest =>
      let replace :=
        (BusTracking.timestamp best <? BusTracking.timestamp r)%Z ||
        ((BusTracking.timestamp best =? BusTracking.timestamp r)%Z && tie best r) in
      newest tie (if replace then r else best) rest
  end.

Definition scan_engine (tie : BusTracking.t -> BusTracking.t -> bool) : Engine :=
  fun rows =>
    match rows with
    | [] => None
    | r :: rest => Some (newest tie r rest)
    end.

Definition take_last (best r : BusTracking.t) : bool := true.

(** The store of [app/config.py] (SQLite) with the index that
    [app/models.py] puts on [timestamp] ([index=True]): the query is
    answered by reading that index backwards. Its entries are ordered by
    timestamp and, at equal timestamps, by row id, which grows with each
    insertion; read backwards, the first row is a newest one and, among
    several newest, the one inserted last. *)
Definition index_walk : Engine := scan_engine take_last.

(** ** app/routers/buses.py *)

Module Buses.

(** *** [calculate_distance] *)

Definition radians (x : R) : R := (x * (PI / 180))%R.

(** [math.atan2(y, x)] *)
Definition atan2 (y x : R) : R :=
  if Rlt_dec 0 x then atan (y / x)
  else if Rlt_dec x 0 then
    (if Rle_dec 0 y then atan (y / x) + PI else atan (y / x) - PI)%R
  else if Rlt_dec 0 y then (PI / 2)%R
  else if Rlt_dec y 0 then (- (PI / 2))%R
  else 0%R.

(** The haversine term [a] of the formula. *)
Definition haversine_a (lat1 lon1 lat2 lon2 : R) : R :=
  let dlat := radians (lat2 - lat1) in
  let dlon := radians (lon2 - lon1) in
  (sin (dlat / 2) * sin (dlat / 2) +
   cos (radians lat1) * cos (radians lat2) *
   sin (dlon / 2) * sin (dlon / 2))%R.

(** [calculate_distance], on exact values. On floats the term [a] of two
    nearly antipodal points can round above one; [math.sqrt(1 - a)] then
    raises [ValueError], which this definition does not show. *)
Definition calculate_distance (lat1 lon1 lat2 lon2 : R) : R :=
  let R_earth := 6371%R in
  let a := haversine_a lat1 lon1 lat2 lon2 in
  let c := (2 * atan2 (sqrt a) (sqrt (1 - a)))%R in
  (R_earth * c)%R.

(** *** The state a handler runs in *)

(** What a recording request did to the outside, in order. *)
Inductive Event : Type :=
| Committed (row : BusTracking.t)
| CommitFailed
| Announced (message : PyVal).

Record World : Type := {
  db : Session.t;
  manager : Realtime.Manager PyVal;
  events : list Event
}.

Definition M (A : Type) : Type := World -> Result A * World.

Definition ret {A} (a : A) : M A := fun w => (Ok a, w).

Definition raise {A} (e : Exn) : M A := fun w => (Raise e, w).

Definition bind {A B} (c : M A) (k : A -> M B) : M B :=
  fun w =>
    match c w with
    | (Ok a, w') => k a w'
    | (Raise e, w') => (Raise e, w')
    end.

Notation "x <- c ;; k" := (bind c (fun x => k))
  (at level 100, c at next level, right associativity).
Notation "c ;;; k" := (bind c (fun _ => k))
  (at level 100, right associativity).

Definition lift {A} (r : Result A) : M A := fun w => (r, w).

Definition db_add (r : BusTracking.t) : M unit :=
  fun w =>
    (Ok tt, {| db := Session.add r (db w); manager := manager w; events := events w |}).

Definition db_commit : M (list BusTracking.t) :=
  fun w =>
    match Session.commit (db w) with
    | (Ok rows, s) =>
        (Ok rows, {| db := s; manager := manager w;
                     events := events w ++ map Committed rows |})
    | (Raise e, s) =>
        (Raise e, {| db := s; manager := manager w;
                     events := events w ++ [CommitFailed] |})
    end.

Definition db_refresh (pk : Z) : M BusTracking.t :=
  fun w => (Session.refresh pk (db w), w).

(** The row a request inserts and the rows its commit flushes. *)
Definition inserted_row (tracking_data : BusTracking.t) (w : World) : BusTracking.t :=
  BusTracking.stored
    (Session.next_id (Session.bus_tracking (db w))
     + Z.of_nat (length (Session.pending (db w))))%Z
    (Session.now (db w)) tracking_data.

Definition flushed_rows (tracking_data : BusTracking.t) (w : World)
  : list BusTracking.t :=
  Session.flush (Session.next_id (Session.bus_tracking (db w)))
    (Session.now (db w)) (Session.pending (db w) ++ [tracking_data]).

Section Handlers.

(** [json.dumps(message, default=str)] and the database's answer to
    [ORDER BY timestamp DESC ... first()]. *)
Variable json_dumps : PyVal -> string.
Variable E : Engine.

Definition manager_broadcast (message : PyVal) : M unit :=
  fun w =>
    let '(r, m) := Realtime.broadcast json_dumps message (manager w) in
    (r, {| db := db w; manager := m; events := events w ++ [Announced message] |}).

(** *** [update_bus_location] *)

(** The keyword arguments of [BusTracking(...)]; the primary key and the
    timestamp are the store's to give. *)
Definition new_tracking (bus_id : Z) (location_data : BusLocationUpdate.t)
  (is_on_route : bool) : BusTracking.t :=
  {| BusTracking.id := 0;
     BusTracking.bus_id := bus_id;
     BusTracking.latitude := BusLocationUpdate.latitude location_data;
     BusTracking.longitude := BusLocationUpdate.longitude location_data;
     BusTracking.speed_kmh := BusLocationUpdate.speed_kmh location_data;
     BusTracking.heading := BusLocationUpdate.heading location_data;
     BusTracking.accuracy_meters := BusLocationUpdate.accuracy_meters location_data;
     BusTracking.crowd_level :=
       match BusLocationUpdate.crowd_level location_data with
       | Some c => c
       | None => MEDIUM
       end;
     BusTracking.current_stop_id := BusLocationUpdate.current_stop_id location_data;
     BusTracking.next_stop_id := BusLocationUpdate.next_stop_id location_data;
     BusTracking.eta_minutes := BusLocationUpdate.eta_minutes location_data;
     BusTracking.is_on_route := is_on_route;
     BusTracking.timestamp := 0 |}.

(** The message of the broadcast. *)
Definition location_update (bus_id : Z) (tracking_data : BusTracking.t) : PyVal :=
  PyDict
    [("type", PyStr "location_update");
     ("data",
      PyDict
        [("bus_id", PyInt bus_id);
         ("latitude", PyFloat (BusTracking.latitude tracking_data));
         ("longitude", PyFloat (BusTracking.longitude tracking_data));
         ("eta_minutes", py_optional_int (BusTracking.eta_minutes tracking_data));
         ("crowd_level", PyStr (str_CrowdLevel (BusTracking.crowd_level tracking_data)));
         ("timestamp", PyDatetime (BusTracking.timestamp tracking_data))])].

(** Lines 226-242: add, commit, refresh, broadcast, return. *)
Definition store_and_announce (bus_id : Z) (tracking_data : BusTracking.t)
  : M BusTracking.t :=
  db_add tracking_data ;;;
  rows <- db_commit ;;
  match last rows with
  | None => raise SQLAlchemyError
  | Some inserted =>
      tracking_data' <- db_refresh (BusTracking.id inserted) ;;
      manager_broadcast (location_update bus_id tracking_data') ;;;
      ret tracking_data'
  end.

(** A monitor of the events of a request: every announcement carries a
    sample committed before it. [committed] holds the rows seen so far. *)
Fixpoint announced_after_commit (bus_id : Z) (committed : list BusTracking.t)
  (evs : list Event) : Prop :=
  match evs with
  | [] => True
  | Committed row :: rest => announced_after_commit bus_id (row :: committed) rest
  | CommitFailed :: rest => announced_after_commit bus_id committed rest
  | Announced message :: rest =>
      (exists row, row ∈ committed /\ message = location_update bus_id row) /\
      announced_after_commit bus_id committed rest
  end.

Fixpoint announcements (evs : list Event) : nat :=
  match evs with
  | [] => 0
  | Announced _ :: rest => S (announcements rest)
  | _ :: rest => announcements rest
  end.

Definition assigned_to (bus_id driver_id : Z) (a : BusAssignment.t) : bool :=
  (BusAssignment.bus_id a =? bus_id)%Z &&
  (BusAssignment.driver_id a =? driver_id)%Z &&
  BusAssignment.is_active a.

Definition update_bus_location (bus_id : Z) (location_data : BusLocationUpdate.t)
  (current_user : User.t) : M BusTracking.t :=
  fun w =>
    match Session.bus_by_id bus_id (db w) with
    | None => raise (HTTPException HTTP_404_NOT_FOUND "Bus not found") w
    | Some bus =>
        match User.driver_profile current_user with
        | None => raise (AttributeError "'NoneType' object has no attribute 'id'") w
        | Some profile =>
            match find (assigned_to bus_id (Driver.id profile))
                    (Session.bus_assignments (db w)) with
            | None =>
                raise (HTTPException HTTP_403_FORBIDDEN
                         "You are not assigned to this bus") w
            | Some active_assignment =>
                (is_on_route <- lift (BusLocationUpdate.is_on_route location_data) ;;
                 store_and_announce bus_id
                   (new_tracking bus_id location_data is_on_route)) w
            end
        end
    end.

(** *** [get_active_buses_status] *)

(** [latest_tracking]: the query of lines 258-260 and 303-305. *)
Definition latest_tracking (bus_id : Z) (s : Session.t) : option BusTracking.t :=
  E (Session.tracking_of bus_id s).

(** [assignment.bus] *)
Definition assignment_bus (a : BusAssignment.t) (s : Session.t) : Result Bus.t :=
  match Session.bus_by_id (BusAssignment.bus_id a) s with
  | Some b => Ok b
  | None => Raise (AttributeError "'NoneType' object has no attribute 'id'")
  end.

Definition route_name (a : BusAssignment.t) (s : Session.t) : string :=
  match Session.route_by_id (BusAssignment.route_id a) s with
  | Some route => Route.name route
  | None => "Unknown Route"
  end.

(** [latest_tracking.next_stop.name if latest_tracking.next_stop else None] *)
Definition next_stop_name (t : BusTracking.t) (s : Session.t) : option string :=
  match BusTracking.next_stop_id t with
  | Some stop_id =>
      match Session.stop_by_id stop_id s with
      | Some stop => Some (BusStop.name stop)
      | None => None
      end
  | None => None
  end.

(** The body of the loop over the active assignments. *)
Definition bus_status (s : Session.t) (assignment : BusAssignment.t)
  : Result BusStatusSummary.t :=
  let latest := latest_tracking (BusAssignment.bus_id assignment) s in
  match assignment_bus assignment s with
  | Raise e => Raise e
  | Ok bus =>
      Ok {| BusStatusSummary.bus_id := Bus.id bus;
            BusStatusSummary.bus_number := Bus.bus_number bus;
            BusStatusSummary.route_name := route_name assignment s;
            BusStatusSummary.current_location :=
              match latest with
              | Some t => Some (BusTracking.latitude t, BusTracking.longitude t)
              | None => None
              end;
            BusStatusSummary.next_stop :=
              match latest with
              | Some t => next_stop_name t s
              | None => None
              end;
            BusStatusSummary.eta_minutes :=
              match latest with
              | Some t => BusTracking.eta_minutes t
              | None => None
              end;
            BusStatusSummary.crowd_level :=
              match latest with
              | Some t => BusTracking.crowd_level t
              | None => MEDIUM
              end;
            BusStatusSummary.is_on_route :=
              match latest with
              | Some t => BusTracking.is_on_route t
              | None => true
              end;
            BusStatusSummary.last_updated :=
              match latest with
              | Some t => BusTracking.timestamp t
              | None => BusAssignment.start_time assignment
              end |}
  end.

Fixpoint status_loop (s : Session.t) (assignments : list BusAssignment.t)
  : Result (list BusStatusSummary.t) :=
  match assignments with
  | [] => Ok []
  | assignment :: rest =>
      match bus_status s assignment with
      | Raise e => Raise e
      | Ok bus_status =>
          match status_loop s rest with
          | Raise e => Raise e
          | Ok bus_statuses => Ok (bus_status :: bus_statuses)
          end
      end
  end.

Definition get_active_buses_status (s : Session.t)
  : Result (list BusStatusSummary.t) :=
  status_loop s (Session.active_assignments s).

(** *** [get_nearby_buses] *)

(** One turn of the loop: nothing ([continue], or too far) or one summary. *)
Definition nearby_status (latitude longitude radius_km : R) (s : Session.t)
  (assignment : BusAssignment.t) : Result (option BusStatusSummary.t) :=
  match latest_tracking (BusAssignment.bus_id assignment) s with
  | None => Ok None
  | Some latest =>
      let distance :=
        calculate_distance latitude longitude
          (BusTracking.latitude latest) (BusTracking.longitude latest) in
      if Rle_dec distance radius_km then
        match assignment_bus assignment s with
        | Raise e => Raise e
        | Ok bus =>
            Ok (Some
              {| BusStatusSummary.bus_id := Bus.id bus;
                 BusStatusSummary.bus_number := Bus.bus_number bus;
                 BusStatusSummary.route_name := route_name assignment s;
                 BusStatusSummary.current_location :=
                   Some (BusTracking.latitude latest, BusTracking.longitude latest);
                 BusStatusSummary.next_stop := next_stop_name latest s;
                 BusStatusSummary.eta_minutes := BusTracking.eta_minutes latest;
                 BusStatusSummary.crowd_level := BusTracking.crowd_level latest;
                 BusStatusSummary.is_on_route := BusTracking.is_on_route latest;
                 BusStatusSummary.last_updated := BusTracking.timestamp latest |})
        end
      else Ok None
  end.

Fixpoint nearby_loop (latitude longitude radius_km : R) (s : Session.t)
  (assignments : list BusAssignment.t) : Result (list BusStatusSummary.t) :=
  match assignments with
  | [] => Ok []
  | assignment :: rest =>
      match nearby_status latitude longitude radius_km s assignment with
      | Raise e => Raise e
      | Ok found =>
          match nearby_loop latitude longitude radius_km s rest with
          | Raise e => Raise e
          | Ok nearby_buses =>
              Ok (match found with
                  | Some bus_status => bus_status :: nearby_buses
                  | None => nearby_buses
                  end)
          end
      end
  end.

Definition get_nearby_buses (latitude longitude radius_km : R) (s : Session.t)
  : Result (list BusStatusSummary.t) :=
  nearby_loop latitude longitude radius_km s (Session.active_assignments s).

End Handlers.

End Buses.

(** ** app/routers/routes.py: the route planner *)

Module Routes.

Record DirectRoute : Type := { bus_number : string; route_id : Z }.

Record TransferRoute : Type := { buses : list string; transfer_stop : string }.

(** [xs[i]] on a list of strings *)
Definition index (xs : list string) (i : nat) : Result string :=
  match nth_error xs i with
  | Some x => Ok x
  | None => Raise (IndexError "list index out of range")
  end.

(** [list(set(xs) & set(ys))]: the route ids found in both lists, each
    once, in the order in which the hash table of the interpreter holds
    them. The program does not choose that order, and it follows from the
    history of the table as well as from its members; what the language
    fixes is which ids are listed. *)
Record SetOrder : Type := {
  list_and : list Z -> list Z -> list Z;
  list_and_elem : forall xs ys x, x ∈ list_and xs ys <-> x ∈ xs /\ x ∈ ys;
  list_and_NoDup : forall xs ys, NoDup (list_and xs ys)
}.

(** One such order: that of the members of a [gset]. *)
Definition gset_order : SetOrder :=
  {| list_and xs ys := elements (list_to_set xs ∩ list_to_set ys : gset Z);
     list_and_elem xs ys x :=
       ltac:(rewrite elem_of_elements, elem_of_intersection,
               !elem_of_list_to_set; reflexivity);
     list_and_NoDup xs ys := NoDup_elements _ |}.

Section Planner.

(** [BusStop.name.ilike(pattern)], the operator of the database. *)
Variable ilike : string -> string -> bool.

(** The order of [list(common_routes)]. *)
Variable order : SetOrder.

(** [find_nearby_stops] *)
Definition find_nearby_stops (location : string) (db : Session.t) : list BusStop.t :=
  take 3 (List.filter (fun stop => ilike (BusStop.name stop) ("%" +:+ location +:+ "%"))
            (Session.bus_stops db)).

Definition routes_through (stop : BusStop.t) (db : Session.t) : list Z :=
  map RouteStop.route_id
    (List.filter (fun rs => (RouteStop.stop_id rs =? BusStop.id stop)%Z)
       (Session.route_stops db)).

(** [find_direct_route] *)
Definition find_direct_route (origin_stop destination_stop : BusStop.t)
  (db : Session.t) : Result (option DirectRoute) :=
  let origin_routes := routes_through origin_stop db in
  let destination_routes := routes_through destination_stop db in
  let common_routes := list_and order origin_routes destination_routes in
  match common_routes with
  | [] => Ok None
  | route_id :: _ =>
      match find (fun a => (BusAssignment.route_id a =? route_id)%Z &&
                           BusAssignment.is_active a)
              (Session.bus_assignments db) with
      | Some assignment =>
          match Session.bus_by_id (BusAssignment.bus_id assignment) db with
          | Some bus =>
              Ok (Some {| bus_number := Bus.bus_number bus; route_id := route_id |})
          | None =>
              Raise (AttributeError "'NoneType' object has no attribute 'bus_number'")
          end
      | None => Ok None
      end
  end.

(** [find_transfer_route] *)
Definition find_transfer_route (origin_stop destination_stop : BusStop.t)
  (db : Session.t) : option TransferRoute :=
  Some {| buses := ["Bus A"; "Bus B"]; transfer_stop := "Central Station" |}.

Definition direct_option (plan_request : RoutePlanRequest.t) (d : DirectRoute)
  : RouteOption.t :=
  {| RouteOption.duration_minutes := 30;
     RouteOption.transfers := 0;
     RouteOption.buses := [bus_number d];
     RouteOption.walking_time_minutes := 5;
     RouteOption.details :=
       "Take " +:+ bus_number d +:+ " from " +:+ RoutePlanRequest.origin plan_request
       +:+ " to " +:+ RoutePlanRequest.destination plan_request;
     RouteOption.total_distance_km := (105 / 10)%R |}.

Definition transfer_option (t : TransferRoute) : Result RouteOption.t :=
  match index (buses t) 0, index (buses t) 1 with
  | Ok first, Ok second =>
      Ok {| RouteOption.duration_minutes := 45;
            RouteOption.transfers := 1;
            RouteOption.buses := buses t;
            RouteOption.walking_time_minutes := 8;
            RouteOption.details :=
              "Take " +:+ first +:+ ", transfer at " +:+ transfer_stop t
              +:+ ", then " +:+ second;
            RouteOption.total_distance_km := (123 / 10)%R |}
  | Raise e, _ => Raise e
  | _, Raise e => Raise e
  end.

Definition alternative_option : RouteOption.t :=
  {| RouteOption.duration_minutes := 55;
     RouteOption.transfers := 1;
     RouteOption.buses := ["Alternative Bus"];
     RouteOption.walking_time_minutes := 10;
     RouteOption.details := "Alternative route with longer travel time";
     RouteOption.total_distance_km := (152 / 10)%R |}.

(** [plan_route] *)
Definition plan_route (plan_request : RoutePlanRequest.t) (db : Session.t)
  : Result RoutePlanResponse.t :=
  let origin_stops := find_nearby_stops (RoutePlanRequest.origin plan_request) db in
  let destination_stops :=
    find_nearby_stops (RoutePlanRequest.destination plan_request) db in
  match origin_stops, destination_stops with
  | origin_stop :: _, destination_stop :: _ =>
      match find_direct_route origin_stop destination_stop db with
      | Raise e => Raise e
      | Ok direct_route =>
          let options :=
            match direct_route with
            | Some d => [direct_option plan_request d]
            | None => []
            end in
          let with_transfer :=
            match find_transfer_route origin_stop destination_stop db with
            | Some t =>
                match transfer_option t with
                | Ok o => Ok (options ++ [o])%list
                | Raise e => Raise e
                end
            | None => Ok options
            end in
          match with_transfer with
          | Raise e => Raise e
          | Ok options =>
              let options :=
                if (length options <? 2)%nat
                then (options ++ [alternative_option])%list
                else options in
              Ok {| RoutePlanResponse.options := options;
                    RoutePlanResponse.origin := RoutePlanRequest.origin plan_request;
                    RoutePlanResponse.destination :=
                      RoutePlanRequest.destination plan_request |}
          end
      end
  | _, _ =>
      Raise (HTTPException HTTP_404_NOT_FOUND
               "No stops found near the specified locations")
  end.

End Planner.

End Routes.

(** ** Sample data *)

Module Sample.

(** A stand-in for [json.dumps]: the tag of the value. *)
Definition render (v : PyVal) : string :=
  match v with
  | PyNone => "null"
  | PyInt _ => "int"
  | PyFloat _ => "float"
  | PyStr s => s
  | PyDatetime _ => "datetime"
  | PyDict _ => "{}"
  end.

Definition open_peer : Realtime.Peer :=
  {| Realtime.peer_open := true; Realtime.peer_inbox := [] |}.

Definition closed_peer : Realtime.Peer :=
  {| Realtime.peer_open := false; Realtime.peer_inbox := [] |}.

(** Three registered observers, the second one gone. *)
Definition three_observers : Realtime.Manager PyVal :=
  {| Realtime.active_connections := {[1%nat; 2%nat; 3%nat]};
     Realtime.peers :=
       <[1%nat := open_peer]> (<[2%nat := closed_peer]> (<[3%nat := open_peer]> ∅));
     Realtime.journal := [] |}.

Definition two_observers : Realtime.Manager PyVal :=
  {| Realtime.active_connections := {[1%nat; 2%nat]};
     Realtime.peers := <[1%nat := open_peer]> (<[2%nat := open_peer]> ∅);
     Realtime.journal := [] |}.

Definition telemetry (pk bus_id timestamp : Z) (on_route : bool) : BusTracking.t :=
  {| BusTracking.id := pk; BusTracking.bus_id := bus_id;
     BusTracking.latitude := 0; BusTracking.longitude := 0;
     BusTracking.speed_kmh := None; BusTracking.heading := None;
     BusTracking.accuracy_meters := None; BusTracking.crowd_level := LOW;
     BusTracking.current_stop_id := None; BusTracking.next_stop_id := None;
     BusTracking.eta_minutes := Some 4%Z; BusTracking.is_on_route := on_route;
     BusTracking.timestamp := timestamp |}.

Definition store (buses : list Bus.t) (assignments : list BusAssignment.t)
  (rows : list BusTracking.t) : Session.t :=
  {| Session.buses := buses; Session.routes := []; Session.bus_stops := [];
     Session.route_stops := []; Session.bus_assignments := assignments;
     Session.bus_tracking := rows; Session.pending := [];
     Session.now := 1000; Session.commit_ok := true; Session.refresh_ok := true |}.

Definition bus7 : Bus.t := {| Bus.id := 7; Bus.bus_number := "KA-07" |}.

Definition assignment7 : BusAssignment.t :=
  {| BusAssignment.id := 1; BusAssignment.bus_id := 7;
     BusAssignment.driver_id := 3; BusAssignment.route_id := 5;
     BusAssignment.start_time := 500; BusAssignment.is_active := true |}.

Definition driver3 : User.t :=
  {| User.id := 30; User.username := "driver"; User.role := "driver";
     User.driver_profile := Some {| Driver.id := 3; Driver.user_id := 30 |} |}.

Definition location (bus_id : Z) : BusLocationUpdate.t :=
  {| BusLocationUpdate.bus_id := bus_id;
     BusLocationUpdate.latitude := 0; BusLocationUpdate.longitude := 0;
     BusLocationUpdate.speed_kmh := None; BusLocationUpdate.heading := None;
     BusLocationUpdate.accuracy_meters := None;
     BusLocationUpdate.crowd_level := Some HIGH;
     BusLocationUpdate.current_stop_id := None;
     BusLocationUpdate.next_stop_id := None;
     BusLocationUpdate.eta_minutes := Some 4%Z |}.

Definition world (s : Session.t) : Buses.World :=
  {| Buses.db := s; Buses.manager := two_observers; Buses.events := [] |}.

(** Two samples of bus 7 with one timestamp. *)
Definition tied : list BusTracking.t :=
  [telemetry 1 7 100 true; telemetry 2 7 100 false].

(** Two samples of bus 7, the newer one inserted first. *)
Definition late_arrival : list BusTracking.t :=
  [telemetry 1 7 200 true; telemetry 2 7 100 true].

(** Two samples of bus 7, the second one newer. *)
Definition ordered : list BusTracking.t :=
  [telemetry 1 7 100 true; telemetry 2 7 200 true].

Definition bus8 : Bus.t := {| Bus.id := 8; Bus.bus_number := "KA-08" |}.

Definition assignment8 : BusAssignment.t :=
  {| BusAssignment.id := 2; BusAssignment.bus_id := 8;
     BusAssignment.driver_id := 4; BusAssignment.route_id := 6;
     BusAssignment.start_time := 600; BusAssignment.is_active := true |}.

(** Bus 7 has reported once, bus 8 never. *)
Definition fleet : Session.t :=
  store [bus7; bus8] [assignment7; assignment8] [telemetry 1 7 100 true].

(** A stand-in for [ilike]: every name matches. *)
Definition any_name (name pattern : string) : bool := true.

Definition stop (pk : Z) (name : string) : BusStop.t :=
  {| BusStop.id := pk; BusStop.name := name;
     BusStop.latitude := 0; BusStop.longitude := 0 |}.

(** Two stops on route 5, which bus 7 serves. *)
Definition city : Session.t :=
  {| Session.buses := [bus7]; Session.routes := [];
     Session.bus_stops := [stop 1 "Library"; stop 2 "Hostel"];
     Session.route_stops :=
       [{| RouteStop.id := 1; RouteStop.route_id := 5; RouteStop.stop_id := 1;
           RouteStop.sequence := 1 |};
        {| RouteStop.id := 2; RouteStop.route_id := 5; RouteStop.stop_id := 2;
           RouteStop.sequence := 2 |}];
     Session.bus_assignments := [assignment7];
     Session.bus_tracking := []; Session.pending := [];
     Session.now := 1000; Session.commit_ok := true; Session.refresh_ok := true |}.

Definition trip : RoutePlanRequest.t :=
  {| RoutePlanRequest.origin := "Library"; RoutePlanRequest.destination := "Hostel" |}.

End Sample.

(** ** Reading the journal of the manager *)

Module Journal.

(** The connections a trace tried to write to, in order. *)
Fixpoint attempted {Message} (tr : list (Realtime.Effect Message)) : list nat :=
  match tr with
  | [] => []
  | Realtime.Dumps _ :: rest => attempted rest
  | Realtime.Sent ws _ :: rest => ws :: attempted rest
  | Realtime.SendFailed ws :: rest => ws :: attempted rest
  end.

(** The connections a trace failed to write to. *)
Fixpoint failures {Message} (tr : list (Realtime.Effect Message)) : list nat :=
  match tr with
  | [] => []
  | Realtime.SendFailed ws :: rest => ws :: failures rest
  | _ :: rest => failures rest
  end.

End Journal.

(** ** app/routers/ws.py: the handler of one connection *)

Module Ws.

(** What [await websocket.receive_text()] gives: a text frame, the
    [WebSocketDisconnect] of a client that left, or another exception. *)
Inductive Received : Type :=
| Text (data : string)
| WebSocketDisconnect
| ReceiveError.

(** How far the handler has come when the frames at hand are used up. *)
Inductive Ended : Type :=
| Listening       (* still inside [while True] *)
| Disconnected    (* left through [except WebSocketDisconnect] *)
| Crashed.        (* an exception left the handler *)

(** [while True: await websocket.receive_text()] inside the [try]. *)
Fixpoint receive_loop (ws : nat) (inbound : list Received) (conns : gset nat)
  : Ended * gset nat :=
  match inbound with
  | [] => (Listening, conns)
  | Text _ :: rest => receive_loop ws rest conns
  | WebSocketDisconnect :: _ => (Disconnected, Realtime.disconnect ws conns)
  | ReceiveError :: _ => (Crashed, conns)
  end.

(** [websocket_endpoint]; [accepted] is whether [websocket.accept()]
    returned. *)
Definition websocket_endpoint (accepted : bool) (ws : nat)
  (inbound : list Received) (conns : gset nat) : Ended * gset nat :=
  if accepted then receive_loop ws inbound (Realtime.connect ws conns)
  else (Crashed, conns).

End Ws.

(** ** [ORDER BY key] and [all()]

    As for [first()], the query fixes the order of the rows up to rows
    with equal keys: a sorter is any function that returns the rows it is
    given sorted by [le]. *)

Module OrderBy.

Section Sorters.

Context {A : Type}.

Record sorts (le : A -> A -> Prop) (S : list A -> list A) : Prop := {
  sorts_perm : forall rows, S rows ≡ₚ rows;
  sorts_sorted : forall rows, StronglySorted le (S rows)
}.

(** A sorter: insertion, from the last row to the first. *)
Variable leb : A -> A -> bool.

Fixpoint insert (r : A) (sorted : list A) : list A :=
  match sorted with
  | [] => [r]
  | x :: rest => if leb r x then r :: x :: rest else x :: insert r rest
  end.

Definition insertion (rows : list A) : list A := fold_right insert [] rows.

End Sorters.

Definition newer_first (a b : BusTracking.t) : Prop :=
  (BusTracking.timestamp b <= BusTracking.timestamp a)%Z.

Definition newer_firstb (a b : BusTracking.t) : bool :=
  (BusTracking.timestamp b <=? BusTracking.timestamp a)%Z.

Definition by_sequence (a b : RouteStop.t) : Prop :=
  (RouteStop.sequence a <= RouteStop.sequence b)%Z.

Definition by_sequenceb (a b : RouteStop.t) : bool :=
  (RouteStop.sequence a <=? RouteStop.sequence b)%Z.

End OrderBy.

(** ** app/routers/buses.py: the history of a bus *)

Module BusQueries.

(** [timedelta(hours=hours)], in microseconds, the resolution of a
    [datetime]. *)
Definition timedelta_hours (hours : Z) : Z := (hours * 3600000000)%Z.

Section History.

(** The database's answer to [ORDER BY timestamp DESC ... all()]. *)
Variable S : list BusTracking.t -> list BusTracking.t.

(** [get_bus_tracking_history]; [utcnow] is [datetime.utcnow()]. *)
Definition get_bus_tracking_history (bus_id hours utcnow : Z) (s : Session.t)
  : Result (list BusTracking.t) :=
  match Session.bus_by_id bus_id s with
  | None => Raise (HTTPException HTTP_404_NOT_FOUND "Bus not found")
  | Some bus =>
      let start_time := (utcnow - timedelta_hours hours)%Z in
      Ok (S (filter
               (fun r => BusTracking.bus_id r = bus_id /\
                         (start_time <= BusTracking.timestamp r)%Z)
               (Session.bus_tracking s)))
  end.

End History.

End BusQueries.

(** ** app/routers/routes.py: the stops of a route *)

Module RouteStopCreate.
Record t : Type := {
  route_id : Z;
  stop_id : Z;
  sequence : Z;
  estimated_arrival_time_minutes : option Z;
  is_pickup_allowed : bool;
  is_dropoff_allowed : bool
}.

(** The keys of [stop_data.dict()]: every field of the schema. *)
Definition dict_keys : list string :=
  ["route_id"; "stop_id"; "sequence"; "estimated_arrival_time_minutes";
   "is_pickup_allowed"; "is_dropoff_allowed"].
End RouteStopCreate.

Module RouteAdmin.

Definition HTTP_400_BAD_REQUEST : Z := 400.

(** What a call can end in: a value, one of the exceptions above, or the
    [TypeError] of a call that is given a keyword argument twice. *)
Inductive Outcome (A : Type) : Type :=
| Returned (a : A)
| Failed (e : Exn)
| TypeError (message : string).
Arguments Returned {A} a.
Arguments Failed {A} e.
Arguments TypeError {A} message.

Definition with_route_stops (rows : list RouteStop.t) (s : Session.t) : Session.t :=
  {| Session.buses := Session.buses s; Session.routes := Session.routes s;
     Session.bus_stops := Session.bus_stops s; Session.route_stops := rows;
     Session.bus_assignments := Session.bus_assignments s;
     Session.bus_tracking := Session.bus_tracking s;
     Session.pending := Session.pending s; Session.now := Session.now s;
     Session.commit_ok := Session.commit_ok s;
     Session.refresh_ok := Session.refresh_ok s |}.

(** The rows of [RouteStop] of one route, and the first one of a stop. *)
Definition stops_of (route_id : Z) (s : Session.t) : list RouteStop.t :=
  filter (fun rs => RouteStop.route_id rs = route_id) (Session.route_stops s).

Definition route_stop_of (route_id stop_id : Z) (s : Session.t) : option RouteStop.t :=
  find (fun rs => (RouteStop.route_id rs =? route_id)%Z &&
                  (RouteStop.stop_id rs =? stop_id)%Z)
    (Session.route_stops s).

Definition sequence_taken (route_id sequence : Z) (s : Session.t) : option RouteStop.t :=
  find (fun rs => (RouteStop.route_id rs =? route_id)%Z &&
                  (RouteStop.sequence rs =? sequence)%Z)
    (Session.route_stops s).

Section Listing.

(** The database's answer to [ORDER BY sequence ... all()]. *)
Variable S : list RouteStop.t -> list RouteStop.t.

(** [get_route_stops] *)
Definition get_route_stops (route_id : Z) (s : Session.t)
  : Result (list RouteStop.t) :=
  match Session.route_by_id route_id s with
  | None => Raise (HTTPException HTTP_404_NOT_FOUND "Route not found")
  | Some route => Ok (S (stops_of route_id s))
  end.

End Listing.

(** A call [f(k1=..., **d)]: a keyword given both ways is a [TypeError]. *)
Definition repeated_keyword (explicit keys : list string) : option string :=
  find (fun k => existsb (String.eqb k) keys) explicit.

(** [RouteStop(route_id=route_id, **stop_data.dict())] *)
Definition new_route_stop (route_id : Z) (stop_data : RouteStopCreate.t)
  : Outcome RouteStop.t :=
  match repeated_keyword ["route_id"] RouteStopCreate.dict_keys with
  | Some k =>
      TypeError ("app.models.RouteStop() got multiple values for keyword argument '"
                 +:+ k +:+ "'")
  | None =>
      Returned {| RouteStop.id := 0;
                  RouteStop.route_id := route_id;
                  RouteStop.stop_id := RouteStopCreate.stop_id stop_data;
                  RouteStop.sequence := RouteStopCreate.sequence stop_data |}
  end.

Definition next_route_stop_id (rows : list RouteStop.t) : Z :=
  (1 + fold_right Z.max 0 (map RouteStop.id rows))%Z.

(** [db.add(row); db.commit(); db.refresh(row)] for a route stop. *)
Definition insert_route_stop (row : RouteStop.t) (s : Session.t)
  : Outcome RouteStop.t * Session.t :=
  if Session.commit_ok s then
    let stored :=
      {| RouteStop.id := next_route_stop_id (Session.route_stops s);
         RouteStop.route_id := RouteStop.route_id row;
         RouteStop.stop_id := RouteStop.stop_id row;
         RouteStop.sequence := RouteStop.sequence row |} in
    let s' := with_route_stops (Session.route_stops s ++ [stored]) s in
    if Session.refresh_ok s then (Returned stored, s')
    else (Failed SQLAlchemyError, s')
  else (Failed SQLAlchemyError, s).

(** [add_stop_to_route] *)
Definition add_stop_to_route (route_id : Z) (stop_data : RouteStopCreate.t)
  (s : Session.t) : Outcome RouteStop.t * Session.t :=
  match Session.route_by_id route_id s with
  | None => (Failed (HTTPException HTTP_404_NOT_FOUND "Route not found"), s)
  | Some route =>
      match Session.stop_by_id (RouteStopCreate.stop_id stop_data) s with
      | None => (Failed (HTTPException HTTP_404_NOT_FOUND "Stop not found"), s)
      | Some stop =>
          match route_stop_of route_id (RouteStopCreate.stop_id stop_data) s with
          | Some existing_route_stop =>
              (Failed (HTTPException HTTP_400_BAD_REQUEST
                         "Stop already exists in this route"), s)
          | None =>
              match sequence_taken route_id (RouteStopCreate.sequence stop_data) s with
              | Some existing_sequence =>
                  (Failed (HTTPException HTTP_400_BAD_REQUEST
                             "Sequence number already exists in this route"), s)
              | None =>
                  match new_route_stop route_id stop_data with
                  | Returned db_route_stop => insert_route_stop db_route_stop s
                  | Failed e => (Failed e, s)
                  | TypeError message => (TypeError message, s)
                  end
              end
          end
      end
  end.

(** [remove_stop_from_route]: the row found is deleted by its primary
    key at the commit. *)
Definition remove_stop_from_route (route_id stop_id : Z) (s : Session.t)
  : Result string * Session.t :=
  match route_stop_of route_id stop_id s with
  | None =>
      (Raise (HTTPException HTTP_404_NOT_FOUND "Stop not found in this route"), s)
  | Some route_stop =>
      if Session.commit_ok s then
        (Ok "Stop removed from route successfully",
         with_route_stops
           (filter (fun rs => RouteStop.id rs <> RouteStop.id route_stop)
              (Session.route_stops s)) s)
      else (Raise SQLAlchemyError, s)
  end.

End RouteAdmin.

(** The transfer option that every plan holds, written out. *)
Definition central_transfer : RouteOption.t :=
  {| RouteOption.duration_minutes := 45;
     RouteOption.transfers := 1;
     RouteOption.buses := ["Bus A"; "Bus B"];
     RouteOption.walking_time_minutes := 8;
     RouteOption.details := "Take Bus A, transfer at Central Station, then Bus B";
     RouteOption.total_distance_km := (123 / 10)%R |}.

(** ** More sample data *)

Module Fixtures.

Definition route5 : Route.t := {| Route.id := 5; Route.name := "Campus Loop" |}.

Definition route_stop (pk route_id stop_id sequence : Z) : RouteStop.t :=
  {| RouteStop.id := pk; RouteStop.route_id := route_id;
     RouteStop.stop_id := stop_id; RouteStop.sequence := sequence |}.

(** Route 5 with its two stops, stored out of order. *)
Definition network : Session.t :=
  {| Session.buses := [Sample.bus7]; Session.routes := [route5];
     Session.bus_stops := [Sample.stop 1 "Library"; Sample.stop 2 "Hostel"];
     Session.route_stops := [route_stop 1 5 2 20; route_stop 2 5 1 10];
     Session.bus_assignments := [Sample.assignment7];
     Session.bus_tracking := []; Session.pending := [];
     Session.now := 1000; Session.commit_ok := true; Session.refresh_ok := true |}.

Definition new_stop : RouteStopCreate.t :=
  {| RouteStopCreate.route_id := 5; RouteStopCreate.stop_id := 2;
     RouteStopCreate.sequence := 30;
     RouteStopCreate.estimated_arrival_time_minutes := None;
     RouteStopCreate.is_pickup_allowed := true;
     RouteStopCreate.is_dropoff_allowed := true |}.

(** Bus 7 with three samples, stored out of order. *)
Definition logbook : Session.t :=
  Sample.store [Sample.bus7] [Sample.assignment7]
    [Sample.telemetry 1 7 100 true; Sample.telemetry 2 7 300 true;
     Sample.telemetry 3 7 200 true].

End Fixtures.

(** * Properties *)

Local Close Scope string_scope.

(** ** The connection manager *)

Section RealtimeFacts.

Import Realtime.

Context {Message : Type}.
Variable json_dumps : Message -> string.

Implicit Types (net : gmap nat Peer) (ws : nat) (data : string).

Lemma send_text_deliverable ws data net :
  deliverable net ws = true ->
  exists p, net !! ws = Some p /\ send_text ws data net = Ok (<[ws := push data p]> net).
Proof.
  unfold deliverable, send_text. destruct (net !! ws) as [p|]; [|done].
  intros ->. by exists p.
Qed.

Lemma send_text_undeliverable ws data net :
  deliverable net ws = false -> send_text ws data net = Raise SendError.
Proof.
  unfold deliverable, send_text. destruct (net !! ws) as [p|]; [|done].
  by intros ->.
Qed.

Lemma deliverable_insert_push ws ws' data p net :
  net !! ws = Some p ->
  deliverable (<[ws := push data p]> net) ws' = deliverable net ws'.
Proof.
  intros Hp. unfold deliverable.
  destruct (decide (ws = ws')) as [<-|Hne].
  - by rewrite lookup_insert_eq, Hp.
  - by rewrite lookup_insert_ne.
Qed.

Lemma inbox_insert_push_eq ws data p net :
  net !! ws = Some p ->
  inbox (<[ws := push data p]> net) ws = inbox net ws ++ [data].
Proof. intros Hp. unfold inbox. by rewrite lookup_insert_eq, Hp. Qed.

Lemma inbox_insert_push_ne ws ws' data p net :
  ws ≠ ws' -> inbox (<[ws := push data p]> net) ws' = inbox net ws'.
Proof. intros Hne. unfold inbox. by rewrite lookup_insert_ne. Qed.

(** One step of the loop, by the state of the connection. *)
Lemma send_loop_cons_ok (data : string) ws rest net p :
  net !! ws = Some p -> peer_open p = true ->
  send_loop (Message := Message) data (ws :: rest) net =
  let '(net', rm, tr) := send_loop data rest (<[ws := push data p]> net) in
  (net', rm, Sent ws data :: tr).
Proof. intros Hp Ho. simpl. unfold send_text. by rewrite Hp, Ho. Qed.

Lemma send_loop_cons_fail (data : string) ws rest net :
  deliverable net ws = false ->
  send_loop (Message := Message) data (ws :: rest) net =
  let '(net', rm, tr) := send_loop data rest net in
  (net', ws :: rm, SendFailed ws :: tr).
Proof. intros Hd. simpl. by rewrite (send_text_undeliverable _ _ _ Hd). Qed.

(** The loop neither opens nor closes a connection. *)
Lemma send_loop_deliverable data (snapshot : list nat) net ws :
  deliverable (send_loop (Message := Message) data snapshot net).1.1 ws
  = deliverable net ws.
Proof.
  revert net. induction snapshot as [|c rest IH]; intros net; [done|].
  destruct (deliverable net c) eqn:Hc.
  - destruct (send_text_deliverable c data net Hc) as (p & Hp & _).
    assert (peer_open p = true) as Ho.
    { unfold deliverable in Hc. by rewrite Hp in Hc. }
    rewrite (send_loop_cons_ok data c rest net p Hp Ho).
    specialize (IH (<[c := push data p]> net)).
    destruct (send_loop data rest (<[c := push data p]> net)) as [[n rm] tr].
    cbn [fst snd] in *. rewrite IH. by apply deliverable_insert_push.
  - rewrite (send_loop_cons_fail data c rest net Hc).
    specialize (IH net).
    destruct (send_loop data rest net) as [[n rm] tr]. by cbn [fst snd] in *.
Qed.

(** Every connection of a snapshot without repetition gets the frame once
    if it can be written to; nothing else changes. *)
Lemma send_loop_inbox data (snapshot : list nat) net ws :
  NoDup snapshot ->
  inbox (send_loop (Message := Message) data snapshot net).1.1 ws =
  if decide (ws ∈ snapshot /\ deliverable net ws = true)
  then inbox net ws ++ [data] else inbox net ws.
Proof.
  intros Hnd. revert net.
  induction Hnd as [|c rest Hnotin Hnd IH]; intros net.
  { done. }
  destruct (deliverable net c) eqn:Hc.
  - destruct (send_text_deliverable c data net Hc) as (p & Hp & _).
    assert (peer_open p = true) as Ho.
    { unfold deliverable in Hc. by rewrite Hp in Hc. }
    rewrite (send_loop_cons_ok data c rest net p Hp Ho).
    specialize (IH (<[c := push data p]> net)).
    destruct (send_loop data rest (<[c := push data p]> net)) as [[n rm] tr].
    cbn [fst snd] in *. rewrite IH.
    rewrite (deliverable_insert_push c ws data p net Hp).
    destruct (decide (c = ws)) as [<-|Hne].
    + rewrite (inbox_insert_push_eq c data p net Hp).
      rewrite decide_False by (intros [? _]; done).
      rewrite decide_True; [done|]. split; [left|done].
    + rewrite (inbox_insert_push_ne c ws data p net Hne).
      destruct (decide (ws ∈ rest /\ deliverable net ws = true)) as [[Hin Hd]|Hn].
      * rewrite decide_True; [done|]. split; [by right|done].
      * rewrite decide_False; [done|]. intros [Hin Hd]. apply Hn. split; [|done].
        apply elem_of_cons in Hin as [->|]; done.
  - rewrite (send_loop_cons_fail data c rest net Hc).
    specialize (IH net).
    destruct (send_loop data rest net) as [[n rm] tr].
    cbn [fst snd] in *. rewrite IH.
    destruct (decide (ws ∈ rest /\ deliverable net ws = true)) as [[Hin Hd]|Hn].
    + rewrite decide_True; [done|]. split; [by right|done].
    + rewrite decide_False; [done|]. intros [Hin Hd]. apply Hn. split; [|done].
      apply elem_of_cons in Hin as [->|]; [congruence|done].
Qed.

(** The connections marked for removal are those whose write raised. *)
Lemma send_loop_to_remove data (snapshot : list nat) net ws :
  ws ∈ (send_loop (Message := Message) data snapshot net).1.2
  <-> ws ∈ snapshot /\ deliverable net ws = false.
Proof.
  revert net. induction snapshot as [|c rest IH]; intros net.
  { simpl. split; [intros H; by apply elem_of_nil in H|intros [H _]; by apply elem_of_nil in H]. }
  destruct (deliverable net c) eqn:Hc.
  - destruct (send_text_deliverable c data net Hc) as (p & Hp & _).
    assert (peer_open p = true) as Ho.
    { unfold deliverable in Hc. by rewrite Hp in Hc. }
    rewrite (send_loop_cons_ok data c rest net p Hp Ho).
    specialize (IH (<[c := push data p]> net)).
    destruct (send_loop data rest (<[c := push data p]> net)) as [[n rm] tr].
    cbn [fst snd] in *. rewrite IH, (deliverable_insert_push c ws data p net Hp).
    rewrite elem_of_cons. split.
    + intros [? ?]. split; [by right|done].
    + intros [[->|?] ?]; [congruence|done].
  - rewrite (send_loop_cons_fail data c rest net Hc).
    specialize (IH net).
    destruct (send_loop data rest net) as [[n rm] tr].
    cbn [fst snd] in *. rewrite !elem_of_cons, IH. split.
    + intros [->|[? ?]]; [split; [by left|done]|split; [by right|done]].
    + intros [[->|?] ?]; [by left|by right].
Qed.

(** The trace of the loop: one write per connection, in snapshot order. *)
Lemma send_loop_trace data (snapshot : list nat) net :
  (send_loop (Message := Message) data snapshot net).2 =
  map (fun ws => if deliverable net ws then Sent ws data else SendFailed ws) snapshot.
Proof.
  revert net. induction snapshot as [|c rest IH]; intros net; [done|].
  destruct (deliverable net c) eqn:Hc.
  - destruct (send_text_deliverable c data net Hc) as (p & Hp & _).
    assert (peer_open p = true) as Ho.
    { unfold deliverable in Hc. by rewrite Hp in Hc. }
    rewrite (send_loop_cons_ok data c rest net p Hp Ho).
    specialize (IH (<[c := push data p]> net)).
    destruct (send_loop data rest (<[c := push data p]> net)) as [[n rm] tr].
    cbn [fst snd map] in *. rewrite Hc, IH. f_equal.
    apply map_ext. intros a. by rewrite (deliverable_insert_push c a data p net Hp).
  - rewrite (send_loop_cons_fail data c rest net Hc).
    specialize (IH net).
    destruct (send_loop data rest net) as [[n rm] tr].
    cbn [fst snd map] in *. by rewrite Hc, IH.
Qed.

Lemma disconnect_difference ws (conns : gset nat) : disconnect ws conns = conns ∖ {[ws]}.
Proof.
  unfold disconnect. case_decide as Hin; [done|].
  symmetry. apply difference_disjoint_L. by apply disjoint_singleton_r.
Qed.

Lemma prune_elem_of (to_remove : list nat) (conns : gset nat) ws :
  ws ∈ prune to_remove conns <-> ws ∈ conns /\ ws ∉ to_remove.
Proof.
  revert conns. induction to_remove as [|c rest IH]; intros conns; simpl.
  - split; [intros ?; split; [done|apply not_elem_of_nil]|by intros [? _]].
  - rewrite IH, disconnect_difference, not_elem_of_cons.
    rewrite elem_of_difference, elem_of_singleton. tauto.
Qed.

End RealtimeFacts.

Section RealtimeClaims.

Import Realtime.

Context {Message : Type}.
Variable json_dumps : Message -> string.

(** [broadcast] on a registry that is not empty, by the results of its
    first loop. *)
Lemma broadcast_nonempty (message : Message) (m : Manager Message) :
  active_connections m ≠ ∅ ->
  broadcast json_dumps message m =
  let loop :=
    send_loop (json_dumps message) (elements (active_connections m)) (peers m) in
  (Ok tt,
   {| active_connections := prune loop.1.2 (active_connections m);
      peers := loop.1.1;
      journal := journal m ++ Dumps message :: loop.2 |}).
Proof.
  intros Hne. unfold broadcast. rewrite decide_False by done.
  by destruct (send_loop _ _ _) as [[net rm] tr].
Qed.

Lemma frames_all_sent (data : string) (snapshot : list nat) :
  frames (Message := Message) (map (fun ws => Sent ws data) snapshot)
  = map (fun ws => (ws, data)) snapshot.
Proof. induction snapshot as [|c rest IH]; [done|]. simpl. by rewrite IH. Qed.

Lemma dumps_count_all_sent (data : string) (snapshot : list nat) :
  dumps_count (Message := Message) (map (fun ws => Sent ws data) snapshot) = 0.
Proof. induction snapshot as [|c rest IH]; [done|]. simpl. by rewrite IH. Qed.

(** C1. When exactly one registered observer cannot be written to, the
    broadcast returns normally, every other registered observer receives
    the serialized event, and the failed observer, and it alone, has left
    the registry when the broadcast is over. *)
Theorem broadcast_isolates_failed_observer
  (message : Message) (m : Manager Message) (failed : nat) :
  failed ∈ active_connections m ->
  deliverable (peers m) failed = false ->
  (forall ws, ws ∈ active_connections m -> ws ≠ failed ->
     deliverable (peers m) ws = true) ->
  (broadcast json_dumps message m).1 = Ok tt /\
  (forall ws, ws ∈ active_connections m -> ws ≠ failed ->
     inbox (peers (broadcast json_dumps message m).2) ws
     = inbox (peers m) ws ++ [json_dumps message]) /\
  (failed ∉ active_connections (broadcast json_dumps message m).2) /\
  (forall ws, ws ≠ failed ->
     (ws ∈ active_connections (broadcast json_dumps message m).2
      <-> ws ∈ active_connections m)).
Proof.
  intros Hin Hbad Hgood.
  assert (active_connections m ≠ ∅) as Hne.
  { intros Hempty. rewrite Hempty in Hin. by apply not_elem_of_empty in Hin. }
  rewrite (broadcast_nonempty message m Hne). cbn [fst snd peers active_connections].
  split; [done|]. split; [|split].
  - intros ws Hws Hother.
    rewrite send_loop_inbox by apply NoDup_elements.
    rewrite decide_True; [done|].
    split; [by apply elem_of_elements|by apply Hgood].
  - rewrite prune_elem_of. intros [_ Hkept]. apply Hkept.
    apply send_loop_to_remove. split; [by apply elem_of_elements|done].
  - intros ws Hother. rewrite prune_elem_of, send_loop_to_remove. split.
    + by intros [? _].
    + intros Hws. split; [done|]. intros [_ Hdead].
      rewrite (Hgood ws Hws Hother) in Hdead. discriminate.
Qed.

(** C3. When every one of the N registered observers can be written to,
    one broadcast serializes the event once (not at all when N = 0) and
    delivers exactly N frames, one to each observer, each of them the
    serialized event; the registry is unchanged. *)
Theorem broadcast_delivers_one_identical_frame_each
  (message : Message) (m : Manager Message) :
  (forall ws, ws ∈ active_connections m -> deliverable (peers m) ws = true) ->
  exists tr,
    broadcast json_dumps message m
    = (Ok tt,
       {| active_connections := active_connections m;
          peers := peers (broadcast json_dumps message m).2;
          journal := journal m ++ tr |}) /\
    frames tr
    = map (fun ws => (ws, json_dumps message)) (elements (active_connections m)) /\
    length (frames tr) = size (active_connections m) /\
    (forall ws data, (ws, data) ∈ frames tr -> data = json_dumps message) /\
    dumps_count tr = (if decide (size (active_connections m) = 0) then 0 else 1) /\
    (forall ws, ws ∈ active_connections m ->
       inbox (peers (broadcast json_dumps message m).2) ws
       = inbox (peers m) ws ++ [json_dumps message]) /\
    (forall ws, ws ∉ active_connections m ->
       inbox (peers (broadcast json_dumps message m).2) ws = inbox (peers m) ws).
Proof.
  intros Hgood.
  destruct (decide (active_connections m = ∅)) as [Hempty|Hne].
  - exists []. unfold broadcast. rewrite decide_True by done.
    cbn [fst snd]. rewrite Hempty, elements_empty, size_empty, app_nil_r.
    repeat split; try done.
    + by destruct m as [a p j]; simpl in *; subst a.
    + intros ws data H. by apply elem_of_nil in H.
  - set (data := json_dumps message).
    set (snapshot := elements (active_connections m)).
    assert ((send_loop (Message := Message) data snapshot (peers m)).2
            = map (fun ws => Sent ws data) snapshot) as Htrace.
    { rewrite send_loop_trace. apply map_ext_in. intros ws Hws.
      rewrite Hgood; [done|]. apply elem_of_elements. by apply list_elem_of_In. }
    assert (forall ws, ws ∉ (send_loop (Message := Message) data snapshot (peers m)).1.2)
      as Hnone.
    { intros ws. rewrite send_loop_to_remove. intros [Hws Hdead].
      apply elem_of_elements in Hws. rewrite (Hgood ws Hws) in Hdead. discriminate. }
    exists (Dumps message :: map (fun ws => Sent ws data) snapshot).
    rewrite (broadcast_nonempty message m Hne).
    cbn [fst snd peers active_connections]. fold data snapshot.
    rewrite Htrace. repeat split.
    + f_equal. f_equal. apply set_eq. intros ws. rewrite prune_elem_of.
      split; [by intros [? _]|]. intros Hws. split; [done|apply Hnone].
    + simpl. apply frames_all_sent.
    + simpl. rewrite frames_all_sent, length_map. done.
    + simpl. rewrite frames_all_sent. intros ws d Hin.
      apply list_elem_of_fmap in Hin as (c & Heq & _). by inversion Heq.
    + simpl. rewrite dumps_count_all_sent. rewrite decide_False; [done|].
      intros Hz. apply size_empty_inv in Hz. apply Hne. by apply leibniz_equiv.
    + intros ws Hws. rewrite send_loop_inbox by apply NoDup_elements.
      rewrite decide_True; [done|]. split; [by apply elem_of_elements|by apply Hgood].
    + intros ws Hws. rewrite send_loop_inbox by apply NoDup_elements.
      rewrite decide_False; [done|]. intros [Hin _]. by apply elem_of_elements in Hin.
Qed.

End RealtimeClaims.

(** ** The newest sample of a vehicle *)

Section EngineFacts.

Variable tie : BusTracking.t -> BusTracking.t -> bool.

Lemma newest_elem best rows : newest tie best rows ∈ best :: rows.
Proof.
  revert best. induction rows as [|r rest IH]; intros best; simpl.
  - by left.
  - specialize (IH (if ((BusTracking.timestamp best <? BusTracking.timestamp r)%Z
                        || (BusTracking.timestamp best =? BusTracking.timestamp r)%Z
                           && tie best r) then r else best)).
    apply elem_of_cons in IH as [->|IH].
    + destruct (_ || _); [right; left|left].
    + right. by right.
Qed.

Lemma newest_ge_best best rows :
  (BusTracking.timestamp best <= BusTracking.timestamp (newest tie best rows))%Z.
Proof.
  revert best. induction rows as [|r rest IH]; intros best; simpl; [lia|].
  destruct ((BusTracking.timestamp best <? BusTracking.timestamp r)%Z
            || (BusTracking.timestamp best =? BusTracking.timestamp r)%Z
               && tie best r) eqn:Hrep.
  - specialize (IH r).
    apply orb_true_iff in Hrep as [Hlt|Heq].
    + apply Z.ltb_lt in Hlt. lia.
    + apply andb_true_iff in Heq as [Heq _]. apply Z.eqb_eq in Heq. lia.
  - apply IH.
Qed.

Lemma newest_ge_all best rows r' :
  r' ∈ best :: rows ->
  (BusTracking.timestamp r' <= BusTracking.timestamp (newest tie best rows))%Z.
Proof.
  revert best. induction rows as [|r rest IH]; intros best Hin; simpl.
  - apply list_elem_of_singleton in Hin as ->. lia.
  - destruct ((BusTracking.timestamp best <? BusTracking.timestamp r)%Z
              || (BusTracking.timestamp best =? BusTracking.timestamp r)%Z
                 && tie best r) eqn:Hrep.
    + apply elem_of_cons in Hin as [->|Hin].
      * pose proof (newest_ge_best r rest).
        apply orb_true_iff in Hrep as [Hlt|Heq].
        -- apply Z.ltb_lt in Hlt. lia.
        -- apply andb_true_iff in Heq as [Heq _]. apply Z.eqb_eq in Heq. lia.
      * by apply IH.
    + apply orb_false_iff in Hrep as [Hlt _]. apply Z.ltb_ge in Hlt.
      apply elem_of_cons in Hin as [->|Hin].
      * apply newest_ge_best.
      * apply elem_of_cons in Hin as [->|Hin].
        -- pose proof (newest_ge_best best rest). lia.
        -- apply IH. by right.
Qed.

(** A scan goes through a table piece by piece. *)
Lemma newest_app best l1 l2 :
  newest tie best (l1 ++ l2) = newest tie (newest tie best l1) l2.
Proof.
  revert best. induction l1 as [|x l1 IH]; intros best; [done|].
  cbn [app newest]. apply IH.
Qed.

(** Older rows do not replace the row held. *)
Lemma newest_older best rows :
  (forall x, x ∈ rows ->
     (BusTracking.timestamp x < BusTracking.timestamp best)%Z) ->
  newest tie best rows = best.
Proof.
  induction rows as [|x rows IH]; intros Hold; [done|].
  assert (BusTracking.timestamp x < BusTracking.timestamp best)%Z as Hx
    by (apply Hold; left).
  cbn [newest].
  destruct (Z.ltb_spec (BusTracking.timestamp best) (BusTracking.timestamp x));
    [lia|].
  destruct (Z.eqb_spec (BusTracking.timestamp best) (BusTracking.timestamp x));
    [lia|].
  cbn [orb andb]. apply IH. intros y Hy. apply Hold. by right.
Qed.

(** Every scan answers the query. *)
Lemma scan_engine_order_by : order_by_desc_first (scan_engine tie).
Proof.
  split.
  - done.
  - intros [|r rest] Hne; [done|]. by eexists.
  - intros [|r rest] x Hx; [done|]. injection Hx as <-. apply newest_elem.
  - intros [|r rest] x r' Hx Hin; [done|]. injection Hx as <-.
    by apply newest_ge_all.
Qed.

End EngineFacts.

Section LatestFacts.

Variable E : Engine.
Hypothesis E_answers : order_by_desc_first E.

Lemma tracking_of_elem (bus_id : Z) (s : Session.t) (r : BusTracking.t) :
  r ∈ Session.tracking_of bus_id s
  <-> r ∈ Session.bus_tracking s /\ BusTracking.bus_id r = bus_id.
Proof. unfold Session.tracking_of. rewrite list_elem_of_filter. tauto. Qed.

Lemma tracking_of_none (bus_id : Z) (s : Session.t) :
  (forall r, r ∈ Session.bus_tracking s -> BusTracking.bus_id r <> bus_id) ->
  Session.tracking_of bus_id s = [].
Proof.
  intros Hnone.
  destruct (Session.tracking_of bus_id s) as [|r rest] eqn:Hrows; [done|].
  assert (r ∈ Session.tracking_of bus_id s) as Hin by (rewrite Hrows; left).
  apply tracking_of_elem in Hin as [Hin Hbus]. by destruct (Hnone r Hin).
Qed.

Lemma latest_tracking_none (bus_id : Z) (s : Session.t) :
  (forall r, r ∈ Session.bus_tracking s -> BusTracking.bus_id r <> bus_id) ->
  Buses.latest_tracking E bus_id s = None.
Proof.
  intros Hnone. unfold Buses.latest_tracking.
  rewrite (tracking_of_none bus_id s Hnone). apply (first_empty E E_answers).
Qed.

(** The answer of the query is a sample of the vehicle with no newer one. *)
Lemma latest_tracking_newest (bus_id : Z) (s : Session.t) (r : BusTracking.t) :
  Buses.latest_tracking E bus_id s = Some r ->
  r ∈ Session.bus_tracking s /\ BusTracking.bus_id r = bus_id /\
  forall r', r' ∈ Session.bus_tracking s -> BusTracking.bus_id r' = bus_id ->
    (BusTracking.timestamp r' <= BusTracking.timestamp r)%Z.
Proof.
  unfold Buses.latest_tracking. intros Hr.
  pose proof (first_elem E E_answers _ _ Hr) as Hin.
  apply tracking_of_elem in Hin as [Hin Hbus]. repeat split; [done..|].
  intros r' Hin' Hbus'. apply (first_newest E E_answers _ _ _ Hr).
  by apply tracking_of_elem.
Qed.

(** One turn of the status loop per assignment, in order. *)
Lemma status_loop_lookup (s : Session.t) (assignments : list BusAssignment.t)
  (out : list BusStatusSummary.t) (i : nat) (a : BusAssignment.t) :
  Buses.status_loop E s assignments = Ok out ->
  assignments !! i = Some a ->
  exists b, Buses.bus_status E s a = Ok b /\ out !! i = Some b.
Proof.
  revert out i. induction assignments as [|a0 rest IH]; intros out i Hloop Hi.
  { by rewrite lookup_nil in Hi. }
  simpl in Hloop.
  destruct (Buses.bus_status E s a0) as [b0|e] eqn:Hb0; [|done].
  destruct (Buses.status_loop E s rest) as [out'|e] eqn:Hrest; [|done].
  injection Hloop as <-.
  destruct i as [|i]; simpl in Hi.
  - injection Hi as <-. by exists b0.
  - destruct (IH out' i eq_refl Hi) as (b & Hb & Hout). by exists b.
Qed.

(** The status list is returned when every assignment points to a bus. *)
Lemma status_loop_returns (s : Session.t) (assignments : list BusAssignment.t) :
  (forall a, a ∈ assignments ->
     exists bus, Session.bus_by_id (BusAssignment.bus_id a) s = Some bus) ->
  exists out, Buses.status_loop E s assignments = Ok out.
Proof.
  induction assignments as [|a rest IH]; intros Hbuses; [by eexists|].
  destruct (Hbuses a) as [bus Hbus]; [left|].
  destruct IH as [out Hout]; [intros a' Ha'; apply Hbuses; by right|].
  simpl. unfold Buses.bus_status at 1, Buses.assignment_bus.
  rewrite Hbus, Hout. by eexists.
Qed.

(** C6. An active assignment whose vehicle has no recorded sample is
    reported with crowd level MEDIUM, on route, last updated at the start
    of the assignment and without a current location; that summary is the
    one the status list carries at the place of the assignment, and the
    list is returned whenever every active assignment points to a bus. *)
Theorem status_of_unreported_assignment
  (s : Session.t) (a : BusAssignment.t) (bus : Bus.t) :
  (forall r, r ∈ Session.bus_tracking s ->
     BusTracking.bus_id r <> BusAssignment.bus_id a) ->
  Session.bus_by_id (BusAssignment.bus_id a) s = Some bus ->
  exists b,
    Buses.bus_status E s a = Ok b /\
    BusStatusSummary.crowd_level b = MEDIUM /\
    BusStatusSummary.is_on_route b = true /\
    BusStatusSummary.last_updated b = BusAssignment.start_time a /\
    BusStatusSummary.current_location b = None /\
    (forall out i,
       Buses.get_active_buses_status E s = Ok out ->
       Session.active_assignments s !! i = Some a ->
       out !! i = Some b) /\
    ((forall a', a' ∈ Session.active_assignments s ->
        exists bus', Session.bus_by_id (BusAssignment.bus_id a') s = Some bus') ->
     exists out, Buses.get_active_buses_status E s = Ok out).
Proof.
  intros Hnone Hbus.
  pose proof (latest_tracking_none _ s Hnone) as Hlatest.
  eexists. split.
  - unfold Buses.bus_status, Buses.assignment_bus. rewrite Hbus, Hlatest. reflexivity.
  - repeat split; try reflexivity.
    + intros out i Hout Hi.
      destruct (status_loop_lookup s _ out i a Hout Hi) as (b & Hb & Hlook).
      unfold Buses.bus_status, Buses.assignment_bus in Hb.
      rewrite Hbus, Hlatest in Hb. injection Hb as <-. exact Hlook.
    + apply status_loop_returns.
Qed.

End LatestFacts.

(** ** The latest sample in the store of the application *)

Section IndexWalkFacts.

Lemma index_walk_order_by : order_by_desc_first index_walk.
Proof. apply scan_engine_order_by. Qed.

(** Reading the index backwards, a row that is not older replaces the row
    held. *)
Lemma newest_take_last_step best r rows :
  (BusTracking.timestamp best <= BusTracking.timestamp r)%Z ->
  newest take_last best (r :: rows) = newest take_last r rows.
Proof.
  intros Hle. cbn [newest]. unfold take_last. rewrite andb_true_r.
  destruct (Z.ltb_spec (BusTracking.timestamp best) (BusTracking.timestamp r));
    [done|].
  destruct (Z.eqb_spec (BusTracking.timestamp best) (BusTracking.timestamp r));
    [done|lia].
Qed.

(** The answer on a list of rows: the row that no earlier row is newer
    than and that every later row is older than. *)
Lemma index_walk_last_newest (before after : list BusTracking.t)
  (r : BusTracking.t) :
  (forall x, x ∈ before ->
     (BusTracking.timestamp x <= BusTracking.timestamp r)%Z) ->
  (forall x, x ∈ after ->
     (BusTracking.timestamp x < BusTracking.timestamp r)%Z) ->
  index_walk (before ++ r :: after) = Some r.
Proof.
  intros Hbefore Hafter. unfold index_walk, scan_engine.
  destruct before as [|b0 before]; cbn [app]; f_equal.
  - by apply newest_older.
  - rewrite newest_app, newest_take_last_step.
    + by apply newest_older.
    + apply Hbefore, newest_elem.
Qed.

Lemma tracking_of_split (bus_id : Z) (s : Session.t)
  (before after : list BusTracking.t) (r : BusTracking.t) :
  Session.bus_tracking s = before ++ r :: after ->
  BusTracking.bus_id r = bus_id ->
  Session.tracking_of bus_id s
  = filter (fun x => BusTracking.bus_id x = bus_id) before
    ++ r :: filter (fun x => BusTracking.bus_id x = bus_id) after.
Proof.
  intros Htable Hbus. unfold Session.tracking_of.
  by rewrite Htable, filter_app, filter_cons_True.
Qed.

(** The latest sample of a vehicle, by its place in the table. *)
Lemma latest_tracking_by_place (bus_id : Z) (s : Session.t)
  (before after : list BusTracking.t) (r : BusTracking.t) :
  Session.bus_tracking s = before ++ r :: after ->
  BusTracking.bus_id r = bus_id ->
  (forall x, x ∈ before -> BusTracking.bus_id x = bus_id ->
     (BusTracking.timestamp x <= BusTracking.timestamp r)%Z) ->
  (forall x, x ∈ after -> BusTracking.bus_id x = bus_id ->
     (BusTracking.timestamp x < BusTracking.timestamp r)%Z) ->
  Buses.latest_tracking index_walk bus_id s = Some r.
Proof.
  intros Htable Hbus Hbefore Hafter. unfold Buses.latest_tracking.
  rewrite (tracking_of_split bus_id s before after r Htable Hbus).
  apply index_walk_last_newest; intros x Hx;
    apply list_elem_of_filter in Hx as [Hx Hin]; auto.
Qed.

(** C4. The latest-position query on the store of the application. Of two
    recorded samples of a vehicle with timestamps t1 < t2, whichever was
    inserted first, the query returns the one with t2 when no other
    sample of the vehicle is as new; with more samples it still returns
    a sample of the vehicle at least as new as t2, never the one with
    t1. Of two recorded samples of a vehicle with one timestamp, which no
    sample of the vehicle is newer than, the query returns the one
    inserted later, when no further sample with that timestamp was
    inserted after it. In general the answer is decided by timestamps and
    insertion order alone: it is the sample of the vehicle that no sample
    inserted before it is newer than and that every sample inserted after
    it is older than. *)
Theorem latest_tracking_newest_then_last_inserted (s : Session.t) (bus_id : Z) :
  (forall r1 r2,
     r1 ∈ Session.bus_tracking s -> BusTracking.bus_id r1 = bus_id ->
     r2 ∈ Session.bus_tracking s -> BusTracking.bus_id r2 = bus_id ->
     (BusTracking.timestamp r1 < BusTracking.timestamp r2)%Z ->
     (forall x, x ∈ Session.bus_tracking s -> BusTracking.bus_id x = bus_id ->
        x = r2 \/ (BusTracking.timestamp x < BusTracking.timestamp r2)%Z) ->
     Buses.latest_tracking index_walk bus_id s = Some r2) /\
  (forall r1 r2,
     r1 ∈ Session.bus_tracking s -> BusTracking.bus_id r1 = bus_id ->
     r2 ∈ Session.bus_tracking s -> BusTracking.bus_id r2 = bus_id ->
     (BusTracking.timestamp r1 < BusTracking.timestamp r2)%Z ->
     exists r,
       Buses.latest_tracking index_walk bus_id s = Some r /\
       r ∈ Session.bus_tracking s /\ BusTracking.bus_id r = bus_id /\
       r <> r1 /\ (BusTracking.timestamp r2 <= BusTracking.timestamp r)%Z) /\
  (forall r1 r2 rows between rest,
     Session.bus_tracking s = rows ++ r1 :: between ++ r2 :: rest ->
     BusTracking.bus_id r1 = bus_id -> BusTracking.bus_id r2 = bus_id ->
     BusTracking.timestamp r1 = BusTracking.timestamp r2 ->
     (forall x, x ∈ Session.bus_tracking s -> BusTracking.bus_id x = bus_id ->
        (BusTracking.timestamp x <= BusTracking.timestamp r2)%Z) ->
     (forall x, x ∈ rest -> BusTracking.bus_id x = bus_id ->
        (BusTracking.timestamp x < BusTracking.timestamp r2)%Z) ->
     Buses.latest_tracking index_walk bus_id s = Some r2) /\
  (forall before r after,
     Session.bus_tracking s = before ++ r :: after ->
     BusTracking.bus_id r = bus_id ->
     (forall x, x ∈ before -> BusTracking.bus_id x = bus_id ->
        (BusTracking.timestamp x <= BusTracking.timestamp r)%Z) ->
     (forall x, x ∈ after -> BusTracking.bus_id x = bus_id ->
        (BusTracking.timestamp x < BusTracking.timestamp r)%Z) ->
     Buses.latest_tracking index_walk bus_id s = Some r).
Proof.
  split; [|split; [|split]].
  - intros r1 r2 _ _ Hin2 Hbus2 _ Hothers.
    assert (Session.tracking_of bus_id s <> []) as Hne.
    { intros Hnil.
      assert (r2 ∈ Session.tracking_of bus_id s) as H by by apply tracking_of_elem.
      rewrite Hnil in H. by apply elem_of_nil in H. }
    destruct (first_some index_walk index_walk_order_by _ Hne) as [r Hr].
    destruct (latest_tracking_newest index_walk index_walk_order_by bus_id s r Hr)
      as (Hin & Hbus & Hmax).
    pose proof (Hmax r2 Hin2 Hbus2) as Hge.
    destruct (Hothers r Hin Hbus) as [->|Hlt]; [exact Hr|lia].
  - intros r1 r2 Hin1 Hbus1 Hin2 Hbus2 Hlt.
    assert (Session.tracking_of bus_id s <> []) as Hne.
    { intros Hnil.
      assert (r2 ∈ Session.tracking_of bus_id s) as H by by apply tracking_of_elem.
      rewrite Hnil in H. by apply elem_of_nil in H. }
    destruct (first_some index_walk index_walk_order_by _ Hne) as [r Hr].
    destruct (latest_tracking_newest index_walk index_walk_order_by bus_id s r Hr)
      as (Hin & Hbus & Hmax).
    pose proof (Hmax r2 Hin2 Hbus2) as Hge.
    exists r. split; [exact Hr|]. split; [done|]. split; [done|].
    split; [|done]. intros ->. lia.
  - intros r1 r2 rows between rest Htable Hbus1 Hbus2 Hts Hmax Hrest.
    apply (latest_tracking_by_place bus_id s (rows ++ r1 :: between) rest r2).
    + by rewrite Htable, <- app_assoc.
    + done.
    + intros x Hx Hbus. apply Hmax; [|done].
      rewrite Htable, app_comm_cons, app_assoc. apply elem_of_app. by left.
    + done.
  - intros before r after. apply latest_tracking_by_place.
Qed.

End IndexWalkFacts.

(** ** Distances *)

Section Distance.

Import Buses.
Local Open Scope R_scope.

Lemma sin_half_radians_swap (a b : R) :
  sin (radians (a - b) / 2) * sin (radians (a - b) / 2)
  = sin (radians (b - a) / 2) * sin (radians (b - a) / 2).
Proof.
  replace (radians (a - b) / 2) with (- (radians (b - a) / 2))
    by (unfold radians; field).
  rewrite sin_neg. ring.
Qed.

Lemma haversine_a_sym (lat1 lon1 lat2 lon2 : R) :
  haversine_a lat1 lon1 lat2 lon2 = haversine_a lat2 lon2 lat1 lon1.
Proof.
  unfold haversine_a.
  rewrite (sin_half_radians_swap lat2 lat1).
  rewrite !Rmult_assoc, (sin_half_radians_swap lon2 lon1). ring.
Qed.

Lemma haversine_a_self (lat lon : R) : haversine_a lat lon lat lon = 0.
Proof.
  unfold haversine_a.
  replace (radians (lat - lat) / 2) with 0 by (unfold radians; field).
  replace (radians (lon - lon) / 2) with 0 by (unfold radians; field).
  rewrite sin_0. ring.
Qed.

Lemma atan2_0_1 : atan2 0 1 = 0.
Proof.
  unfold atan2. destruct (Rlt_dec 0 1) as [_|Hn]; [|exfalso; lra].
  replace (0 / 1) with 0 by field. apply atan_0.
Qed.

Lemma calculate_distance_self (lat lon : R) : calculate_distance lat lon lat lon = 0.
Proof.
  unfold calculate_distance. rewrite haversine_a_self.
  replace (1 - 0) with 1 by ring. rewrite sqrt_0, sqrt_1, atan2_0_1. ring.
Qed.

Lemma calculate_distance_sym (lat1 lon1 lat2 lon2 : R) :
  calculate_distance lat1 lon1 lat2 lon2 = calculate_distance lat2 lon2 lat1 lon1.
Proof. unfold calculate_distance. by rewrite haversine_a_sym. Qed.

(** C8. The distance from a point to itself is 0 and the distance does
    not depend on the order of the two points. *)
Theorem calculate_distance_zero_and_symmetric (lat1 lon1 lat2 lon2 : R) :
  calculate_distance lat1 lon1 lat1 lon1 = 0 /\
  calculate_distance lat1 lon1 lat2 lon2 = calculate_distance lat2 lon2 lat1 lon1.
Proof. split; [apply calculate_distance_self|apply calculate_distance_sym]. Qed.

End Distance.

Section AssignmentFacts.

(** The active assignments are the rows of the table with the flag set,
    in the order of the table. *)
Lemma active_assignments_filter (s : Session.t) :
  Session.active_assignments s
  = List.filter BusAssignment.is_active (Session.bus_assignments s).
Proof.
  unfold Session.active_assignments.
  induction (Session.bus_assignments s) as [|a rest IH]; [done|].
  rewrite filter_cons, IH. cbn [List.filter].
  destruct (decide (BusAssignment.is_active a = true)) as [Ha|Ha];
    destruct (BusAssignment.is_active a); done.
Qed.

Lemma active_assignments_elem_of (s : Session.t) (a : BusAssignment.t) :
  a ∈ List.filter BusAssignment.is_active (Session.bus_assignments s)
  <-> a ∈ Session.bus_assignments s /\ BusAssignment.is_active a = true.
Proof. rewrite !list_elem_of_In. apply filter_In. Qed.

End AssignmentFacts.

Section NearbyFacts.

Variable E : Engine.
Hypothesis E_answers : order_by_desc_first E.
Variables latitude longitude radius_km : R.

Lemma bus_by_id_id (bus_id : Z) (s : Session.t) (bus : Bus.t) :
  Session.bus_by_id bus_id s = Some bus -> Bus.id bus = bus_id.
Proof.
  unfold Session.bus_by_id. intros Hfind.
  apply find_some in Hfind as [_ Heq]. by apply Z.eqb_eq in Heq.
Qed.



(** A vehicle without a recorded position takes no part in the loop. *)
Lemma nearby_loop_skip (s : Session.t) (before after : list BusAssignment.t)
  (a : BusAssignment.t) :
  Buses.latest_tracking E (BusAssignment.bus_id a) s = None ->
  Buses.nearby_loop E latitude longitude radius_km s (before ++ a :: after)
  = Buses.nearby_loop E latitude longitude radius_km s (before ++ after).
Proof.
  intros Hnone. induction before as [|a0 rest IH]; simpl.
  - unfold Buses.nearby_status. rewrite Hnone.
    by destruct (Buses.nearby_loop E latitude longitude radius_km s after).
  - by rewrite IH.
Qed.


End NearbyFacts.

(** ** Recording a sample *)

Section StoreFacts.

Lemma ids_below_next_id (rows : list BusTracking.t) (r : BusTracking.t) :
  r ∈ rows -> (BusTracking.id r < Session.next_id rows)%Z.
Proof.
  unfold Session.next_id. induction rows as [|r0 rest IH]; intros Hin.
  - by apply elem_of_nil in Hin.
  - simpl. apply elem_of_cons in Hin as [->|Hin]; [lia|].
    specialize (IH Hin). lia.
Qed.

Lemma find_app_none {A} (f : A -> bool) (l1 l2 : list A) :
  (forall x, x ∈ l1 -> f x = false) -> find f (l1 ++ l2) = find f l2.
Proof.
  induction l1 as [|x rest IH]; intros Hnone; [done|]. simpl.
  rewrite (Hnone x) by left. apply IH. intros y Hy. apply Hnone. by right.
Qed.

(** The row added last gets the last primary key. *)
Lemma flush_last (pk now : Z) (p : list BusTracking.t) (r : BusTracking.t) :
  last (Session.flush pk now (p ++ [r]))
  = Some (BusTracking.stored (pk + Z.of_nat (length p)) now r).
Proof.
  revert pk. induction p as [|a p IH]; intros pk.
  - simpl. by rewrite Z.add_0_r.
  - cbn [app Session.flush length]. rewrite last_cons, IH.
    do 2 f_equal. lia.
Qed.

Lemma flush_find_last (pk now : Z) (p : list BusTracking.t) (r : BusTracking.t) :
  find (fun x => (BusTracking.id x =? pk + Z.of_nat (length p))%Z)
    (Session.flush pk now (p ++ [r]))
  = Some (BusTracking.stored (pk + Z.of_nat (length p)) now r).
Proof.
  revert pk. induction p as [|a p IH]; intros pk.
  - simpl. rewrite Z.add_0_r, Z.eqb_refl. done.
  - cbn [app Session.flush find BusTracking.stored BusTracking.id length].
    replace (pk =? pk + Z.of_nat (S (length p)))%Z with false
      by (symmetry; apply Z.eqb_neq; lia).
    replace (pk + Z.of_nat (S (length p)))%Z with (pk + 1 + Z.of_nat (length p))%Z
      by lia.
    apply IH.
Qed.

(** After a commit the reload by primary key finds the inserted row. *)
Lemma find_inserted (tbl p : list BusTracking.t) (now : Z) (r : BusTracking.t) :
  let pk := (Session.next_id tbl + Z.of_nat (length p))%Z in
  find (fun x => (BusTracking.id x =? pk)%Z)
    (tbl ++ Session.flush (Session.next_id tbl) now (p ++ [r]))
  = Some (BusTracking.stored pk now r).
Proof.
  intros pk. rewrite find_app_none.
  - apply flush_find_last.
  - intros x Hx. apply Z.eqb_neq. pose proof (ids_below_next_id tbl x Hx).
    unfold pk. lia.
Qed.

End StoreFacts.

Section RecordingFacts.

Import Buses.

Variable json_dumps : PyVal -> string.

Lemma broadcast_returns (message : PyVal) (m : Realtime.Manager PyVal) :
  (Realtime.broadcast json_dumps message m).1 = Ok tt.
Proof.
  unfold Realtime.broadcast. case_decide; [done|].
  by destruct (Realtime.send_loop _ _ _) as [[net rm] tr].
Qed.

Lemma announced_after_commit_committed (bus_id : Z)
  (rows committed : list BusTracking.t) (rest : list Event) :
  announced_after_commit bus_id committed (map Committed rows ++ rest)
  <-> announced_after_commit bus_id (rev rows ++ committed) rest.
Proof.
  revert committed. induction rows as [|r rows IH]; intros committed; [done|].
  simpl. rewrite IH, <- app_assoc. done.
Qed.

Lemma announcements_committed (rows : list BusTracking.t) (rest : list Event) :
  announcements (map Committed rows ++ rest) = announcements rest.
Proof. induction rows as [|r rows IH]; [done|]. simpl. apply IH. Qed.

Lemma store_and_announce_commit_failed (bus_id : Z) (tracking_data : BusTracking.t)
  (w : World) :
  Session.commit_ok (db w) = false ->
  store_and_announce json_dumps bus_id tracking_data w
  = (Raise SQLAlchemyError,
     {| db := Session.with_pending [] (Session.add tracking_data (db w));
        manager := manager w;
        events := events w ++ [CommitFailed] |}).
Proof.
  intros Hfail. unfold store_and_announce, bind, db_add, db_commit, Session.commit.
  cbn. by rewrite Hfail.
Qed.

Lemma store_and_announce_refresh_failed (bus_id : Z) (tracking_data : BusTracking.t)
  (w : World) :
  Session.commit_ok (db w) = true ->
  Session.refresh_ok (db w) = false ->
  store_and_announce json_dumps bus_id tracking_data w
  = (Raise SQLAlchemyError,
     {| db := Session.with_tracking
                (Session.bus_tracking (db w) ++ flushed_rows tracking_data w)
                (Session.add tracking_data (db w));
        manager := manager w;
        events := events w ++ map Committed (flushed_rows tracking_data w) |}).
Proof.
  intros Hok Hfail.
  unfold store_and_announce, bind, db_add, db_commit, Session.commit.
  cbn. rewrite Hok. cbn. rewrite flush_last.
  unfold db_refresh, Session.refresh. cbn. by rewrite Hfail.
Qed.

Lemma store_and_announce_committed (bus_id : Z) (tracking_data : BusTracking.t)
  (w : World) :
  Session.commit_ok (db w) = true ->
  Session.refresh_ok (db w) = true ->
  store_and_announce json_dumps bus_id tracking_data w
  = (Ok (inserted_row tracking_data w),
     {| db := Session.with_tracking
                (Session.bus_tracking (db w) ++ flushed_rows tracking_data w)
                (Session.add tracking_data (db w));
        manager :=
          (Realtime.broadcast json_dumps
             (location_update bus_id (inserted_row tracking_data w)) (manager w)).2;
        events :=
          (events w ++ map Committed (flushed_rows tracking_data w))
          ++ [Announced (location_update bus_id (inserted_row tracking_data w))] |}).
Proof.
  intros Hok Hre.
  unfold store_and_announce, bind, db_add, db_commit, Session.commit.
  cbn. rewrite Hok. cbn. rewrite flush_last.
  unfold db_refresh, Session.refresh. cbn. rewrite Hre, find_inserted.
  unfold manager_broadcast. cbn.
  pose proof (broadcast_returns
                (location_update bus_id (inserted_row tracking_data w)) (manager w))
    as Hret.
  unfold inserted_row in *.
  destruct (Realtime.broadcast json_dumps _ (manager w)) as [r m].
  cbn in *. by subst r.
Qed.

Lemma inserted_row_flushed (tracking_data : BusTracking.t) (w : World) :
  inserted_row tracking_data w ∈ flushed_rows tracking_data w.
Proof.
  unfold inserted_row, flushed_rows.
  pose proof (flush_last (Session.next_id (Session.bus_tracking (db w)))
                (Session.now (db w)) (Session.pending (db w)) tracking_data) as Hlast.
  apply last_Some in Hlast as [l' ->]. apply elem_of_app. right. left.
Qed.

End RecordingFacts.

Section RecordingClaims.

Import Buses.

Variable json_dumps : PyVal -> string.

(** The events of the block that stores and announces a sample. *)
Lemma store_and_announce_events (bus_id : Z) (tracking_data : BusTracking.t)
  (w : World) :
  exists evs,
    events (store_and_announce json_dumps bus_id tracking_data w).2 = events w ++ evs /\
    announced_after_commit bus_id [] evs /\
    (announcements evs <= 1)%nat /\
    (Session.commit_ok (db w) = false ->
     announcements evs = 0%nat /\
     (store_and_announce json_dumps bus_id tracking_data w).1 = Raise SQLAlchemyError /\
     manager (store_and_announce json_dumps bus_id tracking_data w).2 = manager w /\
     Session.bus_tracking (db (store_and_announce json_dumps bus_id tracking_data w).2)
     = Session.bus_tracking (db w)) /\
    (announcements evs = 1%nat ->
     Session.commit_ok (db w) = true /\
     (store_and_announce json_dumps bus_id tracking_data w).1
     = Ok (inserted_row tracking_data w) /\
     inserted_row tracking_data w
     ∈ Session.bus_tracking (db (store_and_announce json_dumps bus_id tracking_data w).2)).
Proof.
  destruct (Session.commit_ok (db w)) eqn:Hcommit.
  - destruct (Session.refresh_ok (db w)) eqn:Hrefresh.
    + rewrite (store_and_announce_committed json_dumps bus_id tracking_data w
                 Hcommit Hrefresh).
      cbn [fst snd events manager db].
      exists (map Committed (flushed_rows tracking_data w)
              ++ [Announced (location_update bus_id (inserted_row tracking_data w))]).
      split; [by rewrite app_assoc|]. split; [|split; [|split]].
      * apply announced_after_commit_committed. simpl. split; [|done].
        exists (inserted_row tracking_data w). split; [|done].
        rewrite app_nil_r. apply list_elem_of_In, in_rev.
        rewrite rev_involutive. apply list_elem_of_In, inserted_row_flushed.
      * rewrite announcements_committed. simpl. lia.
      * done.
      * intros _. repeat split. simpl. apply elem_of_app. right.
        apply inserted_row_flushed.
    + rewrite (store_and_announce_refresh_failed json_dumps bus_id tracking_data w
                 Hcommit Hrefresh).
      cbn [fst snd events manager db].
      exists (map Committed (flushed_rows tracking_data w)).
      split; [done|]. split; [|split; [|split]].
      * rewrite <- (app_nil_r (map _ _)). by apply announced_after_commit_committed.
      * rewrite <- (app_nil_r (map _ _)), announcements_committed. simpl. lia.
      * done.
      * rewrite <- (app_nil_r (map _ _)), announcements_committed. simpl. lia.
  - rewrite (store_and_announce_commit_failed json_dumps bus_id tracking_data w Hcommit).
    cbn [fst snd events manager db].
    exists [CommitFailed]. split; [done|]. simpl.
    repeat split; try done; try lia.
Qed.

(** C2. Among the events of a recording, an announcement comes only after
    the commit of the sample it carries and there is at most one of them;
    when the commit fails there is none, the manager is not called and
    the log of samples is as before. This holds of the block that stores
    and announces, for every sample handed to it, and of the handler as a
    whole. *)
Theorem location_broadcast_only_after_commit
  (bus_id : Z) (location_data : BusLocationUpdate.t) (current_user : User.t)
  (tracking_data : BusTracking.t) (w : World) :
  (exists evs,
     events (store_and_announce json_dumps bus_id tracking_data w).2
     = events w ++ evs /\
     announced_after_commit bus_id [] evs /\
     (announcements evs <= 1)%nat /\
     (Session.commit_ok (db w) = false ->
      announcements evs = 0%nat /\
      (store_and_announce json_dumps bus_id tracking_data w).1
      = Raise SQLAlchemyError /\
      manager (store_and_announce json_dumps bus_id tracking_data w).2 = manager w /\
      Session.bus_tracking
        (db (store_and_announce json_dumps bus_id tracking_data w).2)
      = Session.bus_tracking (db w)) /\
     (announcements evs = 1%nat ->
      Session.commit_ok (db w) = true /\
      (store_and_announce json_dumps bus_id tracking_data w).1
      = Ok (inserted_row tracking_data w) /\
      inserted_row tracking_data w
      ∈ Session.bus_tracking
          (db (store_and_announce json_dumps bus_id tracking_data w).2))) /\
  (exists evs,
     events (update_bus_location json_dumps bus_id location_data current_user w).2
     = events w ++ evs /\
     announced_after_commit bus_id [] evs /\
     (announcements evs <= 1)%nat /\
     (Session.commit_ok (db w) = false -> announcements evs = 0%nat)).
Proof.
  split; [apply store_and_announce_events|].
  assert (exists evs, events w = events w ++ evs /\
            announced_after_commit bus_id [] evs /\ (announcements evs <= 1)%nat /\
            (Session.commit_ok (db w) = false -> announcements evs = 0%nat)) as Hnothing.
  { exists []. rewrite app_nil_r. simpl. repeat split; try done; lia. }
  unfold update_bus_location, raise.
  destruct (Session.bus_by_id bus_id (db w)); [|exact Hnothing].
  destruct (User.driver_profile current_user) as [profile|]; [|exact Hnothing].
  destruct (find _ _); [|exact Hnothing].
  unfold bind, lift.
  destruct (BusLocationUpdate.is_on_route location_data) as [v|e]; [|exact Hnothing].
  destruct (store_and_announce_events bus_id (new_tracking bus_id location_data v) w)
    as (evs & Hev & Hord & Hone & Hfail & _).
  exists evs. repeat split; try done. intros Hc. by apply Hfail.
Qed.

(** A request for a vehicle that the caller has no active assignment to
    changes nothing. *)
Lemma update_bus_location_unassigned
  (bus_id : Z) (location_data : BusLocationUpdate.t) (current_user : User.t)
  (w : World) :
  (forall a, a ∈ Session.bus_assignments (db w) ->
     BusAssignment.bus_id a = bus_id -> BusAssignment.is_active a = false) ->
  update_bus_location json_dumps bus_id location_data current_user w
  = (match Session.bus_by_id bus_id (db w), User.driver_profile current_user with
     | None, _ => Raise (HTTPException HTTP_404_NOT_FOUND "Bus not found")
     | Some _, None => Raise (AttributeError "'NoneType' object has no attribute 'id'")
     | Some _, Some _ =>
         Raise (HTTPException HTTP_403_FORBIDDEN "You are not assigned to this bus")
     end, w).
Proof.
  intros Hnone. unfold update_bus_location, raise.
  destruct (Session.bus_by_id bus_id (db w)); [|done].
  destruct (User.driver_profile current_user) as [profile|]; [|done].
  destruct (find _ _) as [a|] eqn:Hfind; [|done].
  apply find_some in Hfind as [Hin Hassigned]. unfold assigned_to in Hassigned.
  apply andb_true_iff in Hassigned as [Hassigned Hactive].
  apply andb_true_iff in Hassigned as [Hbus _]. apply Z.eqb_eq in Hbus.
  apply list_elem_of_In in Hin. rewrite (Hnone a Hin Hbus) in Hactive. discriminate.
Qed.

(** C5 (as amended). A sample for a vehicle without an active assignment
    is rejected and leaves the database, the manager and the events as
    they were: nothing is stored, nothing is broadcast. The error is
    NotAssigned (403) when the vehicle exists and the caller has a driver
    profile, and NotFound (404) when the vehicle does not exist. *)
Theorem unassigned_sample_is_rejected
  (bus_id : Z) (location_data : BusLocationUpdate.t) (current_user : User.t)
  (w : World) :
  (forall a, a ∈ Session.bus_assignments (db w) ->
     BusAssignment.bus_id a = bus_id -> BusAssignment.is_active a = false) ->
  (update_bus_location json_dumps bus_id location_data current_user w).2 = w /\
  (exists e,
     (update_bus_location json_dumps bus_id location_data current_user w).1 = Raise e) /\
  (forall bus profile,
     Session.bus_by_id bus_id (db w) = Some bus ->
     User.driver_profile current_user = Some profile ->
     (update_bus_location json_dumps bus_id location_data current_user w).1
     = Raise (HTTPException HTTP_403_FORBIDDEN "You are not assigned to this bus")) /\
  (Session.bus_by_id bus_id (db w) = None ->
   (update_bus_location json_dumps bus_id location_data current_user w).1
   = Raise (HTTPException HTTP_404_NOT_FOUND "Bus not found")).
Proof.
  intros Hnone. rewrite (update_bus_location_unassigned _ _ _ _ Hnone).
  cbn [fst snd]. split; [done|]. split; [|split].
  - destruct (Session.bus_by_id bus_id (db w)); [|by eexists].
    destruct (User.driver_profile current_user); by eexists.
  - by intros bus profile -> ->.
  - by intros ->.
Qed.

(** C9. Two requests to the same path [bus_id] whose bodies differ only
    in their [bus_id] field have the same outcome in every respect: the
    row built for the store is the same and carries the [bus_id] of the
    path, what is stored and broadcast for it is the same, and the
    message announces the [bus_id] of the path. *)
Theorem body_bus_id_is_ignored
  (bus_id : Z) (l1 l2 : BusLocationUpdate.t) (current_user : User.t) (w : World) :
  BusLocationUpdate.same_but_bus_id l1 l2 ->
  update_bus_location json_dumps bus_id l1 current_user w
  = update_bus_location json_dumps bus_id l2 current_user w /\
  (forall v,
     new_tracking bus_id l1 v = new_tracking bus_id l2 v /\
     BusTracking.bus_id (new_tracking bus_id l1 v) = bus_id /\
     store_and_announce json_dumps bus_id (new_tracking bus_id l1 v) w
     = store_and_announce json_dumps bus_id (new_tracking bus_id l2 v) w) /\
  (forall row, exists rest,
     location_update bus_id row
     = PyDict [("type"%string, PyStr "location_update");
               ("data"%string, PyDict (("bus_id"%string, PyInt bus_id) :: rest))]).
Proof.
  intros (Hlat & Hlon & Hspeed & Hheading & Hacc & Hcrowd & Hcur & Hnext & Heta).
  assert (forall v, new_tracking bus_id l1 v = new_tracking bus_id l2 v) as Hrow.
  { intros v. unfold new_tracking.
    by rewrite Hlat, Hlon, Hspeed, Hheading, Hacc, Hcrowd, Hcur, Hnext, Heta. }
  split; [|split].
  - unfold update_bus_location.
    destruct (Session.bus_by_id bus_id (db w)); [|done].
    destruct (User.driver_profile current_user) as [profile|]; [|done].
    destruct (find _ _); [|done].
    unfold bind, lift.
    assert (BusLocationUpdate.is_on_route l1 = BusLocationUpdate.is_on_route l2)
      as -> by done.
    destruct (BusLocationUpdate.is_on_route l2) as [v|e]; [|done].
    by rewrite Hrow.
  - intros v. split; [apply Hrow|]. split; [done|]. by rewrite Hrow.
  - intros row. by eexists.
Qed.

End RecordingClaims.

(** ** The route planner *)

Section PlannerClaims.

Import Routes.

Variable ilike : string -> string -> bool.
Variable order : SetOrder.

(** The direct-route search raises only on an active assignment whose bus
    row is missing. *)
Lemma find_direct_route_returns (origin_stop destination_stop : BusStop.t)
  (db : Session.t) :
  (forall a, a ∈ Session.bus_assignments db -> BusAssignment.is_active a = true ->
     exists bus, Session.bus_by_id (BusAssignment.bus_id a) db = Some bus) ->
  exists direct_route,
    find_direct_route order origin_stop destination_stop db = Ok direct_route.
Proof.
  intros Hbuses. unfold find_direct_route.
  destruct (list_and order _ _) as [|route_id rest]; [by eexists|].
  destruct (find _ _) as [a|] eqn:Hfind; [|by eexists].
  apply find_some in Hfind as [Hin Hwhich].
  apply andb_true_iff in Hwhich as [_ Hactive].
  apply list_elem_of_In in Hin.
  destruct (Hbuses a Hin Hactive) as [bus ->]. by eexists.
Qed.

(** The plan once the first stops are known, by the answer of the
    direct-route search. *)
Lemma plan_route_options (plan_request : RoutePlanRequest.t) (db : Session.t)
  (response : RoutePlanResponse.t) :
  plan_route ilike order plan_request db = Ok response ->
  length (RoutePlanResponse.options response) = 2%nat.
Proof.
  unfold plan_route.
  destruct (find_nearby_stops ilike (RoutePlanRequest.origin plan_request) db)
    as [|origin_stop ?]; [done|].
  destruct (find_nearby_stops ilike (RoutePlanRequest.destination plan_request) db)
    as [|destination_stop ?]; [done|].
  destruct (find_direct_route order origin_stop destination_stop db) as [[d|]|e];
    [| |done]; cbn; intros Hresp; injection Hresp as <-; done.
Qed.

(** C10. When both nearby-stop lookups find a stop, a plan that is
    returned has two options, so at least two and never none; and a plan
    is returned whenever every active assignment points to an existing
    bus. *)
Theorem plan_route_has_two_options
  (plan_request : RoutePlanRequest.t) (db : Session.t) :
  find_nearby_stops ilike (RoutePlanRequest.origin plan_request) db <> [] ->
  find_nearby_stops ilike (RoutePlanRequest.destination plan_request) db <> [] ->
  (forall response,
     plan_route ilike order plan_request db = Ok response ->
     length (RoutePlanResponse.options response) = 2%nat /\
     (2 <= length (RoutePlanResponse.options response))%nat /\
     RoutePlanResponse.options response <> []) /\
  ((forall a, a ∈ Session.bus_assignments db -> BusAssignment.is_active a = true ->
      exists bus, Session.bus_by_id (BusAssignment.bus_id a) db = Some bus) ->
   exists response, plan_route ilike order plan_request db = Ok response) /\
  (forall e, plan_route ilike order plan_request db = Raise e ->
     e = AttributeError "'NoneType' object has no attribute 'bus_number'").
Proof.
  intros Horigin Hdestination. split; [|split].
  - intros response Hresp. pose proof (plan_route_options _ _ _ Hresp) as Hlen.
    split; [done|]. split; [lia|]. intros Hnil. by rewrite Hnil in Hlen.
  - intros Hbuses. unfold plan_route.
    destruct (find_nearby_stops ilike (RoutePlanRequest.origin plan_request) db)
      as [|origin_stop ?]; [done|].
    destruct (find_nearby_stops ilike (RoutePlanRequest.destination plan_request) db)
      as [|destination_stop ?]; [done|].
    destruct (find_direct_route_returns origin_stop destination_stop db Hbuses)
      as [direct_route ->].
    destruct direct_route; cbn; by eexists.
  - intros e. unfold plan_route.
    destruct (find_nearby_stops ilike (RoutePlanRequest.origin plan_request) db)
      as [|origin_stop ?]; [done|].
    destruct (find_nearby_stops ilike (RoutePlanRequest.destination plan_request) db)
      as [|destination_stop ?]; [done|].
    destruct (find_direct_route order origin_stop destination_stop db) as [[d|]|e'] eqn:Hd;
      [done|done|].
    intros He. injection He as <-. unfold find_direct_route in Hd.
    destruct (list_and order _ _) as [|route_id rest]; [done|].
    destruct (find _ _) as [a|]; [|done].
    destruct (Session.bus_by_id _ db); [done|]. by injection Hd as <-.
Qed.

End PlannerClaims.

(** * The properties on sample data *)

Section Witnesses.

Import Realtime.

(** Membership in a set written out by its elements. *)
Ltac in_literal :=
  rewrite ?elem_of_union, ?elem_of_singleton; lia.

Lemma three_observers_failed :
  2%nat ∈ active_connections Sample.three_observers /\
  deliverable (peers Sample.three_observers) 2 = false /\
  (forall ws, ws ∈ active_connections Sample.three_observers -> ws <> 2%nat ->
     deliverable (peers Sample.three_observers) ws = true).
Proof.
  split; [|split].
  - unfold Sample.three_observers; simpl. in_literal.
  - reflexivity.
  - unfold Sample.three_observers; simpl. intros ws Hin Hne.
    assert (ws = 1%nat \/ ws = 3%nat) as [-> | ->]; [|reflexivity..].
    revert Hin. in_literal.
Defined.

Lemma broadcast_isolates_failed_observer_witness :
  let after :=
    (broadcast Sample.render (PyStr "ping") Sample.three_observers).2 in
  inbox (peers after) 1 = ["ping"%string] /\
  inbox (peers after) 3 = ["ping"%string] /\
  (2%nat ∉ active_connections after) /\
  1%nat ∈ active_connections after /\
  3%nat ∈ active_connections after.
Proof.
  destruct three_observers_failed as (Hin & Hbad & Hgood).
  destruct (broadcast_isolates_failed_observer Sample.render (PyStr "ping")
              Sample.three_observers 2 Hin Hbad Hgood)
    as (_ & Hinbox & Hgone & Hkept).
  cbv zeta. split; [|split; [|split; [|split]]].
  - rewrite Hinbox; [reflexivity| |lia]. unfold Sample.three_observers; simpl. in_literal.
  - rewrite Hinbox; [reflexivity| |lia]. unfold Sample.three_observers; simpl. in_literal.
  - exact Hgone.
  - apply Hkept; [lia|]. unfold Sample.three_observers; simpl. in_literal.
  - apply Hkept; [lia|]. unfold Sample.three_observers; simpl. in_literal.
Defined.

Lemma broadcast_delivers_one_identical_frame_each_witness :
  exists tr,
    journal (broadcast Sample.render (PyStr "ping") Sample.two_observers).2 = tr /\
    length (frames tr) = 2%nat /\
    dumps_count tr = 1%nat /\
    (forall ws data, (ws, data) ∈ frames tr -> data = "ping"%string).
Proof.
  assert (forall ws, ws ∈ active_connections Sample.two_observers ->
            deliverable (peers Sample.two_observers) ws = true) as Hgood.
  { unfold Sample.two_observers; simpl. intros ws Hin.
    assert (ws = 1%nat \/ ws = 2%nat) as [-> | ->]; [|reflexivity..].
    revert Hin. in_literal. }
  destruct (broadcast_delivers_one_identical_frame_each Sample.render (PyStr "ping")
              Sample.two_observers Hgood)
    as (tr & Hrun & Hframes & Hlen & Hsame & Hdumps & _).
  exists tr. rewrite Hrun. cbn [snd journal Sample.two_observers app].
  split; [reflexivity|]. split; [|split].
  - rewrite Hlen. reflexivity.
  - rewrite Hdumps. reflexivity.
  - exact Hsame.
Defined.

(** Bus 7 has reported twice. With two timestamps the newer sample is
    the answer, whichever was inserted first; with one timestamp the
    sample inserted last is. *)
Lemma latest_tracking_newest_then_last_inserted_witness :
  Buses.latest_tracking index_walk 7 (Sample.store [] [] Sample.ordered)
  = Some (Sample.telemetry 2 7 200 true) /\
  Buses.latest_tracking index_walk 7 (Sample.store [] [] Sample.late_arrival)
  = Some (Sample.telemetry 1 7 200 true) /\
  Buses.latest_tracking index_walk 7 (Sample.store [] [] Sample.tied)
  = Some (Sample.telemetry 2 7 100 false).
Proof.
  split; [|split].
  - destruct (latest_tracking_newest_then_last_inserted
                (Sample.store [] [] Sample.ordered) 7) as (Hnewer & _).
    apply (Hnewer (Sample.telemetry 1 7 100 true) (Sample.telemetry 2 7 200 true)).
    + left.
    + reflexivity.
    + right. left.
    + reflexivity.
    + simpl. lia.
    + intros x Hx _. unfold Sample.store, Sample.ordered in Hx.
      cbn [Session.bus_tracking] in Hx. rewrite !elem_of_cons in Hx.
      destruct Hx as [-> | [-> | Hx]].
      * right. simpl. lia.
      * by left.
      * by apply elem_of_nil in Hx.
  - destruct (latest_tracking_newest_then_last_inserted
                (Sample.store [] [] Sample.late_arrival) 7) as (Hnewer & _).
    apply (Hnewer (Sample.telemetry 2 7 100 true) (Sample.telemetry 1 7 200 true)).
    + right. left.
    + reflexivity.
    + left.
    + reflexivity.
    + simpl. lia.
    + intros x Hx _. unfold Sample.store, Sample.late_arrival in Hx.
      cbn [Session.bus_tracking] in Hx. rewrite !elem_of_cons in Hx.
      destruct Hx as [-> | [-> | Hx]].
      * by left.
      * right. simpl. lia.
      * by apply elem_of_nil in Hx.
  - destruct (latest_tracking_newest_then_last_inserted
                (Sample.store [] [] Sample.tied) 7) as (_ & _ & Htie & _).
    apply (Htie (Sample.telemetry 1 7 100 true) (Sample.telemetry 2 7 100 false)
             [] [] []).
    + reflexivity.
    + reflexivity.
    + reflexivity.
    + reflexivity.
    + intros x Hx _. unfold Sample.store, Sample.tied in Hx.
      cbn [Session.bus_tracking] in Hx. rewrite !elem_of_cons in Hx.
      destruct Hx as [-> | [-> | Hx]]; [simpl; lia..|].
      by apply elem_of_nil in Hx.
    + intros x Hx. by apply elem_of_nil in Hx.
Defined.

(** A driver reports for an existing bus that nobody is assigned to. *)
Lemma unassigned_sample_is_rejected_witness :
  Buses.update_bus_location Sample.render 7 (Sample.location 7) Sample.driver3
    (Sample.world (Sample.store [Sample.bus7] [] []))
  = (Raise (HTTPException 403 "You are not assigned to this bus"),
     Sample.world (Sample.store [Sample.bus7] [] [])).
Proof.
  destruct (unassigned_sample_is_rejected Sample.render 7 (Sample.location 7)
              Sample.driver3 (Sample.world (Sample.store [Sample.bus7] [] [])))
    as (Hworld & _ & Hforbidden & _).
  - intros a Hin. by apply elem_of_nil in Hin.
  - specialize (Hforbidden Sample.bus7 _ eq_refl eq_refl).
    destruct (Buses.update_bus_location _ _ _ _ _) as [r w'].
    cbn [fst snd] in *. by rewrite Hworld, Hforbidden.
Defined.

(** C5, the vehicle that does not exist: it has no active assignment, and
    the request fails with NotFound (404), not with NotAssigned (403). *)
Lemma unassigned_unknown_vehicle_is_not_found :
  (forall a,
     a ∈ Session.bus_assignments (Buses.db (Sample.world (Sample.store [] [] []))) ->
     BusAssignment.bus_id a = 7%Z -> BusAssignment.is_active a = false) /\
  (Buses.update_bus_location Sample.render 7 (Sample.location 7) Sample.driver3
     (Sample.world (Sample.store [] [] []))).1
  = Raise (HTTPException 404 "Bus not found") /\
  (Buses.update_bus_location Sample.render 7 (Sample.location 7) Sample.driver3
     (Sample.world (Sample.store [] [] []))).1
  <> Raise (HTTPException HTTP_403_FORBIDDEN "You are not assigned to this bus").
Proof.
  split; [|split].
  - intros a Hin. by apply elem_of_nil in Hin.
  - reflexivity.
  - discriminate.
Qed.

(** Bus 8 is assigned and has not reported. *)
Lemma status_of_unreported_assignment_witness :
  exists b,
    Buses.bus_status index_walk Sample.fleet Sample.assignment8 = Ok b /\
    BusStatusSummary.crowd_level b = MEDIUM /\
    BusStatusSummary.is_on_route b = true /\
    BusStatusSummary.last_updated b = 600%Z /\
    BusStatusSummary.current_location b = None.
Proof.
  destruct (status_of_unreported_assignment index_walk
              index_walk_order_by Sample.fleet Sample.assignment8
              Sample.bus8)
    as (b & Hb & Hcrowd & Hroute & Hupdated & Hlocation & _ & _).
  - intros r Hin. unfold Sample.fleet, Sample.store in Hin.
    cbn [Session.bus_tracking] in Hin. apply list_elem_of_singleton in Hin as ->.
    discriminate.
  - reflexivity.
  - exists b. by repeat split.
Defined.

(** The two bodies differ in [bus_id] only. *)
Lemma body_bus_id_is_ignored_witness :
  Buses.update_bus_location Sample.render 7 (Sample.location 7) Sample.driver3
    (Sample.world Sample.fleet)
  = Buses.update_bus_location Sample.render 7 (Sample.location 99) Sample.driver3
      (Sample.world Sample.fleet) /\
  Buses.store_and_announce Sample.render 7
    (Buses.new_tracking 7 (Sample.location 7) true) (Sample.world Sample.fleet)
  = Buses.store_and_announce Sample.render 7
      (Buses.new_tracking 7 (Sample.location 99) true) (Sample.world Sample.fleet).
Proof.
  destruct (body_bus_id_is_ignored Sample.render 7 (Sample.location 7)
              (Sample.location 99) Sample.driver3 (Sample.world Sample.fleet))
    as (Hsame & Hrows & _).
  - by repeat split.
  - split; [exact Hsame|]. by destruct (Hrows true) as (_ & _ & Hstore).
Defined.

(** A plan between two stops of route 5. *)
Lemma plan_route_has_two_options_witness :
  exists response,
    Routes.plan_route Sample.any_name Routes.gset_order Sample.trip Sample.city = Ok response /\
    length (RoutePlanResponse.options response) = 2%nat.
Proof.
  destruct (plan_route_has_two_options Sample.any_name Routes.gset_order Sample.trip
              Sample.city)
    as (Htwo & Hreturns & _).
  - discriminate.
  - discriminate.
  - destruct Hreturns as [response Hresponse].
    + intros a Hin _. unfold Sample.city in Hin. cbn [Session.bus_assignments] in Hin.
      apply list_elem_of_singleton in Hin as ->. by exists Sample.bus7.
    + exists response. split; [exact Hresponse|].
      by destruct (Htwo response Hresponse) as [Hlen _].
Defined.


End Witnesses.

(** * The handler on sample data *)

Section Runs.

Import Buses.

(** The block that stores and announces, on a store that accepts the
    commit: the sample is committed, then announced, once. *)
Example store_and_announce_run :
  events (store_and_announce Sample.render 7
            (new_tracking 7 (Sample.location 7) true) (Sample.world Sample.fleet)).2
  = [Committed (BusTracking.stored 2 1000 (new_tracking 7 (Sample.location 7) true));
     Announced
       (location_update 7
          (BusTracking.stored 2 1000 (new_tracking 7 (Sample.location 7) true)))]
  /\ Realtime.frames
       (Realtime.journal
          (manager (store_and_announce Sample.render 7
                      (new_tracking 7 (Sample.location 7) true)
                      (Sample.world Sample.fleet)).2))
     ≡ₚ [(1%nat, "{}"%string); (2%nat, "{}"%string)].
Proof.
  rewrite store_and_announce_committed by reflexivity.
  cbn [snd events manager]. split; [reflexivity|].
  rewrite (broadcast_nonempty Sample.render).
  - cbn [snd Realtime.journal]. rewrite send_loop_trace.
    match goal with
    | |- ?l ≡ₚ _ =>
        replace l with [(2%nat, "{}"%string); (1%nat, "{}"%string)]
          by (vm_compute; reflexivity)
    end.
    apply Permutation_swap.
  - intros Hempty. assert (1%nat ∈ (∅ : gset nat)) as Hin.
    { rewrite <- Hempty. unfold Sample.world, Sample.two_observers. simpl.
      rewrite elem_of_union, !elem_of_singleton. by left. }
    by apply not_elem_of_empty in Hin.
Qed.

(** The handler for the assigned driver of an existing bus: the request
    body has no [is_on_route] to read, the read raises, and nothing is
    stored or announced. *)
Example update_bus_location_run :
  update_bus_location Sample.render 7 (Sample.location 7) Sample.driver3
    (Sample.world Sample.fleet)
  = (Raise (AttributeError
              "'BusLocationUpdate' object has no attribute 'is_on_route'"),
     Sample.world Sample.fleet).
Proof. reflexivity. Qed.

End Runs.

(** * Further properties of the connection manager *)

Section ManagerFacts.

Import Realtime.

Context {Message : Type}.
Variable json_dumps : Message -> string.

(** The registry, the inboxes and the state of the connections after a
    broadcast, whatever the number of failed writes. *)
Lemma broadcast_post (message : Message) (m : Manager Message) :
  (broadcast json_dumps message m).1 = Ok tt /\
  (forall ws,
     ws ∈ active_connections (broadcast json_dumps message m).2
     <-> ws ∈ active_connections m /\ deliverable (peers m) ws = true) /\
  (forall ws,
     inbox (peers (broadcast json_dumps message m).2) ws
     = if decide (ws ∈ active_connections m /\ deliverable (peers m) ws = true)
       then inbox (peers m) ws ++ [json_dumps message]
       else inbox (peers m) ws) /\
  (forall ws,
     deliverable (peers (broadcast json_dumps message m).2) ws
     = deliverable (peers m) ws).
Proof.
  destruct (decide (active_connections m = ∅)) as [Hempty|Hne].
  - unfold broadcast. rewrite decide_True by done. cbn [fst snd].
    split; [done|]. split; [|split; [|done]].
    + intros ws. rewrite Hempty. split; [intros Hx|intros [Hx _]];
        by apply not_elem_of_empty in Hx.
    + intros ws. rewrite decide_False; [done|]. rewrite Hempty.
      intros [Hx _]. by apply not_elem_of_empty in Hx.
  - rewrite (broadcast_nonempty json_dumps message m Hne).
    cbn [fst snd peers active_connections].
    split; [done|]. split; [|split].
    + intros ws. rewrite prune_elem_of, send_loop_to_remove, elem_of_elements.
      destruct (deliverable (peers m) ws); split.
      * by intros [? _].
      * intros [? _]. split; [done|]. by intros [_ ?].
      * intros [Hin Hnot]. destruct Hnot. by split.
      * by intros [_ ?].
    + intros ws. rewrite send_loop_inbox by apply NoDup_elements.
      destruct (decide (ws ∈ active_connections m /\ deliverable (peers m) ws = true))
        as [[Hin Hd]|Hn].
      * rewrite decide_True; [done|]. split; [by apply elem_of_elements|done].
      * rewrite decide_False; [done|]. intros [Hin Hd]. apply Hn.
        split; [by apply elem_of_elements|done].
    + intros ws. apply send_loop_deliverable.
Qed.

Lemma attempted_send_loop_trace (data : string) (snapshot : list nat)
  (net : gmap nat Peer) :
  Journal.attempted
    (map (fun ws => if deliverable net ws
                    then Sent (Message := Message) ws data else SendFailed ws)
       snapshot)
  = snapshot.
Proof.
  induction snapshot as [|c rest IH]; [done|]. simpl.
  destruct (deliverable net c); simpl; by rewrite IH.
Qed.

Lemma failures_send_loop_trace (data : string) (snapshot : list nat)
  (net : gmap nat Peer) :
  Journal.failures
    (map (fun ws => if deliverable net ws
                    then Sent (Message := Message) ws data else SendFailed ws)
       snapshot)
  = List.filter (fun ws => negb (deliverable net ws)) snapshot.
Proof.
  induction snapshot as [|c rest IH]; [done|]. simpl.
  destruct (deliverable net c); simpl; by rewrite IH.
Qed.

Lemma frames_send_loop_trace (data : string) (snapshot : list nat)
  (net : gmap nat Peer) :
  frames
    (map (fun ws => if deliverable net ws
                    then Sent (Message := Message) ws data else SendFailed ws)
       snapshot)
  = map (fun ws => (ws, data)) (List.filter (deliverable net) snapshot).
Proof.
  induction snapshot as [|c rest IH]; [done|]. simpl.
  destruct (deliverable net c); simpl; by rewrite IH.
Qed.

Lemma dumps_count_send_loop_trace (data : string) (snapshot : list nat)
  (net : gmap nat Peer) :
  dumps_count
    (map (fun ws => if deliverable net ws
                    then Sent (Message := Message) ws data else SendFailed ws)
       snapshot)
  = 0%nat.
Proof.
  induction snapshot as [|c rest IH]; [done|]. simpl.
  by destruct (deliverable net c).
Qed.

(** What a broadcast adds to the journal. *)
Lemma broadcast_journal (message : Message) (m : Manager Message) :
  journal (broadcast json_dumps message m).2
  = journal m ++
    (if decide (active_connections m = ∅) then []
     else Dumps message ::
          map (fun ws => if deliverable (peers m) ws
                         then Sent ws (json_dumps message) else SendFailed ws)
            (elements (active_connections m))).
Proof.
  destruct (decide (active_connections m = ∅)) as [Hempty|Hne].
  - unfold broadcast. rewrite decide_True by done. cbn [snd]. by rewrite app_nil_r.
  - rewrite (broadcast_nonempty json_dumps message m Hne). cbn [snd journal].
    by rewrite send_loop_trace.
Qed.

(** X1. After a broadcast the registry holds exactly the observers that
    were registered and could be written to; each of them has received
    the serialized event once, at the end of what it had received; no
    other inbox has changed; and the call has returned normally. *)
Theorem broadcast_keeps_exactly_the_live_observers
  (message : Message) (m : Manager Message) :
  (broadcast json_dumps message m).1 = Ok tt /\
  (forall ws,
     ws ∈ active_connections (broadcast json_dumps message m).2
     <-> ws ∈ active_connections m /\ deliverable (peers m) ws = true) /\
  (forall ws,
     ws ∈ active_connections m -> deliverable (peers m) ws = true ->
     inbox (peers (broadcast json_dumps message m).2) ws
     = inbox (peers m) ws ++ [json_dumps message]) /\
  (forall ws,
     ws ∉ active_connections m \/ deliverable (peers m) ws = false ->
     inbox (peers (broadcast json_dumps message m).2) ws = inbox (peers m) ws).
Proof.
  destruct (broadcast_post message m) as (Hok & Hreg & Hinbox & _).
  split; [done|]. split; [done|]. split.
  - intros ws Hin Hd. rewrite Hinbox. by rewrite decide_True.
  - intros ws Hout. rewrite Hinbox. rewrite decide_False; [done|].
    intros [Hin Hd]. destruct Hout as [Hout|Hout]; [done|congruence].
Qed.

(** X2. A broadcast to a registry that is not empty serializes once and
    then tries each registered connection exactly once, and no other
    connection: a connection whose write failed is not tried again, and
    the frames delivered are those of the connections that could be
    written to. On an empty registry the journal does not grow. *)
Theorem broadcast_tries_each_connection_once
  (message : Message) (m : Manager Message) :
  exists tr,
    journal (broadcast json_dumps message m).2 = journal m ++ tr /\
    Journal.attempted tr = elements (active_connections m) /\
    NoDup (Journal.attempted tr) /\
    (forall ws, ws ∈ Journal.attempted tr <-> ws ∈ active_connections m) /\
    (forall ws, ws ∈ Journal.failures tr
                <-> ws ∈ active_connections m /\ deliverable (peers m) ws = false) /\
    NoDup (Journal.failures tr) /\
    frames tr
    = map (fun ws => (ws, json_dumps message))
        (List.filter (deliverable (peers m)) (elements (active_connections m))) /\
    dumps_count tr = (if decide (active_connections m = ∅) then 0 else 1)%nat.
Proof.
  eexists. split; [apply broadcast_journal|].
  destruct (decide (active_connections m = ∅)) as [Hempty|Hne].
  - rewrite Hempty, elements_empty. simpl.
    split; [done|]. split; [apply NoDup_nil_2|]. split; [|split; [|split]].
    + intros ws. split; intros Hx;
        [by apply elem_of_nil in Hx|by apply not_elem_of_empty in Hx].
    + intros ws. split; [intros Hx; by apply elem_of_nil in Hx|].
      intros [Hx _]. by apply not_elem_of_empty in Hx.
    + apply NoDup_nil_2.
    + done.
  - cbn [Journal.attempted Journal.failures frames dumps_count].
    rewrite attempted_send_loop_trace, failures_send_loop_trace,
      frames_send_loop_trace, dumps_count_send_loop_trace.
    split; [done|]. split; [apply NoDup_elements|].
    split; [intros ws; apply elem_of_elements|].
    split; [|split; [|done]].
    + intros ws. rewrite list_elem_of_In, filter_In, <- list_elem_of_In, elem_of_elements.
      destruct (deliverable (peers m) ws); simpl; split; intros [? ?]; done.
    + apply NoDup_ListNoDup, List.NoDup_filter, NoDup_ListNoDup, NoDup_elements.
Qed.

Lemma filter_nothing {A} (f : A -> bool) (l : list A) :
  (forall x, x ∈ l -> f x = false) -> List.filter f l = [].
Proof.
  induction l as [|x rest IH]; intros Hnone; [done|]. simpl.
  rewrite (Hnone x) by left. apply IH. intros y Hy. apply Hnone. by right.
Qed.

(** The registry after a broadcast has no dead connection left. *)
Lemma broadcast_leaves_live (message : Message) (m : Manager Message) (ws : nat) :
  ws ∈ active_connections (broadcast json_dumps message m).2 ->
  deliverable (peers (broadcast json_dumps message m).2) ws = true.
Proof.
  destruct (broadcast_post message m) as (_ & Hreg & _ & Hd).
  intros Hin. apply Hreg in Hin as [_ Hlive]. by rewrite Hd.
Qed.

(** X3. Two broadcasts in a row: an observer that is registered and can
    be written to receives the two serialized events in the order they
    were published; the second broadcast finds no dead connection, so it
    fails no write and removes nobody. *)
Theorem broadcast_twice_in_order (first second : Message) (m : Manager Message) :
  let m1 := (broadcast json_dumps first m).2 in
  let m2 := (broadcast json_dumps second m1).2 in
  (forall ws,
     ws ∈ active_connections m -> deliverable (peers m) ws = true ->
     inbox (peers m2) ws
     = inbox (peers m) ws ++ [json_dumps first; json_dumps second]) /\
  (forall ws,
     ws ∉ active_connections m \/ deliverable (peers m) ws = false ->
     inbox (peers m2) ws = inbox (peers m) ws) /\
  active_connections m2 = active_connections m1 /\
  (exists tr, journal m2 = journal m1 ++ tr /\ Journal.failures tr = []).
Proof.
  intros m1 m2.
  destruct (broadcast_post first m) as (_ & Hreg1 & Hinbox1 & Hd1).
  destruct (broadcast_post second m1) as (_ & Hreg2 & Hinbox2 & _).
  fold m1 in Hreg1, Hinbox1, Hd1. fold m2 in Hreg2, Hinbox2.
  split; [|split; [|split]].
  - intros ws Hin Hlive. rewrite Hinbox2, decide_True.
    + rewrite Hinbox1, decide_True by done. by rewrite <- app_assoc.
    + split; [by apply Hreg1|]. by rewrite Hd1.
  - intros ws Hout. rewrite Hinbox2, decide_False.
    + rewrite Hinbox1, decide_False; [done|].
      intros [Hin Hlive]. destruct Hout as [Hout|Hout]; [done|congruence].
    + intros [Hin _]. apply Hreg1 in Hin as [Hin Hlive].
      destruct Hout as [Hout|Hout]; [done|congruence].
  - apply set_eq. intros ws. rewrite Hreg2. split; [by intros [? _]|].
    intros Hin. split; [done|]. by apply broadcast_leaves_live.
  - eexists. split; [apply broadcast_journal|].
    case_decide; [done|]. cbn [Journal.failures].
    rewrite failures_send_loop_trace. apply filter_nothing.
    intros ws Hin. apply elem_of_elements in Hin.
    unfold m1. by rewrite broadcast_leaves_live.
Qed.

End ManagerFacts.

Section RegistryFacts.

Import Realtime.

Implicit Types (conns : gset nat) (ws : nat).

Lemma connect_elem_of ws ws' conns :
  ws' ∈ connect ws conns <-> ws' = ws \/ ws' ∈ conns.
Proof. unfold connect. by rewrite elem_of_union, elem_of_singleton. Qed.

Lemma disconnect_elem_of ws ws' conns :
  ws' ∈ disconnect ws conns <-> ws' ∈ conns /\ ws' <> ws.
Proof.
  rewrite disconnect_difference, elem_of_difference, elem_of_singleton. done.
Qed.

(** X4. The registry is a set: registering a connection that is
    registered and removing one that is not change nothing, so both can
    be repeated; removing a connection right after registering it gives
    back the registry without it; neither touches another connection. *)
Theorem connect_disconnect_set_semantics ws conns :
  connect ws (connect ws conns) = connect ws conns /\
  disconnect ws (disconnect ws conns) = disconnect ws conns /\
  (ws ∉ disconnect ws conns) /\
  ws ∈ connect ws conns /\
  disconnect ws (connect ws conns) = disconnect ws conns /\
  (forall ws', ws' <> ws ->
     (ws' ∈ connect ws conns <-> ws' ∈ conns) /\
     (ws' ∈ disconnect ws conns <-> ws' ∈ conns)) /\
  (ws ∈ conns -> connect ws conns = conns) /\
  (ws ∉ conns -> disconnect ws conns = conns /\
                 disconnect ws (connect ws conns) = conns).
Proof.
  assert (forall X Y : gset nat, (forall x, x ∈ X <-> x ∈ Y) -> X = Y) as Hext.
  { intros X Y H. by apply set_eq. }
  split; [|split; [|split; [|split; [|split; [|split; [|split]]]]]].
  - apply Hext. intros x. rewrite !connect_elem_of. tauto.
  - apply Hext. intros x. rewrite !disconnect_elem_of. tauto.
  - rewrite disconnect_elem_of. tauto.
  - rewrite connect_elem_of. tauto.
  - apply Hext. intros x. rewrite !disconnect_elem_of, connect_elem_of. tauto.
  - intros ws' Hne. rewrite connect_elem_of, disconnect_elem_of. tauto.
  - intros Hin. apply Hext. intros x. rewrite connect_elem_of.
    split; [intros [->|?]; done|tauto].
  - intros Hout. split; apply Hext; intros x;
      rewrite ?disconnect_elem_of, ?connect_elem_of.
    + split; [tauto|]. intros Hx. split; [done|]. by intros ->.
    + split; [tauto|]. intros Hx. split; [tauto|]. by intros ->.
Qed.

(** The loop of the handler, by the first frame that is not a text. *)
Lemma receive_loop_texts ws (texts : list string) (rest : list Ws.Received) conns :
  Ws.receive_loop ws (map Ws.Text texts ++ rest) conns
  = Ws.receive_loop ws rest conns.
Proof. induction texts as [|t texts IH]; [done|]. simpl. apply IH. Qed.

(** X5. The handler of a connection registers it once accepted and keeps
    it registered while text frames arrive, which change nothing; when
    the client disconnects the connection is removed at once, and the
    registry is then what it was before, without this connection,
    whatever was sent before or comes after. A connection that was not
    accepted is never registered. *)
Theorem websocket_endpoint_unregisters_on_disconnect
  ws (texts : list string) (rest : list Ws.Received) conns :
  Ws.websocket_endpoint true ws (map Ws.Text texts) conns
  = (Ws.Listening, {[ws]} ∪ conns) /\
  Ws.websocket_endpoint true ws (map Ws.Text texts ++ Ws.WebSocketDisconnect :: rest)
    conns
  = (Ws.Disconnected, conns ∖ {[ws]}) /\
  (forall ws', ws' ∈ conns ∖ {[ws]} <-> ws' ∈ conns /\ ws' <> ws) /\
  Ws.websocket_endpoint false ws (map Ws.Text texts ++ rest) conns
  = (Ws.Crashed, conns).
Proof.
  unfold Ws.websocket_endpoint. split; [|split; [|split]].
  - rewrite <- (app_nil_r (map _ _)). by rewrite receive_loop_texts.
  - rewrite receive_loop_texts. simpl. f_equal.
    rewrite disconnect_difference. apply set_eq. intros x.
    rewrite !elem_of_difference, connect_elem_of, elem_of_singleton. tauto.
  - intros ws'. by rewrite elem_of_difference, elem_of_singleton.
  - done.
Qed.

End RegistryFacts.

Section LeakFacts.

Import Realtime.

Context {Message : Type}.
Variable json_dumps : Message -> string.

(** X6. Only a disconnect of the client unregisters a connection in its
    handler: when receiving fails in another way the handler ends with
    the connection still registered. It stays so until a broadcast fails
    to write to it, which removes it. *)
Theorem websocket_endpoint_crash_leaves_connection
  (ws : nat) (texts : list string) (rest : list Ws.Received) (conns : gset nat)
  (message : Message) (m : Manager Message) :
  active_connections m
  = (Ws.websocket_endpoint true ws (map Ws.Text texts ++ Ws.ReceiveError :: rest)
       conns).2 ->
  deliverable (peers m) ws = false ->
  (Ws.websocket_endpoint true ws (map Ws.Text texts ++ Ws.ReceiveError :: rest)
     conns).1 = Ws.Crashed /\
  ws ∈ active_connections m /\
  (ws ∉ active_connections (broadcast json_dumps message m).2) /\
  (forall ws', ws' ∈ conns -> deliverable (peers m) ws' = true ->
     ws' ∈ active_connections (broadcast json_dumps message m).2).
Proof.
  unfold Ws.websocket_endpoint. rewrite receive_loop_texts. cbn [Ws.receive_loop fst snd].
  intros Hreg Hdead.
  destruct (broadcast_post json_dumps message m) as (_ & Hafter & _).
  split; [done|]. split; [|split].
  - rewrite Hreg. apply connect_elem_of. by left.
  - rewrite Hafter. intros [_ Hlive]. congruence.
  - intros ws' Hin Hlive. apply Hafter. split; [|done].
    rewrite Hreg. apply connect_elem_of. by right.
Qed.

End LeakFacts.

(** * Further properties of the recording handler *)

Section RecordingMore.

Import Buses.

Variable json_dumps : PyVal -> string.

(** X7. The recording handler never stores or announces a sample: on
    every request it raises and leaves the database, the manager and the
    events as they were. The error is 404 for an unknown bus, the
    [AttributeError] of a caller without driver profile, 403 for a driver
    without an active assignment to the bus, and for the assigned driver
    the [AttributeError] of reading [is_on_route], which the request body
    does not have. *)
Theorem update_bus_location_never_records
  (bus_id : Z) (location_data : BusLocationUpdate.t) (current_user : User.t)
  (w : World) :
  update_bus_location json_dumps bus_id location_data current_user w
  = (Raise
       match Session.bus_by_id bus_id (db w) with
       | None => HTTPException 404 "Bus not found"
       | Some _ =>
           match User.driver_profile current_user with
           | None => AttributeError "'NoneType' object has no attribute 'id'"
           | Some profile =>
               match find (assigned_to bus_id (Driver.id profile))
                       (Session.bus_assignments (db w)) with
               | None => HTTPException 403 "You are not assigned to this bus"
               | Some _ =>
                   AttributeError
                     "'BusLocationUpdate' object has no attribute 'is_on_route'"
               end
           end
       end,
     w).
Proof.
  unfold update_bus_location, raise.
  destruct (Session.bus_by_id bus_id (db w)); [|done].
  destruct (User.driver_profile current_user) as [profile|]; [|done].
  by destruct (find _ _).
Qed.

(** X8. In a session without pending rows, the block that stores and
    announces, when commit and reload succeed, returns the row it was
    given with a primary key above every key of the table and the
    timestamp of the store; the row is appended at the end of the table
    of samples, the tables of buses, routes, stops, route stops and
    assignments are as they were, and primary keys that were distinct
    stay distinct. *)
Theorem store_and_announce_appends_fresh_row
  (bus_id : Z) (tracking_data : BusTracking.t) (w : World) :
  Session.pending (db w) = [] ->
  Session.commit_ok (db w) = true ->
  Session.refresh_ok (db w) = true ->
  let stored :=
    BusTracking.stored (Session.next_id (Session.bus_tracking (db w)))
      (Session.now (db w)) tracking_data in
  let after := (store_and_announce json_dumps bus_id tracking_data w).2 in
  (store_and_announce json_dumps bus_id tracking_data w).1 = Ok stored /\
  Session.bus_tracking (db after) = Session.bus_tracking (db w) ++ [stored] /\
  (forall r, r ∈ Session.bus_tracking (db w) ->
     (BusTracking.id r < BusTracking.id stored)%Z) /\
  BusTracking.timestamp stored = Session.now (db w) /\
  BusTracking.bus_id stored = BusTracking.bus_id tracking_data /\
  (NoDup (map BusTracking.id (Session.bus_tracking (db w))) ->
   NoDup (map BusTracking.id (Session.bus_tracking (db after)))) /\
  Session.buses (db after) = Session.buses (db w) /\
  Session.routes (db after) = Session.routes (db w) /\
  Session.bus_stops (db after) = Session.bus_stops (db w) /\
  Session.route_stops (db after) = Session.route_stops (db w) /\
  Session.bus_assignments (db after) = Session.bus_assignments (db w) /\
  Session.pending (db after) = [].
Proof.
  intros Hpending Hcommit Hrefresh stored after.
  assert (inserted_row tracking_data w = stored) as Hrow.
  { unfold inserted_row, stored. rewrite Hpending. simpl. by rewrite Z.add_0_r. }
  assert (flushed_rows tracking_data w = [stored]) as Hrows.
  { unfold flushed_rows, stored. by rewrite Hpending. }
  unfold after.
  rewrite (store_and_announce_committed json_dumps bus_id tracking_data w
             Hcommit Hrefresh).
  cbn [fst snd db]. rewrite Hrow, Hrows.
  split; [done|]. split; [done|]. split; [|split; [done|split; [done|]]].
  - intros r Hr. apply (ids_below_next_id _ r Hr).
  - split; [|done]. intros Hnodup. cbn [Session.with_tracking Session.bus_tracking].
    rewrite map_app. apply NoDup_app. split; [done|]. split.
    + intros x Hx Hx'. apply list_elem_of_singleton in Hx'. subst x.
      apply list_elem_of_fmap in Hx as (r & Hid & Hr).
      pose proof (ids_below_next_id _ r Hr) as Hlt.
      unfold stored in Hid. simpl in Hid. lia.
    + apply NoDup_singleton.
Qed.

(** X10. When commit and reload succeed, every registered observer that
    can be written to receives, as its next frame, the serialized
    [location_update] of the inserted row; the observers that cannot are
    unregistered; nobody else receives anything. *)
Theorem store_and_announce_reaches_live_observers
  (bus_id : Z) (tracking_data : BusTracking.t) (w : World) :
  Session.commit_ok (db w) = true ->
  Session.refresh_ok (db w) = true ->
  let after := (store_and_announce json_dumps bus_id tracking_data w).2 in
  let frame := json_dumps (location_update bus_id (inserted_row tracking_data w)) in
  (forall ws,
     ws ∈ Realtime.active_connections (manager w) ->
     Realtime.deliverable (Realtime.peers (manager w)) ws = true ->
     Realtime.inbox (Realtime.peers (manager after)) ws
     = Realtime.inbox (Realtime.peers (manager w)) ws ++ [frame]) /\
  (forall ws,
     ws ∉ Realtime.active_connections (manager w) \/
     Realtime.deliverable (Realtime.peers (manager w)) ws = false ->
     Realtime.inbox (Realtime.peers (manager after)) ws
     = Realtime.inbox (Realtime.peers (manager w)) ws) /\
  (forall ws,
     ws ∈ Realtime.active_connections (manager after)
     <-> ws ∈ Realtime.active_connections (manager w) /\
         Realtime.deliverable (Realtime.peers (manager w)) ws = true).
Proof.
  intros Hcommit Hrefresh after frame. unfold after.
  rewrite (store_and_announce_committed json_dumps bus_id tracking_data w
             Hcommit Hrefresh).
  cbn [snd manager].
  destruct (broadcast_post json_dumps
              (location_update bus_id (inserted_row tracking_data w)) (manager w))
    as (_ & Hreg & Hinbox & _).
  split; [|split; [|done]].
  - intros ws Hin Hlive. rewrite Hinbox. by rewrite decide_True.
  - intros ws Hout. rewrite Hinbox, decide_False; [done|].
    intros [Hin Hlive]. destruct Hout as [Hout|Hout]; [done|congruence].
Qed.

End RecordingMore.

Section RoundTrip.

Import Buses.

Variable json_dumps : PyVal -> string.
Variable E : Engine.
Hypothesis E_answers : order_by_desc_first E.

(** X9. Record, then read: in a session without pending rows, when
    commit and reload succeed and the clock of the store is ahead of
    every sample of the vehicle, the latest-position query returns the
    row just stored, and the status of an assignment of that vehicle
    shows the position, crowd level and time of that row. *)
Theorem recorded_sample_is_latest
  (bus_id : Z) (tracking_data : BusTracking.t) (w : World)
  (a : BusAssignment.t) (bus : Bus.t) :
  Session.pending (db w) = [] ->
  Session.commit_ok (db w) = true ->
  Session.refresh_ok (db w) = true ->
  (forall r, r ∈ Session.bus_tracking (db w) ->
     BusTracking.bus_id r = BusTracking.bus_id tracking_data ->
     (BusTracking.timestamp r < Session.now (db w))%Z) ->
  BusAssignment.bus_id a = BusTracking.bus_id tracking_data ->
  Session.bus_by_id (BusAssignment.bus_id a) (db w) = Some bus ->
  let stored :=
    BusTracking.stored (Session.next_id (Session.bus_tracking (db w)))
      (Session.now (db w)) tracking_data in
  let after := db (store_and_announce json_dumps bus_id tracking_data w).2 in
  latest_tracking E (BusTracking.bus_id tracking_data) after = Some stored /\
  exists b,
    bus_status E after a = Ok b /\
    BusStatusSummary.current_location b
    = Some (BusTracking.latitude tracking_data, BusTracking.longitude tracking_data) /\
    BusStatusSummary.crowd_level b = BusTracking.crowd_level tracking_data /\
    BusStatusSummary.eta_minutes b = BusTracking.eta_minutes tracking_data /\
    BusStatusSummary.last_updated b = Session.now (db w).
Proof.
  intros Hpending Hcommit Hrefresh Hclock Hbus_id Hbus stored after.
  assert (Session.bus_tracking after = Session.bus_tracking (db w) ++ [stored]
          /\ Session.buses after = Session.buses (db w)
          /\ Session.bus_stops after = Session.bus_stops (db w)
          /\ Session.routes after = Session.routes (db w)) as (Htbl & Hbuses & _).
  { unfold after.
    rewrite (store_and_announce_committed json_dumps bus_id tracking_data w
               Hcommit Hrefresh).
    cbn [snd db]. unfold flushed_rows, stored. by rewrite Hpending. }
  assert (latest_tracking E (BusTracking.bus_id tracking_data) after = Some stored)
    as Hlatest.
  { assert (stored ∈ Session.bus_tracking after) as Hin
      by (rewrite Htbl; apply elem_of_app; right; left).
    assert (Session.tracking_of (BusTracking.bus_id tracking_data) after <> [])
      as Hne.
    { intros Hnil.
      assert (stored ∈ Session.tracking_of (BusTracking.bus_id tracking_data) after)
        as Hx by by apply tracking_of_elem.
      rewrite Hnil in Hx. by apply elem_of_nil in Hx. }
    destruct (first_some E E_answers _ Hne) as [r Hr].
    destruct (latest_tracking_newest E E_answers _ after r Hr) as (Hrin & Hrbus & Hmax).
    unfold latest_tracking. rewrite Hr. f_equal.
    rewrite Htbl in Hrin. apply elem_of_app in Hrin as [Hold|Hnew].
    - specialize (Hclock r Hold Hrbus). specialize (Hmax stored Hin eq_refl).
      unfold stored in Hmax. simpl in Hmax. lia.
    - by apply list_elem_of_singleton in Hnew. }
  split; [exact Hlatest|].
  eexists. split.
  - unfold bus_status, assignment_bus, Session.bus_by_id.
    rewrite Hbuses. fold (Session.bus_by_id (BusAssignment.bus_id a) (db w)).
    rewrite Hbus, Hbus_id, Hlatest. reflexivity.
  - by repeat split.
Qed.

End RoundTrip.

(** * Further properties of the status and nearby queries *)

Section StatusMore.

Variable E : Engine.

Lemma status_loop_length (s : Session.t) (assignments : list BusAssignment.t)
  (out : list BusStatusSummary.t) :
  Buses.status_loop E s assignments = Ok out -> length out = length assignments.
Proof.
  revert out. induction assignments as [|a rest IH]; intros out Hloop.
  { by injection Hloop as <-. }
  simpl in Hloop.
  destruct (Buses.bus_status E s a) as [b|e]; [|done].
  destruct (Buses.status_loop E s rest) as [out'|e]; [|done].
  injection Hloop as <-. simpl. by rewrite (IH out').
Qed.

Lemma status_loop_raises (s : Session.t) (assignments : list BusAssignment.t)
  (e : Exn) :
  Buses.status_loop E s assignments = Raise e ->
  e = AttributeError "'NoneType' object has no attribute 'id'" /\
  exists a, a ∈ assignments /\ Session.bus_by_id (BusAssignment.bus_id a) s = None.
Proof.
  induction assignments as [|a rest IH]; intros Hloop; [done|].
  simpl in Hloop.
  destruct (Buses.bus_status E s a) as [b|e'] eqn:Hb.
  - destruct (Buses.status_loop E s rest) as [out'|e'']; [done|].
    injection Hloop as ->. destruct (IH eq_refl) as (He & a' & Ha' & Hnone).
    split; [done|]. exists a'. split; [by right|done].
  - injection Hloop as ->. unfold Buses.bus_status, Buses.assignment_bus in Hb.
    destruct (Session.bus_by_id (BusAssignment.bus_id a) s) eqn:Hbus; [done|].
    injection Hb as <-. split; [done|]. exists a. split; [left|done].
Qed.

(** What the summary of an assignment says when it is built. *)
Lemma bus_status_fields (s : Session.t) (a : BusAssignment.t)
  (b : BusStatusSummary.t) :
  Buses.bus_status E s a = Ok b ->
  exists bus,
    Session.bus_by_id (BusAssignment.bus_id a) s = Some bus /\
    BusStatusSummary.bus_id b = BusAssignment.bus_id a /\
    BusStatusSummary.bus_number b = Bus.bus_number bus /\
    BusStatusSummary.route_name b = Buses.route_name a s /\
    forall t, Buses.latest_tracking E (BusAssignment.bus_id a) s = Some t ->
      BusStatusSummary.current_location b
      = Some (BusTracking.latitude t, BusTracking.longitude t) /\
      BusStatusSummary.next_stop b = Buses.next_stop_name t s /\
      BusStatusSummary.eta_minutes b = BusTracking.eta_minutes t /\
      BusStatusSummary.crowd_level b = BusTracking.crowd_level t /\
      BusStatusSummary.is_on_route b = BusTracking.is_on_route t /\
      BusStatusSummary.last_updated b = BusTracking.timestamp t.
Proof.
  unfold Buses.bus_status, Buses.assignment_bus.
  destruct (Session.bus_by_id (BusAssignment.bus_id a) s) as [bus|] eqn:Hbus; [|done].
  intros Hb. injection Hb as <-. exists bus. cbn.
  split; [done|]. split; [by apply (bus_by_id_id _ s)|].
  split; [done|]. split; [done|]. by intros t ->.
Qed.

(** X11. The status list has one summary per row of the assignment table
    that is active, in the order of the table, and none for an inactive
    row: every active row has its summary and every summary is that of
    an active row. The summary names the bus and the route of the
    assignment and, when the vehicle has reported, carries the position,
    next stop, ETA, crowd level, on-route flag and time of its latest
    sample. The query raises only when an active assignment points to a
    missing bus. *)
Theorem active_status_one_summary_per_assignment (s : Session.t) :
  let active := List.filter BusAssignment.is_active (Session.bus_assignments s) in
  (forall out,
     Buses.get_active_buses_status E s = Ok out ->
     length out = length active /\
     (forall i a,
        active !! i = Some a ->
        BusAssignment.is_active a = true /\
        exists b bus,
          out !! i = Some b /\
          Session.bus_by_id (BusAssignment.bus_id a) s = Some bus /\
          BusStatusSummary.bus_id b = BusAssignment.bus_id a /\
          BusStatusSummary.bus_number b = Bus.bus_number bus /\
          BusStatusSummary.route_name b = Buses.route_name a s /\
          forall t, Buses.latest_tracking E (BusAssignment.bus_id a) s = Some t ->
            BusStatusSummary.current_location b
            = Some (BusTracking.latitude t, BusTracking.longitude t) /\
            BusStatusSummary.next_stop b = Buses.next_stop_name t s /\
            BusStatusSummary.eta_minutes b = BusTracking.eta_minutes t /\
            BusStatusSummary.crowd_level b = BusTracking.crowd_level t /\
            BusStatusSummary.is_on_route b = BusTracking.is_on_route t /\
            BusStatusSummary.last_updated b = BusTracking.timestamp t) /\
     (forall a,
        a ∈ Session.bus_assignments s -> BusAssignment.is_active a = true ->
        exists b, b ∈ out /\ Buses.bus_status E s a = Ok b /\
                  BusStatusSummary.bus_id b = BusAssignment.bus_id a) /\
     (forall b,
        b ∈ out ->
        exists a, a ∈ Session.bus_assignments s /\
                  BusAssignment.is_active a = true /\
                  Buses.bus_status E s a = Ok b /\
                  BusStatusSummary.bus_id b = BusAssignment.bus_id a)) /\
  (forall e,
     Buses.get_active_buses_status E s = Raise e ->
     e = AttributeError "'NoneType' object has no attribute 'id'" /\
     exists a,
       a ∈ Session.bus_assignments s /\ BusAssignment.is_active a = true /\
       Session.bus_by_id (BusAssignment.bus_id a) s = None).
Proof.
  intros active. unfold Buses.get_active_buses_status.
  rewrite active_assignments_filter. fold active. split.
  - intros out Hout.
    pose proof (status_loop_length s active out Hout) as Hlen.
    split; [done|]. split; [|split].
    + intros i a Hi. split.
      * apply list_elem_of_lookup_2 in Hi.
        by apply active_assignments_elem_of in Hi as [_ ?].
      * destruct (status_loop_lookup E s _ out i a Hout Hi) as (b & Hb & Hlook).
        destruct (bus_status_fields s a b Hb) as (bus & Hfields).
        exists b, bus. by split.
    + intros a Hin Hactive.
      assert (a ∈ active) as Ha by by apply active_assignments_elem_of.
      apply list_elem_of_lookup_1 in Ha as [i Hi].
      destruct (status_loop_lookup E s _ out i a Hout Hi) as (b & Hb & Hlook).
      destruct (bus_status_fields s a b Hb) as (bus & _ & Hid & _).
      exists b. split; [by apply list_elem_of_lookup_2 in Hlook|done].
    + intros b Hb. apply list_elem_of_lookup_1 in Hb as [i Hi].
      assert (is_Some (active !! i)) as [a Ha].
      { apply lookup_lt_is_Some_2. rewrite <- Hlen. by apply lookup_lt_Some in Hi. }
      destruct (status_loop_lookup E s _ out i a Hout Ha) as (b' & Hb' & Hlook).
      rewrite Hi in Hlook. injection Hlook as <-.
      destruct (bus_status_fields s a b Hb') as (bus & _ & Hid & _).
      apply list_elem_of_lookup_2, active_assignments_elem_of in Ha as [Hin Hactive].
      by exists a.
  - intros e Hraise.
    destruct (status_loop_raises s _ e Hraise) as (He & a & Ha & Hnone).
    split; [done|]. exists a.
    apply active_assignments_elem_of in Ha as [Hin Hactive]. by repeat split.
Qed.

End StatusMore.

Section NearbyMore.

Variable E : Engine.
Variables latitude longitude : R.


(** A summary of the nearby loop is the status summary of its assignment. *)
Lemma nearby_status_is_bus_status (radius_km : R) (s : Session.t)
  (a : BusAssignment.t) (b : BusStatusSummary.t) :
  Buses.nearby_status E latitude longitude radius_km s a = Ok (Some b) ->
  Buses.bus_status E s a = Ok b.
Proof.
  unfold Buses.nearby_status, Buses.bus_status.
  destruct (Buses.latest_tracking E (BusAssignment.bus_id a) s) as [t|]; [|done].
  destruct (Rle_dec _ radius_km) as [_|Hfar]; [|done].
  destruct (Buses.assignment_bus a s) as [bus|e]; [|done].
  by intros Hb; injection Hb as <-.
Qed.



Lemma nearby_loop_radius (r1 r2 : R) (s : Session.t)
  (assignments : list BusAssignment.t) (out1 out2 : list BusStatusSummary.t) :
  (r1 <= r2)%R ->
  Buses.nearby_loop E latitude longitude r1 s assignments = Ok out1 ->
  Buses.nearby_loop E latitude longitude r2 s assignments = Ok out2 ->
  out1 `sublist_of` out2.
Proof.
  intros Hle. revert out1 out2.
  induction assignments as [|a rest IH]; intros out1 out2 H1 H2.
  { injection H1 as <-. injection H2 as <-. done. }
  simpl in H1, H2.
  destruct (Buses.nearby_status E latitude longitude r1 s a) as [f1|e] eqn:Ht1; [|done].
  destruct (Buses.nearby_loop E latitude longitude r1 s rest) as [o1|e]; [|done].
  destruct (Buses.nearby_status E latitude longitude r2 s a) as [f2|e] eqn:Ht2; [|done].
  destruct (Buses.nearby_loop E latitude longitude r2 s rest) as [o2|e]; [|done].
  injection H1 as <-. injection H2 as <-.
  specialize (IH o1 o2 eq_refl eq_refl).
  destruct f1 as [b1|].
  - pose proof (nearby_status_is_bus_status r1 s a b1 Ht1) as Hb1.
    unfold Buses.nearby_status in Ht1, Ht2.
    destruct (Buses.latest_tracking E (BusAssignment.bus_id a) s) as [t|]; [|done].
    destruct (Rle_dec _ r1) as [Hnear|]; [|done].
    destruct (Rle_dec _ r2) as [_|Hfar]; [|exfalso; apply Hfar; lra].
    destruct (Buses.assignment_bus a s) as [bus|e]; [|done].
    injection Ht1 as <-. injection Ht2 as <-. by apply sublist_skip.
  - destruct f2; [by apply sublist_cons|done].
Qed.

(** X13. A larger radius finds at least the same vehicles: when the
    query returns for two radii, the result for the smaller one is the
    result for the larger one with some summaries left out, in the same
    order. *)
Theorem nearby_grows_with_radius
  (r1 r2 : R) (s : Session.t) (out1 out2 : list BusStatusSummary.t) :
  (r1 <= r2)%R ->
  Buses.get_nearby_buses E latitude longitude r1 s = Ok out1 ->
  Buses.get_nearby_buses E latitude longitude r2 s = Ok out2 ->
  out1 `sublist_of` out2.
Proof. intros Hle. apply nearby_loop_radius, Hle. Qed.

Lemma nearby_loop_sublist_status (radius_km : R) (s : Session.t)
  (assignments : list BusAssignment.t) (near every : list BusStatusSummary.t) :
  Buses.nearby_loop E latitude longitude radius_km s assignments = Ok near ->
  Buses.status_loop E s assignments = Ok every ->
  near `sublist_of` every.
Proof.
  revert near every. induction assignments as [|a rest IH]; intros near every H1 H2.
  { injection H1 as <-. injection H2 as <-. done. }
  simpl in H1, H2.
  destruct (Buses.nearby_status E latitude longitude radius_km s a)
    as [found|e] eqn:Hturn; [|done].
  destruct (Buses.nearby_loop E latitude longitude radius_km s rest) as [o1|e]; [|done].
  destruct (Buses.bus_status E s a) as [b|e] eqn:Hb; [|done].
  destruct (Buses.status_loop E s rest) as [o2|e]; [|done].
  injection H1 as <-. injection H2 as <-.
  specialize (IH o1 o2 eq_refl eq_refl).
  destruct found as [b'|]; [|by apply sublist_cons].
  apply nearby_status_is_bus_status in Hturn. rewrite Hb in Hturn.
  injection Hturn as <-. by apply sublist_skip.
Qed.

(** X14. The two queries agree: a summary of the nearby query is the
    summary the status query gives for the same assignment, field by
    field, and the nearby result is the status list with some summaries
    left out, in the same order. *)
Theorem nearby_is_part_of_active_status
  (radius_km : R) (s : Session.t) (near every : list BusStatusSummary.t) :
  Buses.get_nearby_buses E latitude longitude radius_km s = Ok near ->
  Buses.get_active_buses_status E s = Ok every ->
  near `sublist_of` every /\
  (forall b, b ∈ near -> b ∈ every) /\
  (length near <= length (Session.active_assignments s))%nat.
Proof.
  intros Hnear Hevery.
  pose proof (nearby_loop_sublist_status radius_km s _ near every Hnear Hevery) as Hsub.
  split; [done|]. split.
  - intros b Hb. eapply elem_of_submseteq; [exact Hb|]. by apply sublist_submseteq.
  - rewrite <- (status_loop_length E s _ every Hevery). by apply sublist_length.
Qed.

End NearbyMore.

(** * Sorted listings *)

Section InsertionFacts.

Context {A : Type}.
Variable le : A -> A -> Prop.
Variable leb : A -> A -> bool.
Hypothesis leb_le : forall a b, leb a b = true -> le a b.
Hypothesis leb_total : forall a b, leb a b = false -> le b a.
Hypothesis le_trans : forall a b c, le a b -> le b c -> le a c.

Lemma insert_perm (r : A) (sorted : list A) :
  OrderBy.insert leb r sorted ≡ₚ r :: sorted.
Proof.
  induction sorted as [|x rest IH]; [done|]. simpl.
  destruct (leb r x); [done|]. rewrite IH. apply Permutation_swap.
Qed.

Lemma insert_sorted (r : A) (sorted : list A) :
  StronglySorted le sorted -> StronglySorted le (OrderBy.insert leb r sorted).
Proof.
  induction 1 as [|x rest Hrest IH Hx]; simpl.
  - repeat constructor.
  - destruct (leb r x) eqn:Hrx.
    + constructor; [by constructor|]. constructor; [by apply leb_le|].
      eapply Forall_impl; [exact Hx|]. intros y Hy. simpl in Hy.
      eapply le_trans; [by apply leb_le|exact Hy].
    + constructor; [exact IH|].
      rewrite insert_perm. constructor; [by apply leb_total|exact Hx].
Qed.

(** Insertion is a sorter. *)
Lemma insertion_sorts : OrderBy.sorts le (OrderBy.insertion leb).
Proof.
  split; intros rows; induction rows as [|r rest IH]; simpl.
  - done.
  - by rewrite insert_perm, IH.
  - constructor.
  - by apply insert_sorted.
Qed.

End InsertionFacts.

Lemma newer_first_insertion :
  OrderBy.sorts OrderBy.newer_first (OrderBy.insertion OrderBy.newer_firstb).
Proof.
  apply insertion_sorts; unfold OrderBy.newer_first, OrderBy.newer_firstb.
  - intros a b H. by apply Z.leb_le in H.
  - intros a b H. apply Z.leb_gt in H. lia.
  - intros a b c. lia.
Qed.

Lemma by_sequence_insertion :
  OrderBy.sorts OrderBy.by_sequence (OrderBy.insertion OrderBy.by_sequenceb).
Proof.
  apply insertion_sorts; unfold OrderBy.by_sequence, OrderBy.by_sequenceb.
  - intros a b H. by apply Z.leb_le in H.
  - intros a b H. apply Z.leb_gt in H. lia.
  - intros a b c. lia.
Qed.

Section HistoryFacts.

Import BusQueries.

Variable S : list BusTracking.t -> list BusTracking.t.
Hypothesis S_sorts : OrderBy.sorts OrderBy.newer_first S.

Lemma history_run (bus_id hours utcnow : Z) (s : Session.t) (bus : Bus.t) :
  Session.bus_by_id bus_id s = Some bus ->
  get_bus_tracking_history S bus_id hours utcnow s
  = Ok (S (filter (fun r => BusTracking.bus_id r = bus_id /\
                            (utcnow - timedelta_hours hours
                             <= BusTracking.timestamp r)%Z)
             (Session.bus_tracking s))).
Proof. intros Hbus. unfold get_bus_tracking_history. by rewrite Hbus. Qed.

Lemma history_elem_of (bus_id hours utcnow : Z) (s : Session.t)
  (rows : list BusTracking.t) (r : BusTracking.t) :
  get_bus_tracking_history S bus_id hours utcnow s = Ok rows ->
  r ∈ rows <->
  r ∈ Session.bus_tracking s /\ BusTracking.bus_id r = bus_id /\
  (utcnow - timedelta_hours hours <= BusTracking.timestamp r)%Z.
Proof.
  unfold get_bus_tracking_history.
  destruct (Session.bus_by_id bus_id s); [|done]. intros Hrows.
  injection Hrows as <-.
  rewrite (OrderBy.sorts_perm _ _ S_sorts), list_elem_of_filter. tauto.
Qed.

(** X18. The tracking history of an unknown bus is a 404. For a known
    bus it holds exactly the samples of that bus taken since [hours]
    hours before now, each as often as it is stored, newest first. *)
Theorem tracking_history_is_the_window_newest_first
  (bus_id hours utcnow : Z) (s : Session.t) :
  (Session.bus_by_id bus_id s = None ->
   get_bus_tracking_history S bus_id hours utcnow s
   = Raise (HTTPException 404 "Bus not found")) /\
  (forall bus,
     Session.bus_by_id bus_id s = Some bus ->
     exists rows,
       get_bus_tracking_history S bus_id hours utcnow s = Ok rows /\
       StronglySorted OrderBy.newer_first rows /\
       rows ≡ₚ filter (fun r => BusTracking.bus_id r = bus_id /\
                                  (utcnow - hours * 3600000000
                                   <= BusTracking.timestamp r)%Z)
                 (Session.bus_tracking s) /\
       (forall r,
          r ∈ rows <->
          r ∈ Session.bus_tracking s /\ BusTracking.bus_id r = bus_id /\
          (utcnow - hours * 3600000000 <= BusTracking.timestamp r)%Z)).
Proof.
  split.
  - intros Hnone. unfold get_bus_tracking_history. by rewrite Hnone.
  - intros bus Hbus. eexists. split; [by apply (history_run _ _ _ _ bus)|].
    split; [apply (OrderBy.sorts_sorted _ _ S_sorts)|].
    split; [apply (OrderBy.sorts_perm _ _ S_sorts)|].
    intros r. apply (history_elem_of bus_id hours utcnow s).
    by apply (history_run _ _ _ _ bus).
Qed.

Variable E : Engine.
Hypothesis E_answers : order_by_desc_first E.

(** X19. A longer window holds every sample of a shorter one; and the
    first row of a history is as new as any sample of the bus: it has
    the timestamp of the answer of the latest-position query. *)
Theorem tracking_history_grows_and_starts_with_latest
  (bus_id hours hours' utcnow : Z) (s : Session.t)
  (rows rows' : list BusTracking.t) :
  (hours <= hours')%Z ->
  get_bus_tracking_history S bus_id hours utcnow s = Ok rows ->
  get_bus_tracking_history S bus_id hours' utcnow s = Ok rows' ->
  (forall r, r ∈ rows -> r ∈ rows') /\
  (length rows <= length rows')%nat /\
  (forall first rest,
     rows = first :: rest ->
     Forall (fun r => (BusTracking.timestamp r <= BusTracking.timestamp first)%Z) rows /\
     exists latest,
       Buses.latest_tracking E bus_id s = Some latest /\
       BusTracking.timestamp first = BusTracking.timestamp latest).
Proof.
  intros Hhours Hrun Hrun'.
  assert (forall r, r ∈ rows -> r ∈ rows') as Hsub.
  { intros r Hr. apply (history_elem_of _ _ _ _ _ r Hrun').
    apply (history_elem_of _ _ _ _ _ r Hrun) in Hr.
    destruct Hr as (? & ? & Hts). repeat split; try done.
    unfold timedelta_hours in *. lia. }
  split; [exact Hsub|]. split.
  - destruct (Session.bus_by_id bus_id s) as [bus|] eqn:Hbus;
      [|unfold get_bus_tracking_history in Hrun; by rewrite Hbus in Hrun].
    rewrite (history_run _ _ _ _ bus Hbus) in Hrun.
    rewrite (history_run _ _ _ _ bus Hbus) in Hrun'.
    injection Hrun as <-. injection Hrun' as <-.
    rewrite !(OrderBy.sorts_perm _ _ S_sorts). clear -Hhours.
    induction (Session.bus_tracking s) as [|r tbl IH]; [done|].
    rewrite !filter_cons. unfold timedelta_hours in *.
    repeat case_decide; simpl; lia.
  - intros first rest Hrows.
    assert (StronglySorted OrderBy.newer_first rows) as Hsorted.
    { unfold get_bus_tracking_history in Hrun.
      destruct (Session.bus_by_id bus_id s); [|done]. injection Hrun as <-.
      apply (OrderBy.sorts_sorted _ _ S_sorts). }
    assert (Forall (fun r => (BusTracking.timestamp r <= BusTracking.timestamp first)%Z)
              rows) as Hnewest.
    { rewrite Hrows in Hsorted |- *. apply StronglySorted_inv in Hsorted as [_ Hall].
      constructor; [lia|]. eapply Forall_impl; [exact Hall|]. by intros r Hr. }
    split; [exact Hnewest|].
    assert (first ∈ rows) as Hmem by (rewrite Hrows; left).
    apply (history_elem_of _ _ _ _ _ first Hrun) in Hmem as (Htbl & Hfbus & Hwindow).
    assert (Session.tracking_of bus_id s <> []) as Hne.
    { intros Hnil. assert (first ∈ Session.tracking_of bus_id s) as Hx
        by by apply tracking_of_elem.
      rewrite Hnil in Hx. by apply elem_of_nil in Hx. }
    destruct (first_some E E_answers _ Hne) as [latest Hlatest].
    exists latest. split; [exact Hlatest|].
    destruct (latest_tracking_newest E E_answers bus_id s latest Hlatest)
      as (Hlin & Hlbus & Hmax).
    pose proof (Hmax first Htbl Hfbus) as Hle.
    assert (latest ∈ rows) as Hlrow.
    { apply (history_elem_of _ _ _ _ _ latest Hrun). repeat split; try done. lia. }
    rewrite Forall_forall in Hnewest. specialize (Hnewest latest Hlrow). lia.
Qed.

End HistoryFacts.

(** * Further properties of the routes *)

Section PlannerMore.

Import Routes.

Variable ilike : string -> string -> bool.
Variable order : SetOrder.

Lemma bool_filter_sublist {A} (f : A -> bool) (l : list A) :
  List.filter f l `sublist_of` l.
Proof.
  induction l as [|x rest IH]; [done|]. simpl.
  destruct (f x); [by apply sublist_skip|by apply sublist_cons].
Qed.

Lemma bool_filter_elem_of {A} (f : A -> bool) (l : list A) (x : A) :
  x ∈ List.filter f l <-> x ∈ l /\ f x = true.
Proof. rewrite !list_elem_of_In. apply filter_In. Qed.

(** X20. The nearby-stop lookup returns at most three stops, all of them
    stops of the table whose name matches the pattern around the
    location, in the order of the table; it leaves a matching stop out
    only when it has found three, and finds none exactly when no stop
    matches. *)
Theorem find_nearby_stops_first_three_matches (location : string) (db : Session.t) :
  let pattern := String.append "%" (String.append location "%") in
  (length (find_nearby_stops ilike location db) <= 3)%nat /\
  find_nearby_stops ilike location db `sublist_of` Session.bus_stops db /\
  (forall stop,
     stop ∈ find_nearby_stops ilike location db ->
     stop ∈ Session.bus_stops db /\ ilike (BusStop.name stop) pattern = true) /\
  ((length (find_nearby_stops ilike location db) < 3)%nat ->
   forall stop,
     stop ∈ Session.bus_stops db -> ilike (BusStop.name stop) pattern = true ->
     stop ∈ find_nearby_stops ilike location db) /\
  (find_nearby_stops ilike location db = [] <->
   forall stop,
     stop ∈ Session.bus_stops db -> ilike (BusStop.name stop) pattern = false).
Proof.
  intros pattern. unfold find_nearby_stops. fold pattern.
  set (matches := List.filter (fun stop => ilike (BusStop.name stop) pattern)
                    (Session.bus_stops db)).
  split; [rewrite length_take; lia|].
  split; [etrans; [apply sublist_take|apply bool_filter_sublist]|].
  split; [|split].
  - intros stop Hin.
    assert (stop ∈ matches) as Hm.
    { eapply elem_of_submseteq; [exact Hin|]. apply sublist_submseteq, sublist_take. }
    by apply bool_filter_elem_of in Hm.
  - intros Hshort stop Hin Hmatch.
    rewrite length_take in Hshort.
    rewrite take_ge by lia. by apply bool_filter_elem_of.
  - split.
    + intros Hnone stop Hin.
      destruct (ilike (BusStop.name stop) pattern) eqn:Hmatch; [|done].
      assert (stop ∈ matches) as Hm by by apply bool_filter_elem_of.
      destruct matches as [|m rest]; [by apply elem_of_nil in Hm|done].
    + intros Hnone. replace matches with (@nil BusStop.t); [done|].
      symmetry. apply filter_nothing. intros stop Hin. by apply Hnone.
Qed.

Lemma routes_through_elem_of (stop : BusStop.t) (db : Session.t) (route_id : Z) :
  route_id ∈ routes_through stop db <->
  exists rs, rs ∈ Session.route_stops db /\
             RouteStop.stop_id rs = BusStop.id stop /\
             RouteStop.route_id rs = route_id.
Proof.
  unfold routes_through. rewrite list_elem_of_fmap. split.
  - intros (rs & -> & Hrs). apply bool_filter_elem_of in Hrs as [Hin Hstop].
    exists rs. apply Z.eqb_eq in Hstop. done.
  - intros (rs & Hin & Hstop & <-). exists rs. split; [done|].
    apply bool_filter_elem_of. split; [done|]. by apply Z.eqb_eq.
Qed.

(** X21. Whichever common route the order of the set puts first, a direct
    route that is found is real: its route passes through both stops, and
    its bus is the bus of an active assignment on that route. When no
    route passes through both stops, none is found. *)
Theorem find_direct_route_is_sound
  (origin_stop destination_stop : BusStop.t) (db : Session.t) :
  (forall d,
     find_direct_route order origin_stop destination_stop db = Ok (Some d) ->
     (exists rs, rs ∈ Session.route_stops db /\
                 RouteStop.stop_id rs = BusStop.id origin_stop /\
                 RouteStop.route_id rs = route_id d) /\
     (exists rs, rs ∈ Session.route_stops db /\
                 RouteStop.stop_id rs = BusStop.id destination_stop /\
                 RouteStop.route_id rs = route_id d) /\
     exists a bus,
       a ∈ Session.bus_assignments db /\
       BusAssignment.is_active a = true /\
       BusAssignment.route_id a = route_id d /\
       Session.bus_by_id (BusAssignment.bus_id a) db = Some bus /\
       bus_number d = Bus.bus_number bus) /\
  ((forall rs1 rs2,
      rs1 ∈ Session.route_stops db -> rs2 ∈ Session.route_stops db ->
      RouteStop.stop_id rs1 = BusStop.id origin_stop ->
      RouteStop.stop_id rs2 = BusStop.id destination_stop ->
      RouteStop.route_id rs1 <> RouteStop.route_id rs2) ->
   find_direct_route order origin_stop destination_stop db = Ok None).
Proof.
  unfold find_direct_route.
  set (common := list_and order (routes_through origin_stop db)
                   (routes_through destination_stop db)).
  assert (forall r, r ∈ common ->
            r ∈ routes_through origin_stop db /\
            r ∈ routes_through destination_stop db) as Hcommon
    by (intros r; apply list_and_elem).
  split.
  - intros d Hd.
    destruct common as [|r rest]; [done|].
    destruct (Hcommon r) as [Ho Hdest]; [left|].
    apply routes_through_elem_of in Ho. apply routes_through_elem_of in Hdest.
    destruct (find _ _) as [a|] eqn:Hfind; [|done].
    apply find_some in Hfind as [Hin Hwhich].
    apply andb_true_iff in Hwhich as [Hroute Hactive]. apply Z.eqb_eq in Hroute.
    destruct (Session.bus_by_id (BusAssignment.bus_id a) db) as [bus|] eqn:Hbus; [|done].
    injection Hd as <-. cbn [route_id bus_number].
    split; [done|]. split; [done|].
    exists a, bus. apply list_elem_of_In in Hin. done.
  - intros Hdisjoint.
    destruct common as [|r rest]; [done|]. exfalso.
    destruct (Hcommon r) as [Ho Hdest]; [left|].
    apply routes_through_elem_of in Ho as (rs1 & Hin1 & Hs1 & Hr1).
    apply routes_through_elem_of in Hdest as (rs2 & Hin2 & Hs2 & Hr2).
    apply (Hdisjoint rs1 rs2 Hin1 Hin2 Hs1 Hs2). congruence.
Qed.

(** X22. The planner answers 404 exactly when one of the two lookups
    finds no stop. Otherwise it looks at the first stop of each lookup
    only; a plan it returns repeats origin and destination, always holds
    the transfer through Central Station, holds the direct option, in
    first place, exactly when a direct route is found, and the
    alternative, in last place, exactly when none is. *)
Theorem plan_route_shape (plan_request : RoutePlanRequest.t) (db : Session.t) :
  let origin_stops :=
    find_nearby_stops ilike (RoutePlanRequest.origin plan_request) db in
  let destination_stops :=
    find_nearby_stops ilike (RoutePlanRequest.destination plan_request) db in
  (plan_route ilike order plan_request db
   = Raise (HTTPException 404 "No stops found near the specified locations")
   <-> origin_stops = [] \/ destination_stops = []) /\
  (forall origin_stop rest destination_stop rest' response,
     origin_stops = origin_stop :: rest ->
     destination_stops = destination_stop :: rest' ->
     plan_route ilike order plan_request db = Ok response ->
     RoutePlanResponse.origin response = RoutePlanRequest.origin plan_request /\
     RoutePlanResponse.destination response
     = RoutePlanRequest.destination plan_request /\
     ((exists d,
         find_direct_route order origin_stop destination_stop db = Ok (Some d) /\
         RoutePlanResponse.options response
         = [direct_option plan_request d; central_transfer]) \/
      (find_direct_route order origin_stop destination_stop db = Ok None /\
       RoutePlanResponse.options response
       = [central_transfer; alternative_option]))).
Proof.
  intros origin_stops destination_stops. unfold plan_route.
  fold origin_stops destination_stops. split.
  - destruct origin_stops as [|o ?]; [by split; [left|]|].
    destruct destination_stops as [|d ?]; [by split; [right|]|].
    split; [|by intros [?|?]].
    destruct (find_direct_route order o d db) as [[?|]|e] eqn:Hd; cbn; [done|done|].
    intros He. injection He as ->. exfalso.
    unfold find_direct_route in Hd.
    destruct (list_and order _ _); [done|]. destruct (find _ _); [|done].
    by destruct (Session.bus_by_id _ db).
  - intros o rest d rest' response -> ->.
    destruct (find_direct_route order o d db) as [[direct|]|e]; cbn; [| |done].
    + intros Hresp. injection Hresp as <-. cbn. split; [done|]. split; [done|].
      left. by exists direct.
    + intros Hresp. injection Hresp as <-. cbn. split; [done|]. split; [done|].
      by right.
Qed.

End PlannerMore.

Section RouteStopFacts.

Import RouteAdmin.

(** X24. Adding a stop to a route never adds it: on every request the
    handler fails and leaves the database as it was. After the checks of
    the route (404), of the stop (404), of the stop being new to the
    route (400) and of the sequence number being free (400), building
    the row gives [route_id] twice, once by name and once in the fields
    of the request, which is a [TypeError]. *)
Theorem add_stop_to_route_never_adds
  (route_id : Z) (stop_data : RouteStopCreate.t) (s : Session.t) :
  add_stop_to_route route_id stop_data s
  = (match Session.route_by_id route_id s with
     | None => Failed (HTTPException 404 "Route not found")
     | Some _ =>
         match Session.stop_by_id (RouteStopCreate.stop_id stop_data) s with
         | None => Failed (HTTPException 404 "Stop not found")
         | Some _ =>
             match route_stop_of route_id (RouteStopCreate.stop_id stop_data) s with
             | Some _ => Failed (HTTPException 400 "Stop already exists in this route")
             | None =>
                 match sequence_taken route_id
                         (RouteStopCreate.sequence stop_data) s with
                 | Some _ =>
                     Failed (HTTPException 400
                               "Sequence number already exists in this route")
                 | None =>
                     TypeError
                       "app.models.RouteStop() got multiple values for keyword argument 'route_id'"
                 end
             end
         end
     end, s).
Proof.
  unfold add_stop_to_route.
  destruct (Session.route_by_id route_id s); [|done].
  destruct (Session.stop_by_id _ s); [|done].
  destruct (route_stop_of _ _ s); [done|].
  by destruct (sequence_taken _ _ s).
Qed.

Lemma route_stop_of_some (route_id stop_id : Z) (s : Session.t) (rs : RouteStop.t) :
  route_stop_of route_id stop_id s = Some rs ->
  rs ∈ Session.route_stops s /\
  RouteStop.route_id rs = route_id /\ RouteStop.stop_id rs = stop_id.
Proof.
  unfold route_stop_of. intros Hfind. apply find_some in Hfind as [Hin Hwhich].
  apply andb_true_iff in Hwhich as [Hr Hs].
  apply Z.eqb_eq in Hr. apply Z.eqb_eq in Hs. by apply list_elem_of_In in Hin.
Qed.

Lemma route_stop_of_none (route_id stop_id : Z) (s : Session.t) :
  route_stop_of route_id stop_id s = None <->
  forall rs, rs ∈ Session.route_stops s ->
    ~ (RouteStop.route_id rs = route_id /\ RouteStop.stop_id rs = stop_id).
Proof.
  unfold route_stop_of. split.
  - intros Hnone rs Hin [Hr Hs]. apply list_elem_of_In in Hin.
    pose proof (find_none _ _ Hnone rs Hin) as Hf. simpl in Hf.
    rewrite <- Hr, <- Hs, !Z.eqb_refl in Hf. discriminate.
  - intros Hnone. destruct (find _ _) as [rs|] eqn:Hfind; [|done]. exfalso.
    apply find_some in Hfind as [Hin Hwhich].
    apply andb_true_iff in Hwhich as [Hr Hs].
    apply Z.eqb_eq in Hr. apply Z.eqb_eq in Hs.
    apply (Hnone rs); [by apply list_elem_of_In|done].
Qed.

Lemma filter_all {A} (P : A -> Prop) `{forall x, Decision (P x)} (l : list A) :
  (forall x, x ∈ l -> P x) -> filter P l = l.
Proof.
  induction l as [|x rest IH]; intros Hall; [done|].
  rewrite filter_cons, decide_True by (apply Hall; left).
  f_equal. apply IH. intros y Hy. apply Hall. by right.
Qed.

Lemma filter_other_ids_length (rows : list RouteStop.t) (rs : RouteStop.t) :
  NoDup (map RouteStop.id rows) -> rs ∈ rows ->
  S (length (filter (fun r => RouteStop.id r <> RouteStop.id rs) rows)) = length rows.
Proof.
  induction rows as [|r rest IH]; intros Hnodup Hin.
  { by apply elem_of_nil in Hin. }
  simpl in Hnodup. apply NoDup_cons in Hnodup as [Hfresh Hnodup].
  rewrite filter_cons. apply elem_of_cons in Hin as [->|Hin].
  - rewrite decide_False by (intros Hne; by apply Hne). simpl. f_equal.
    rewrite filter_all; [done|]. intros x Hx Heq. apply Hfresh.
    rewrite <- Heq. apply list_elem_of_fmap. by exists x.
  - rewrite decide_True.
    + simpl. f_equal. by apply IH.
    + intros Heq. apply Hfresh. rewrite Heq. apply list_elem_of_fmap. by exists rs.
Qed.

Lemma stops_of_other_rows (rows : list RouteStop.t) (rs : RouteStop.t) (other : Z) :
  (forall r, r ∈ rows -> RouteStop.id r = RouteStop.id rs ->
     RouteStop.route_id r <> other) ->
  filter (fun r => RouteStop.route_id r = other)
    (filter (fun r => RouteStop.id r <> RouteStop.id rs) rows)
  = filter (fun r => RouteStop.route_id r = other) rows.
Proof.
  induction rows as [|r rest IH]; intros Hkey; [done|].
  rewrite !(filter_cons _ r).
  assert (forall x, x ∈ rest -> RouteStop.id x = RouteStop.id rs ->
            RouteStop.route_id x <> other) as Hrest
    by (intros x Hx; apply Hkey; by right).
  destruct (decide (RouteStop.id r <> RouteStop.id rs)) as [Hne|Heq].
  - rewrite filter_cons. case_decide; by rewrite IH.
  - assert (RouteStop.id r = RouteStop.id rs) as Hid
      by (destruct (decide (RouteStop.id r = RouteStop.id rs)); [done|by destruct Heq]).
    rewrite decide_False by (apply Hkey; [left|done]). by apply IH.
Qed.

(** X23. Removing a stop from a route: when the route has no such stop
    the answer is 404, and when the commit fails it is the error of the
    store; in both cases nothing changes. Otherwise the row found is
    deleted and only that row: with distinct primary keys the table
    loses exactly one row, the stops of other routes are untouched, the
    tables of buses, routes, stops, assignments and samples are as they
    were, and if the route held the stop once, removing it again is a
    404. *)
Theorem remove_stop_from_route_deletes_one_row
  (route_id stop_id : Z) (s : Session.t) :
  (route_stop_of route_id stop_id s = None ->
   remove_stop_from_route route_id stop_id s
   = (Raise (HTTPException 404 "Stop not found in this route"), s)) /\
  (forall rs,
     route_stop_of route_id stop_id s = Some rs ->
     Session.commit_ok s = false ->
     remove_stop_from_route route_id stop_id s = (Raise SQLAlchemyError, s)) /\
  (forall rs,
     route_stop_of route_id stop_id s = Some rs ->
     Session.commit_ok s = true ->
     NoDup (map RouteStop.id (Session.route_stops s)) ->
     let after := (remove_stop_from_route route_id stop_id s).2 in
     (remove_stop_from_route route_id stop_id s).1
     = Ok "Stop removed from route successfully"%string /\
     (forall r, r ∈ Session.route_stops after
                <-> r ∈ Session.route_stops s /\ r <> rs) /\
     Session.route_stops after `sublist_of` Session.route_stops s /\
     S (length (Session.route_stops after)) = length (Session.route_stops s) /\
     (forall other, other <> route_id -> stops_of other after = stops_of other s) /\
     Session.buses after = Session.buses s /\
     Session.routes after = Session.routes s /\
     Session.bus_stops after = Session.bus_stops s /\
     Session.bus_assignments after = Session.bus_assignments s /\
     Session.bus_tracking after = Session.bus_tracking s /\
     Session.pending after = Session.pending s /\
     ((forall r, r ∈ Session.route_stops s ->
         RouteStop.route_id r = route_id -> RouteStop.stop_id r = stop_id -> r = rs) ->
      (remove_stop_from_route route_id stop_id after).1
      = Raise (HTTPException 404 "Stop not found in this route"))).
Proof.
  unfold remove_stop_from_route. split; [by intros ->|]. split.
  - intros rs -> Hfail. by rewrite Hfail.
  - intros rs Hfound Hcommit Hnodup. rewrite Hfound, Hcommit.
    cbn [fst snd with_route_stops Session.route_stops Session.routes
         Session.bus_stops Session.bus_assignments Session.buses
         Session.bus_tracking Session.pending].
    destruct (route_stop_of_some _ _ _ _ Hfound) as (Hin & Hroute & Hstop).
    assert (forall r, r ∈ Session.route_stops s ->
              RouteStop.id r = RouteStop.id rs -> r = rs) as Hkey.
    { intros r Hr Hid. clear -Hnodup Hin Hr Hid.
      induction (Session.route_stops s) as [|x rest IH]; [by apply elem_of_nil in Hr|].
      simpl in Hnodup. apply NoDup_cons in Hnodup as [Hfresh Hnodup].
      apply elem_of_cons in Hr as [->|Hr]; apply elem_of_cons in Hin as [->|Hin].
      - done.
      - exfalso. apply Hfresh. rewrite Hid. apply list_elem_of_fmap. by exists rs.
      - exfalso. apply Hfresh. rewrite <- Hid. apply list_elem_of_fmap. by exists r.
      - by apply IH. }
    assert (forall r, r ∈ filter (fun r => RouteStop.id r <> RouteStop.id rs)
                           (Session.route_stops s)
                      <-> r ∈ Session.route_stops s /\ r <> rs) as Hmem.
    { intros r. rewrite list_elem_of_filter. split.
      - intros [Hid Hr]. split; [done|]. by intros ->.
      - intros [Hr Hne]. split; [|done]. intros Hid. by apply Hne, Hkey. }
    split; [done|]. split; [exact Hmem|]. split; [apply sublist_filter|].
    split; [by apply filter_other_ids_length|].
    split; [|do 6 (split; [done|])].
    + intros other Hother. unfold stops_of. cbn [Session.route_stops].
      apply stops_of_other_rows. intros r Hr Hid.
      rewrite (Hkey r Hr Hid). congruence.
    + intros Hunique. rewrite (proj2 (route_stop_of_none route_id stop_id _)); [done|].
      cbn [Session.route_stops]. intros r Hr [Hr1 Hr2].
      apply Hmem in Hr as [Hr Hne]. by apply Hne, Hunique.
Qed.

End RouteStopFacts.

Section UniqueOrder.

Context {A : Type}.
Variable key : A -> Z.

(** With distinct keys there is one way to sort. *)
Lemma sorted_perm_unique (l1 l2 : list A) :
  NoDup (map key l1) ->
  StronglySorted (fun a b => (key a <= key b)%Z) l1 ->
  StronglySorted (fun a b => (key a <= key b)%Z) l2 ->
  l1 ≡ₚ l2 -> l1 = l2.
Proof.
  revert l2. induction l1 as [|x l1 IH]; intros l2 Hnodup Hs1 Hs2 Hperm.
  { by apply Permutation_nil_l in Hperm. }
  destruct l2 as [|y l2]; [by apply Permutation_nil_r in Hperm|].
  simpl in Hnodup. apply NoDup_cons in Hnodup as [Hfresh Hnodup].
  apply StronglySorted_inv in Hs1 as [Hs1 Hx].
  apply StronglySorted_inv in Hs2 as [Hs2 Hy].
  rewrite Forall_forall in Hx, Hy.
  assert (x = y) as <-.
  { assert (x ∈ y :: l2) as Hxin by (rewrite <- Hperm; left).
    assert (y ∈ x :: l1) as Hyin by (rewrite Hperm; left).
    apply elem_of_cons in Hxin as [?|Hxin]; [done|].
    apply elem_of_cons in Hyin as [?|Hyin]; [done|].
    exfalso. apply Hfresh.
    replace (key x) with (key y).
    - apply list_elem_of_fmap. by exists y.
    - specialize (Hx y Hyin). specialize (Hy x Hxin). simpl in *. lia. }
  f_equal. apply IH; try done. by apply Permutation_cons_inv in Hperm.
Qed.

End UniqueOrder.

Section ListingFacts.

Import RouteAdmin.

Variable S : list RouteStop.t -> list RouteStop.t.
Hypothesis S_sorts : OrderBy.sorts OrderBy.by_sequence S.

(** X25. The stops of an unknown route are a 404. For a known route the
    listing holds exactly the rows of that route, in the order of their
    sequence numbers; when these are distinct the listing is the same
    whatever the database does with equal keys. *)
Theorem route_stops_listing_in_sequence (route_id : Z) (s : Session.t) :
  (Session.route_by_id route_id s = None ->
   get_route_stops S route_id s = Raise (HTTPException 404 "Route not found")) /\
  (forall route,
     Session.route_by_id route_id s = Some route ->
     exists rows,
       get_route_stops S route_id s = Ok rows /\
       StronglySorted OrderBy.by_sequence rows /\
       rows ≡ₚ stops_of route_id s /\
       (forall rs, rs ∈ rows <->
                   rs ∈ Session.route_stops s /\ RouteStop.route_id rs = route_id) /\
       (NoDup (map RouteStop.sequence (stops_of route_id s)) ->
        forall S', OrderBy.sorts OrderBy.by_sequence S' ->
          get_route_stops S' route_id s = Ok rows)).
Proof.
  unfold get_route_stops. split; [by intros ->|].
  intros route ->. eexists. split; [done|].
  split; [apply (OrderBy.sorts_sorted _ _ S_sorts)|].
  split; [apply (OrderBy.sorts_perm _ _ S_sorts)|]. split.
  - intros rs. rewrite (OrderBy.sorts_perm _ _ S_sorts). unfold stops_of.
    rewrite list_elem_of_filter. tauto.
  - intros Hdistinct S' HS'. f_equal.
    apply (sorted_perm_unique RouteStop.sequence).
    + by rewrite (OrderBy.sorts_perm _ _ HS').
    + apply (OrderBy.sorts_sorted _ _ HS').
    + apply (OrderBy.sorts_sorted _ _ S_sorts).
    + by rewrite (OrderBy.sorts_perm _ _ HS'), (OrderBy.sorts_perm _ _ S_sorts).
Qed.

End ListingFacts.

(** * The further properties on sample data *)

Section MoreWitnesses.

(** A handler of connection 2 dies on a receive error; connection 2 is
    gone when the next event is broadcast. *)
Lemma websocket_endpoint_crash_leaves_connection_witness :
  2%nat ∈ Realtime.active_connections Sample.three_observers /\
  (2%nat ∉ Realtime.active_connections
             (Realtime.broadcast Sample.render (PyStr "ping")
                Sample.three_observers).2) /\
  1%nat ∈ Realtime.active_connections
            (Realtime.broadcast Sample.render (PyStr "ping")
               Sample.three_observers).2.
Proof.
  destruct (websocket_endpoint_crash_leaves_connection Sample.render
              2 ["hello"%string] [] {[1%nat; 3%nat]} (PyStr "ping")
              Sample.three_observers)
    as (_ & Hin & Hgone & Hkept).
  - reflexivity.
  - reflexivity.
  - split; [exact Hin|]. split; [exact Hgone|]. apply Hkept; [|reflexivity].
    rewrite elem_of_union, !elem_of_singleton. by left.
Defined.

(** A sample of bus 7 stored in a table that holds one row. *)
Lemma store_and_announce_appends_fresh_row_witness :
  (Buses.store_and_announce Sample.render 7
     (Buses.new_tracking 7 (Sample.location 7) true) (Sample.world Sample.fleet)).1
  = Ok (BusTracking.stored 2 1000 (Buses.new_tracking 7 (Sample.location 7) true)) /\
  Session.bus_tracking
    (Buses.db
       (Buses.store_and_announce Sample.render 7
          (Buses.new_tracking 7 (Sample.location 7) true)
          (Sample.world Sample.fleet)).2)
  = [Sample.telemetry 1 7 100 true;
     BusTracking.stored 2 1000 (Buses.new_tracking 7 (Sample.location 7) true)].
Proof.
  destruct (store_and_announce_appends_fresh_row Sample.render 7
              (Buses.new_tracking 7 (Sample.location 7) true)
              (Sample.world Sample.fleet) eq_refl eq_refl eq_refl)
    as (Hrow & Htable & _).
  split; [exact Hrow|exact Htable].
Defined.

Lemma recorded_sample_is_latest_witness :
  Buses.latest_tracking index_walk 7
    (Buses.db
       (Buses.store_and_announce Sample.render 7
          (Buses.new_tracking 7 (Sample.location 7) true)
          (Sample.world Sample.fleet)).2)
  = Some (BusTracking.stored 2 1000 (Buses.new_tracking 7 (Sample.location 7) true)).
Proof.
  assert (forall r,
            r ∈ Session.bus_tracking (Buses.db (Sample.world Sample.fleet)) ->
            BusTracking.bus_id r
            = BusTracking.bus_id (Buses.new_tracking 7 (Sample.location 7) true) ->
            (BusTracking.timestamp r
             < Session.now (Buses.db (Sample.world Sample.fleet)))%Z) as Hclock.
  { intros r Hin _. unfold Sample.world, Sample.fleet, Sample.store in Hin.
    cbn [Buses.db Session.bus_tracking] in Hin.
    apply list_elem_of_singleton in Hin as ->. simpl. lia. }
  exact (proj1 (recorded_sample_is_latest Sample.render index_walk
                  index_walk_order_by 7
                  (Buses.new_tracking 7 (Sample.location 7) true)
                  (Sample.world Sample.fleet) Sample.assignment7 Sample.bus7
                  eq_refl eq_refl eq_refl Hclock eq_refl eq_refl)).
Defined.

Lemma store_and_announce_reaches_live_observers_witness :
  Realtime.inbox
    (Realtime.peers
       (Buses.manager
          (Buses.store_and_announce Sample.render 7
             (Buses.new_tracking 7 (Sample.location 7) true)
             (Sample.world Sample.fleet)).2)) 1
  = ["{}"%string].
Proof.
  destruct (store_and_announce_reaches_live_observers Sample.render 7
              (Buses.new_tracking 7 (Sample.location 7) true)
              (Sample.world Sample.fleet) eq_refl eq_refl)
    as (Hlive & _).
  rewrite Hlive; [reflexivity| |reflexivity].
  unfold Sample.world, Sample.two_observers. simpl.
  rewrite elem_of_union, !elem_of_singleton. by left.
Defined.

(** Bus 7 is found from its own position within any radius. *)
Lemma fleet_nearby (radius_km : R) :
  (0 <= radius_km)%R ->
  exists b,
    Buses.get_nearby_buses index_walk 0 0 radius_km Sample.fleet
    = Ok [b].
Proof.
  intros Hradius. unfold Buses.get_nearby_buses.
  change (Session.active_assignments Sample.fleet)
    with ([Sample.assignment7] ++ Sample.assignment8 :: []).
  rewrite nearby_loop_skip by reflexivity.
  cbn [app Buses.nearby_loop]. unfold Buses.nearby_status.
  change (Buses.latest_tracking index_walk
            (BusAssignment.bus_id Sample.assignment7) Sample.fleet)
    with (Some (Sample.telemetry 1 7 100 true)).
  cbn [Sample.telemetry BusTracking.latitude BusTracking.longitude].
  destruct (Rle_dec (Buses.calculate_distance 0 0 0 0) radius_km) as [_|Hfar].
  - by eexists.
  - exfalso. apply Hfar. by rewrite calculate_distance_self.
Defined.


Lemma nearby_grows_with_radius_witness :
  exists out1 out2,
    Buses.get_nearby_buses index_walk 0 0 1 Sample.fleet = Ok out1 /\
    Buses.get_nearby_buses index_walk 0 0 2 Sample.fleet = Ok out2 /\
    out1 `sublist_of` out2.
Proof.
  destruct (fleet_nearby 1) as [b1 Hout1]; [lra|].
  destruct (fleet_nearby 2) as [b2 Hout2]; [lra|].
  exists [b1], [b2]. split; [exact Hout1|]. split; [exact Hout2|].
  apply (nearby_grows_with_radius index_walk 0 0 1 2 Sample.fleet);
    [lra|exact Hout1|exact Hout2].
Defined.

Lemma nearby_is_part_of_active_status_witness :
  exists near every,
    Buses.get_nearby_buses index_walk 0 0 1 Sample.fleet = Ok near /\
    Buses.get_active_buses_status index_walk Sample.fleet = Ok every /\
    near `sublist_of` every /\ length near = 1%nat /\ length every = 2%nat.
Proof.
  destruct (fleet_nearby 1) as [b Hnear]; [lra|].
  assert (exists every,
            Buses.get_active_buses_status index_walk Sample.fleet
            = Ok every /\ length every = 2%nat) as (every & Hevery & Hlen).
  { eexists. split; reflexivity. }
  destruct (nearby_is_part_of_active_status index_walk 0 0 1
              Sample.fleet [b] every Hnear Hevery) as (Hsub & _).
  exists [b], every. by repeat split.
Defined.

(** The last hour of the log of bus 7, one hour and 150 microseconds
    after the epoch. *)
Lemma tracking_history_is_the_window_newest_first_witness :
  BusQueries.get_bus_tracking_history (OrderBy.insertion OrderBy.newer_firstb)
    7 1 3600000150 Fixtures.logbook
  = Ok [Sample.telemetry 2 7 300 true; Sample.telemetry 3 7 200 true] /\
  StronglySorted OrderBy.newer_first
    [Sample.telemetry 2 7 300 true; Sample.telemetry 3 7 200 true].
Proof.
  destruct (tracking_history_is_the_window_newest_first
              (OrderBy.insertion OrderBy.newer_firstb) newer_first_insertion
              7 1 3600000150 Fixtures.logbook) as (_ & Hknown).
  destruct (Hknown Sample.bus7 eq_refl) as (rows & Hrun & Hsorted & _).
  assert (rows = [Sample.telemetry 2 7 300 true; Sample.telemetry 3 7 200 true])
    as Hrows.
  { assert (Ok rows
            = Ok [Sample.telemetry 2 7 300 true; Sample.telemetry 3 7 200 true])
      as Heq by (rewrite <- Hrun; reflexivity).
    by injection Heq. }
  rewrite Hrows in Hrun, Hsorted. split; [exact Hrun|exact Hsorted].
Defined.

Lemma tracking_history_grows_and_starts_with_latest_witness :
  exists latest,
    Buses.latest_tracking index_walk 7 Fixtures.logbook = Some latest /\
    BusTracking.timestamp latest = 300%Z.
Proof.
  destruct (tracking_history_grows_and_starts_with_latest
              (OrderBy.insertion OrderBy.newer_firstb) newer_first_insertion
              index_walk index_walk_order_by
              7 1 2 3600000150 Fixtures.logbook
              [Sample.telemetry 2 7 300 true; Sample.telemetry 3 7 200 true]
              [Sample.telemetry 2 7 300 true; Sample.telemetry 3 7 200 true;
               Sample.telemetry 1 7 100 true])
    as (_ & _ & Hfirst); [lia|reflexivity|reflexivity|].
  destruct (Hfirst (Sample.telemetry 2 7 300 true) [Sample.telemetry 3 7 200 true]
              eq_refl) as (_ & latest & Hlatest & Hts).
  exists latest. split; [exact Hlatest|]. by rewrite <- Hts.
Defined.

(** The stops of route 5, stored out of order, listed in order. *)
Lemma route_stops_listing_in_sequence_witness :
  RouteAdmin.get_route_stops (OrderBy.insertion OrderBy.by_sequenceb) 5
    Fixtures.network
  = Ok [Fixtures.route_stop 2 5 1 10; Fixtures.route_stop 1 5 2 20] /\
  StronglySorted OrderBy.by_sequence
    [Fixtures.route_stop 2 5 1 10; Fixtures.route_stop 1 5 2 20].
Proof.
  destruct (route_stops_listing_in_sequence
              (OrderBy.insertion OrderBy.by_sequenceb) by_sequence_insertion
              5 Fixtures.network) as (_ & Hknown).
  destruct (Hknown Fixtures.route5 eq_refl) as (rows & Hrun & Hsorted & _).
  assert (rows = [Fixtures.route_stop 2 5 1 10; Fixtures.route_stop 1 5 2 20])
    as Hrows.
  { assert (Ok rows
            = Ok [Fixtures.route_stop 2 5 1 10; Fixtures.route_stop 1 5 2 20])
      as Heq by (rewrite <- Hrun; reflexivity).
    by injection Heq. }
  rewrite Hrows in Hrun, Hsorted. split; [exact Hrun|exact Hsorted].
Defined.

End MoreWitnesses.

(** * More runs on sample data *)

Section MoreRuns.

(** The direct route between the two stops of the city is route 5, served
    by bus KA-07. *)
Example find_direct_route_run :
  Routes.find_direct_route Routes.gset_order (Sample.stop 1 "Library")
    (Sample.stop 2 "Hostel")
    Sample.city
  = Ok (Some {| Routes.bus_number := "KA-07"; Routes.route_id := 5 |}).
Proof. vm_compute. reflexivity. Qed.

(** Removing stop 2 from route 5 leaves the row of stop 1. *)
Example remove_stop_from_route_run :
  (RouteAdmin.remove_stop_from_route 5 2 Fixtures.network).1
  = Ok "Stop removed from route successfully"%string /\
  Session.route_stops (RouteAdmin.remove_stop_from_route 5 2 Fixtures.network).2
  = [Fixtures.route_stop 2 5 1 10].
Proof. split; reflexivity. Qed.

(** Adding stop 2 back, with a free sequence number, passes every check
    and fails on the keyword given twice. *)
Example add_stop_to_route_run :
  RouteAdmin.add_stop_to_route 5 Fixtures.new_stop
    (RouteAdmin.remove_stop_from_route 5 2 Fixtures.network).2
  = (RouteAdmin.TypeError
       "app.models.RouteStop() got multiple values for keyword argument 'route_id'",
     (RouteAdmin.remove_stop_from_route 5 2 Fixtures.network).2).
Proof. reflexivity. Qed.

(** The status of the fleet: bus 7 at its sample, bus 8 on defaults. *)
Example get_active_buses_status_run :
  exists b7 b8,
    Buses.get_active_buses_status index_walk Sample.fleet
    = Ok [b7; b8] /\
    BusStatusSummary.last_updated b7 = 100%Z /\
    BusStatusSummary.crowd_level b7 = LOW /\
    BusStatusSummary.last_updated b8 = 600%Z /\
    BusStatusSummary.crowd_level b8 = MEDIUM.
Proof. do 2 eexists. repeat split. Qed.

End MoreRuns.
